(** * USBUART: a shallow embedding of the relay engine and its drivers

    The development follows the C++ sources: [usbuart.h] (error and status
    codes), [usbuart.hpp] / [generic.cpp] (the common driver base),
    [ftdi.cpp], [ch34x.cpp] (device drivers) and [core.cpp] (file channel,
    pipe channel, context backend and the facade).

    Machine integers are modelled as [Z] with the wrap-around of their C++
    type written out; system and libusb calls are oracles passed to the
    functions that make them, and the calls made are recorded in a trace. *)

From Stdlib Require Import ZArith List Bool Lia.
From ExtLib Require Import Structures.Monad.
Import ListNotations.
Import MonadNotation.
Open Scope Z_scope.
Open Scope monad_scope.

(** ** Fixed-width integers *)

Definition u8  (z : Z) : Z := z mod 2^8.
Definition u16 (z : Z) : Z := z mod 2^16.
Definition u32 (z : Z) : Z := z mod 2^32.

(** Conversions between C++ [bool] and integers. *)
Definition bool_to_int (b : bool) : Z := if b then 1 else 0.
Definition int_to_bool (z : Z) : bool := negb (z =? 0).

(** ** usbuart.h: error codes and status bits *)

Inductive error_t : Type :=
| success | no_channels | not_implemented | invalid_param | no_channel
| no_access | not_supported | no_device | no_interface | interface_busy
| libusb_error | usb_error | device_error | bad_baudrate | probe_mismatch
| control_error | io_error | fcntl_error | poll_error | pipe_error
| out_of_memory | jni_error | unknown_error.

(** [static_cast<int>(v)] for the enum class above. *)
Definition error_code (e : error_t) : Z :=
  match e with
  | success => 0 | no_channels => 1 | not_implemented => 2
  | invalid_param => 3 | no_channel => 4 | no_access => 5
  | not_supported => 6 | no_device => 7 | no_interface => 8
  | interface_busy => 9 | libusb_error => 10 | usb_error => 11
  | device_error => 12 | bad_baudrate => 13 | probe_mismatch => 14
  | control_error => 15 | io_error => 16 | fcntl_error => 17
  | poll_error => 18 | pipe_error => 19 | out_of_memory => 20
  | jni_error => 21 | unknown_error => 22
  end.

(** [operator-(error_t)] and [operator+(error_t)]. *)
Definition neg_err (e : error_t) : Z := - error_code e.
Definition pos_err (e : error_t) : Z := error_code e.

Definition read_pipe_ok  : Z := 1.
Definition write_pipe_ok : Z := 2.
Definition usb_dev_ok    : Z := 4.
Definition alles_gute    : Z :=
  Z.lor (Z.lor read_pipe_ok write_pipe_ok) usb_dev_ok.

(** errno values used by the sources (Linux). *)
Definition EINTR  : Z := 4.
Definition EAGAIN : Z := 11.
Definition EACCES : Z := 13.
Definition EBUSY  : Z := 16.
Definition EINVAL : Z := 22.
Definition EPIPE  : Z := 32.

(** libusb error codes used by the sources. *)
Definition LIBUSB_ERROR_NO_DEVICE : Z := -4.
Definition LIBUSB_ERROR_NOT_FOUND : Z := -5.
Definition LIBUSB_ERROR_BUSY      : Z := -6.

(** Code that may [throw] an [error_t] returns a [result]. *)
Inductive result (A : Type) : Type :=
| Ok (a : A)
| Throw (e : error_t).
Arguments Ok {A} a.
Arguments Throw {A} e.

(** ** usbuart.hpp / generic.cpp: the common driver base *)

Record interface : Type := {
  ep_bulk_in  : Z;
  ep_bulk_out : Z;
  chunk_size  : Z
}.

Definition LIBUSB_ENDPOINT_IN  : Z := 0x80.
Definition LIBUSB_ENDPOINT_OUT : Z := 0x00.
Definition LIBUSB_REQUEST_TYPE_VENDOR : Z := 0x40.

(** One control transfer as handed to [libusb_control_transfer]. *)
Record control_request : Type := {
  bmRequestType : Z;
  bRequest      : Z;
  wValue        : Z;
  wIndex        : Z
}.

(** Line parameters; the enumerations are given by their integer values
    ([parity_t]: none 0 .. space 4; [stop_bits_t]: one 0 .. two 2;
    [flow_control_t]: none_ 0 .. xon_xoff 3). *)
Record eia_tia_232_info : Type := {
  baudrate    : Z;
  databits    : Z;
  parity      : Z;
  stopbits    : Z;
  flowcontrol : Z
}.

(** I/O channel, a pair of file descriptors. *)
Record channel : Type := {
  fd_read  : Z;
  fd_write : Z
}.

(** ** The parts of libusb the sources use *)

Module Libusb.

Inductive transfer_status : Type :=
| LIBUSB_TRANSFER_COMPLETED
| LIBUSB_TRANSFER_ERROR
| LIBUSB_TRANSFER_TIMED_OUT
| LIBUSB_TRANSFER_CANCELLED
| LIBUSB_TRANSFER_STALL
| LIBUSB_TRANSFER_NO_DEVICE
| LIBUSB_TRANSFER_OVERFLOW.

(** The fields of [struct libusb_transfer] the engine reads or writes. *)
Record transfer : Type := {
  status        : transfer_status;
  length        : Z;
  actual_length : Z;
  buffer        : list Z
}.

Definition set_status (x : transfer) (s : transfer_status) : transfer :=
  {| status := s; length := length x;
     actual_length := actual_length x; buffer := buffer x |}.
Definition set_length (x : transfer) (n : Z) : transfer :=
  {| status := status x; length := n;
     actual_length := actual_length x; buffer := buffer x |}.
Definition set_actual_length (x : transfer) (n : Z) : transfer :=
  {| status := status x; length := length x;
     actual_length := n; buffer := buffer x |}.
Definition set_buffer (x : transfer) (b : list Z) : transfer :=
  {| status := status x; length := length x;
     actual_length := actual_length x; buffer := b |}.

(** The fields of [struct libusb_device_descriptor] the factories read. *)
Record device_descriptor : Type := {
  idVendor  : Z;
  idProduct : Z;
  bcdDevice : Z
}.

End Libusb.

Module Generic.

Definition vendor_reqo : Z :=
  Z.lor LIBUSB_REQUEST_TYPE_VENDOR LIBUSB_ENDPOINT_OUT.

(** Driver code runs against the device: it issues control transfers, in
    order, and may throw.  The trace of issued transfers is kept even when
    the code throws. *)
Definition io (A : Type) : Type :=
  list control_request -> result A * list control_request.

Definition ret {A} (a : A) : io A := fun t => (Ok a, t).
Definition raise {A} (e : error_t) : io A := fun t => (Throw e, t).
Definition bind {A B} (m : io A) (k : A -> io B) : io B :=
  fun t => match m t with
           | (Ok a, t') => k a t'
           | (Throw e, t') => (Throw e, t')
           end.
Definition run {A} (m : io A) : result A * list control_request := m [].

Section Device.
(** The device's answer to a control transfer: bytes transferred, or a
    negative libusb error. *)
Variable libusb_control_transfer : control_request -> Z.

(** [generic::write_cv]: throws [control_error] when the transfer
    fails. *)
Definition write_cv (req val index : Z) : io unit :=
  fun t =>
    let rq := {| bmRequestType := vendor_reqo; bRequest := u8 req;
                 wValue := u16 val; wIndex := u16 index |} in
    if libusb_control_transfer rq <? 0
    then (Throw control_error, t ++ [rq])
    else (Ok tt, t ++ [rq]).
End Device.

(** What the platform answers when a driver object is built: the result
    of [libusb_claim_interface] for an interface number and the [errno] it
    leaves, and the contents of a member that has no initialiser. *)
Record platform : Type := {
  libusb_claim_interface : Z -> Z;
  errno_after_claim      : Z;
  uninitialised          : Z
}.

(** A computation that only returns or throws, run among device
    operations. *)
Definition lift {A} (r : result A) : io A := fun t => (r, t).

(** [generic::claim_interface], on the result [r] of
    [libusb_claim_interface] and the [errno] it left. *)
Definition claim_interface (r err : Z) : result unit :=
  if r =? 0 then Ok tt
  else if r =? LIBUSB_ERROR_NO_DEVICE then Throw no_device
  else if r =? LIBUSB_ERROR_NOT_FOUND then Throw no_interface
  else if r =? LIBUSB_ERROR_BUSY then Throw interface_busy
  else if (err =? EACCES) || (err =? - EACCES) then Throw no_access
  else Throw usb_error.

End Generic.

#[global] Instance Monad_io : Monad Generic.io :=
  {| ret := @Generic.ret; bind := @Generic.bind |}.

(** ** ftdi.cpp *)

Module Ftdi.

Definition set_flowcontrol_req : Z := 0x02.
Definition set_baudrate_req    : Z := 0x03.
Definition set_data_req        : Z := 0x04.

Definition high_clk : Z := 120*1000*1000.
Definition low_clk  : Z := 48*1000*1000.

(** [enum status_bit] *)
Definition data_ready      : Z := 0.
Definition overrun_error   : Z := 1.
Definition parity_error    : Z := 2.
Definition framing_error   : Z := 3.
Definition break_interrupt : Z := 4.

Definition error_mask : Z :=
  u8 (Z.lor (Z.lor (Z.lor (Z.shiftl 1 break_interrupt)
                          (Z.shiftl 1 framing_error))
                   (Z.shiftl 1 parity_error))
            (Z.shiftl 1 overrun_error)).

(** The FTDI driver object: the [generic] fields it is built with, and its
    own [isH] and [errors]. *)
Record ftdi : Type := {
  ifc    : interface;
  ifcnum : Z;
  isH    : bool;
  errors : Z
}.

Definition mapper : list Z :=
  [0x0000; 0xC000; 0x8000; 0x0100; 0x4000; 0x4100; 0x8100; 0xC100].

Definition low_limit : Z := Z.shiftr (high_clk / 10) 14.

(** The prescaler chosen by [compute_divisors]. *)
Definition prescaler_of (ish : bool) (baudrate : Z) : Z :=
  if ish && (low_limit <? baudrate) then 10 else 16.

(** The [unsigned divisor] of [compute_divisors], with the 32-bit
    arithmetic written out. *)
Definition divisor_of (ish : bool) (baudrate : Z) : Z :=
  let clk := if ish then high_clk else low_clk in
  let prescaler := prescaler_of ish baudrate in
  let divisor :=
    u32 (u32 (u32 (Z.shiftl clk 3) / baudrate + Z.shiftr prescaler 1) - 1) in
  divisor / prescaler.

(** [ftdi::compute_divisors]: returns [(value, index)]. *)
Definition compute_divisors (ish : bool) (baudrate : Z) : Z * Z :=
  let prescaler := prescaler_of ish baudrate in
  let divisor := divisor_of ish baudrate in
  let m := nth (Z.to_nat (Z.land divisor 7)) mapper 0 in
  let index :=
    u16 (Z.lor (Z.land m 0x0100) (if prescaler =? 10 then 0x0200 else 0)) in
  let value :=
    u16 (Z.lor (Z.land (Z.shiftr divisor 3) 0x3FFF) (Z.land m 0xC000)) in
  (value, index).

Section Device.
Variable libusb_control_transfer : control_request -> Z.

Definition reset (d : ftdi) : Generic.io unit :=
  Generic.write_cv libusb_control_transfer 0 0 (ifcnum d).

(** [ftdi::setbaudrate] *)
Definition setbaudrate (d : ftdi) (baudrate : Z) : Generic.io unit :=
  let '(value, index) := compute_divisors (isH d) baudrate in
  Generic.write_cv libusb_control_transfer
    set_baudrate_req value (Z.lor index (ifcnum d)).

(** [ftdi::setlineprops] *)
Definition setlineprops (d : ftdi) (info : eia_tia_232_info)
    : Generic.io unit :=
  let value :=
    u16 (Z.lor (Z.lor (databits info) (Z.shiftl (u16 (parity info)) 8))
               (Z.shiftl (u16 (stopbits info)) 11)) in
  Generic.write_cv libusb_control_transfer set_data_req value (ifcnum d) ;;
  Generic.write_cv libusb_control_transfer
    set_flowcontrol_req (flowcontrol info) (ifcnum d).

(** [ftdi::setup]; [generic::setup] does nothing. *)
Definition setup (d : ftdi) (info : eia_tia_232_info) : Generic.io unit :=
  setbaudrate d (baudrate info) ;;
  setlineprops d info ;;
  reset d.
End Device.

(** The value and index words the specification derives from a divisor
    and a prescaler (stated from the specification, to be compared with
    [compute_divisors]). *)
Definition spec_words (divisor prescaler : Z) : Z * Z :=
  let m := nth (Z.to_nat (Z.land divisor 7)) mapper 0 in
  (Z.lor (Z.land (Z.shiftr divisor 3) 0x3FFF) (Z.land m 0xC000),
   Z.lor (Z.land m 0x0100) (if prescaler =? 10 then 0x0200 else 0)).

(** The divisor as the specification words it: [(clk * 8 / baud) /
    prescaler], without rounding. *)
Definition spec_divisor (ish : bool) (baudrate : Z) : Z :=
  let clk := if ish then high_clk else low_clk in
  ((clk * 8) / baudrate) / prescaler_of ish baudrate.

(** The divisor the code computes, in unbounded arithmetic: rounded to
    nearest by adding [prescaler / 2 - 1] before the division. *)
Definition rounded_divisor (ish : bool) (baudrate : Z) : Z :=
  let clk := if ish then high_clk else low_clk in
  let prescaler := prescaler_of ish baudrate in
  ((clk * 8) / baudrate + prescaler / 2 - 1) / prescaler.

(** [ftdi::read_callback]: returns the driver, the transfer and [readpos]
    as the call leaves them. *)
Definition read_callback (d : ftdi) (readxfer : Libusb.transfer)
    (readpos : Z) : ftdi * Libusb.transfer * Z :=
  if Libusb.actual_length readxfer <? 2 then
    (d, Libusb.set_actual_length readxfer 0, readpos)
  else
    let readpos := 2 in
    let err := u8 (Z.land (nth 1 (Libusb.buffer readxfer) 0) error_mask) in
    if negb (err =? 0) then
      ({| ifc := ifc d; ifcnum := ifcnum d; isH := isH d;
          errors := u8 (Z.lor (errors d) err) |}, readxfer, readpos)
    else (d, readxfer, readpos).

Definition l_ifc : interface :=
  {| ep_bulk_in := Z.lor 0x1 LIBUSB_ENDPOINT_IN;
     ep_bulk_out := Z.lor 0x2 LIBUSB_ENDPOINT_OUT;
     chunk_size := 64 |}.

Definition ftdi_chunk_size : Z := 64.

Definition h_ifcs : list interface :=
  [ {| ep_bulk_in := Z.lor 0x1 LIBUSB_ENDPOINT_IN;
       ep_bulk_out := Z.lor 0x2 LIBUSB_ENDPOINT_OUT;
       chunk_size := ftdi_chunk_size |};
    {| ep_bulk_in := Z.lor 0x3 LIBUSB_ENDPOINT_IN;
       ep_bulk_out := Z.lor 0x4 LIBUSB_ENDPOINT_OUT;
       chunk_size := ftdi_chunk_size |};
    {| ep_bulk_in := Z.lor 0x5 LIBUSB_ENDPOINT_IN;
       ep_bulk_out := Z.lor 0x6 LIBUSB_ENDPOINT_OUT;
       chunk_size := ftdi_chunk_size |};
    {| ep_bulk_in := Z.lor 0x7 LIBUSB_ENDPOINT_IN;
       ep_bulk_out := Z.lor 0x8 LIBUSB_ENDPOINT_OUT;
       chunk_size := ftdi_chunk_size |} ].

(** The constructor [ftdi::ftdi(d, num, ish)]:
    [generic(d, ish ? h_ifcs[num] : l_ifc, num), isH(ish)]; the [generic]
    constructor claims interface [num]. *)
Definition ftdi_ctor (pf : Generic.platform) (num : Z) (ish : bool)
    : result ftdi :=
  let i := if ish then nth (Z.to_nat num) h_ifcs l_ifc else l_ifc in
  match Generic.claim_interface (Generic.libusb_claim_interface pf num)
                                (Generic.errno_after_claim pf) with
  | Throw e => Throw e
  | Ok _ => Ok {| ifc := i; ifcnum := num; isH := ish;
                  errors := Generic.uninitialised pf |}
  end.

Definition table : list Z := [0x6001; 0x6010; 0x6011; 0x6014; 0x6015].
Definition high_speed : list Z := [0x6010; 0x6011; 0x6014].

(** The search loop of [factory::create]: [found] when it ends. *)
Fixpoint find_product (tbl : list Z) (idProduct : Z) : bool :=
  match tbl with
  | [] => false
  | i :: rest => if i =? idProduct then true else find_product rest idProduct
  end.

(** The value [factory::create] computes for [ish] once the vendor id has
    matched. *)
Definition detect_high_speed (desc : Libusb.device_descriptor) : bool :=
  let pid := Libusb.idProduct desc in
  let bcd := Libusb.bcdDevice desc in
  if negb (find_product table pid) then
    (bcd =? 0x0700) || (bcd =? 0x0800) || (bcd =? 0x0900)
  else
    ((pid =? nth 0 high_speed 0) && (bcd =? 0x0700))
    || (pid =? nth 1 high_speed 0)
    || (pid =? nth 2 high_speed 0).

(** [ftdi::factory::create(handle, num)]; [None] is [nullptr].  The last
    line is [return new ftdi(handle, ish, num)] against the constructor
    [ftdi(d, uint8_t num, bool ish)]: [ish] converts to the [uint8_t]
    parameter and [num] to the [bool] one. *)
Definition create (pf : Generic.platform)
    (desc : Libusb.device_descriptor) (num : Z) : result (option ftdi) :=
  if Z.of_nat (List.length h_ifcs) <=? num then Throw invalid_param
  else if negb (Libusb.idVendor desc =? 0x0403) then Ok None
  else
    let ish := detect_high_speed desc in
    if negb ish && int_to_bool num then Throw invalid_param
    else
      match ftdi_ctor pf (bool_to_int ish) (int_to_bool num) with
      | Throw e => Throw e
      | Ok d => Ok (Some d)
      end.

End Ftdi.

(** ** ch34x.cpp *)

Module Ch34x.

Record baudtable : Type := {
  baud : Z;
  div1 : Z;
  div2 : Z
}.

Record ch34x : Type := {
  ifcnum : Z
}.

Definition _ifc : interface :=
  {| ep_bulk_in := Z.lor 0x2 LIBUSB_ENDPOINT_IN;
     ep_bulk_out := Z.lor 0x2 LIBUSB_ENDPOINT_OUT;
     chunk_size := 256 |}.

Definition table : list baudtable :=
  [ {| baud :=   2400; div1 := 0xd901; div2 := 0x0038 |};
    {| baud :=   4800; div1 := 0x6402; div2 := 0x001f |};
    {| baud :=   9600; div1 := 0xb202; div2 := 0x0013 |};
    {| baud :=  19200; div1 := 0xd902; div2 := 0x000d |};
    {| baud :=  38400; div1 := 0x6403; div2 := 0x000a |};
    {| baud :=  57600; div1 := 0x9803; div2 := 0x0010 |};
    {| baud := 115200; div1 := 0xcc03; div2 := 0x0008 |} ].

(** Flow control values of [flow_control_t]. *)
Definition none_    : Z := 0.
Definition rts_cts  : Z := 1.
Definition dtr_dsr  : Z := 2.
Definition xon_xoff : Z := 3.

(** [driver::factory::devid32] *)
Definition devid32 (vid pid : Z) : Z :=
  u32 (Z.lor (Z.shiftl (u32 vid) 16) pid).

(** The devices [ch34x::factory::create] accepts. *)
Definition devices : list Z :=
  [devid32 0x4348 0x5523; devid32 0x1a86 0x7523; devid32 0x1a86 0x5523].

Section Device.
Variable libusb_control_transfer : control_request -> Z.

(** The [for] loop of [ch34x::setbaudrate] over the remaining table
    entries, and the [throw] after it. *)
Fixpoint setbaudrate_from (tbl : list baudtable) (baudrate : Z)
    : Generic.io unit :=
  match tbl with
  | [] => Generic.raise bad_baudrate
  | e :: rest =>
      if baud e =? baudrate then
        Generic.write_cv libusb_control_transfer 0x9a 0x1312 (div1 e) ;;
        Generic.write_cv libusb_control_transfer 0x9a 0x0f2c (div2 e)
      else setbaudrate_from rest baudrate
  end.

(** [ch34x::setbaudrate] *)
Definition setbaudrate (baudrate : Z) : Generic.io unit :=
  setbaudrate_from table baudrate.

(** [ch34x::setflowcontrol] *)
Definition setflowcontrol (fc : Z) : Generic.io unit :=
  Generic.write_cv libusb_control_transfer 0xa4
    (if fc =? rts_cts then Z.lnot (Z.shiftl 1 6)
     else if fc =? dtr_dsr then Z.lnot (Z.shiftl 1 5) else 0xFF) 0.

(** [ch34x::setup]; [reset] and [generic::setup] do nothing. *)
Definition setup (info : eia_tia_232_info) : Generic.io unit :=
  setbaudrate (baudrate info) ;; setflowcontrol (flowcontrol info).

(** [ch34x::probe] *)
Definition probe : Generic.io unit :=
  Generic.write_cv libusb_control_transfer 0xa1 0 0 ;;
  Generic.write_cv libusb_control_transfer 0x9a 0x2518 0x0050 ;;
  Generic.write_cv libusb_control_transfer 0xa1 0x501f 0xd90a.

(** The constructor [ch34x::ch34x(d, ifnum)]: the [generic] constructor
    claims the interface. *)
Definition ch34x_ctor (pf : Generic.platform) (ifnum : Z) : result ch34x :=
  match Generic.claim_interface (Generic.libusb_claim_interface pf ifnum)
                                (Generic.errno_after_claim pf) with
  | Throw e => Throw e
  | Ok _ => Ok {| ifcnum := ifnum |}
  end.

(** [ch34x::factory::create]: [probe] builds a driver object on the stack,
    probes with it and destroys it; then the driver returned is built. *)
Definition create (pf : Generic.platform) (desc : Libusb.device_descriptor)
    (ifc : Z) : Generic.io (option ch34x) :=
  let id := devid32 (Libusb.idVendor desc) (Libusb.idProduct desc) in
  if id =? 0 then ret None
  else if negb (existsb (Z.eqb id) devices) then ret None
  else
    Generic.lift (ch34x_ctor pf ifc) ;;
    probe ;;
    d <- Generic.lift (ch34x_ctor pf ifc) ;;
    ret (Some d).
End Device.

(** The baud rates the specification lists for the CH34x. *)
Definition listed_rates : list Z :=
  [2400; 4800; 9600; 19200; 38400; 57600; 115200].

End Ch34x.

(** ** core.cpp: the file channel *)

Module Core.

Definition POLLIN  : Z := 0x001.
Definition POLLOUT : Z := 0x004.
Definition POLLHUP : Z := 0x010.

(** [throw_error]: returns for the benign codes, throws otherwise. *)
Definition throw_error (err : Z) : result unit :=
  let e := if err <? 0 then - err else err in
  if (e =? EAGAIN) || (e =? EINTR) then Ok tt
  else if e =? EBUSY then Throw interface_busy
  else if e =? EACCES then Throw no_access
  else Throw io_error.

(** The drivers a channel can hold.  [Generic_driver] stands for a driver
    that inherits [generic::read_callback] (pl2303); the ch34x overrides
    it with the same body. *)
Inductive driver : Type :=
| Ftdi_driver (d : Ftdi.ftdi)
| Ch34x_driver (d : Ch34x.ch34x)
| Generic_driver (i : interface).

Definition getifc (d : driver) : interface :=
  match d with
  | Ftdi_driver f => Ftdi.ifc f
  | Ch34x_driver _ => Ch34x._ifc
  | Generic_driver i => i
  end.

(** [drv->read_callback(readxfer, pos)] *)
Definition drv_read_callback (d : driver) (x : Libusb.transfer) (pos : Z)
    : driver * Libusb.transfer * Z :=
  match d with
  | Ftdi_driver f =>
      let '(f', x', pos') := Ftdi.read_callback f x pos in
      (Ftdi_driver f', x', pos')
  | Ch34x_driver _ => (d, x, 0)
  | Generic_driver _ => (d, x, 0)
  end.

(** The three transfers of a channel, as the pointers the callbacks
    receive. *)
Inductive xfer_ptr : Type := Rd0 | Rd1 | Wr.

(** [readxfer == readxfer1], the index into [readpos] and
    [readxfer_busy]. *)
Definition is1 (p : xfer_ptr) : bool :=
  match p with Rd1 => true | _ => false end.

Definition idx {A} (a : A * A) (i : bool) : A := if i then snd a else fst a.
Definition upd {A} (a : A * A) (i : bool) (v : A) : A * A :=
  if i then (fst a, v) else (v, snd a).

Record file_channel : Type := {
  readxfer0      : Libusb.transfer;
  readxfer1      : Libusb.transfer;
  current        : xfer_ptr;
  writexfer      : Libusb.transfer;
  readpos        : Z * Z;
  readxfer_busy  : bool * bool;
  writexfer_busy : bool;
  fdrd           : Z;
  fdrw           : Z;
  drv            : driver;
  pipein_ready   : bool;
  pipeout_ready  : bool;
  pipein_hangup  : bool;
  pipeout_hangup : bool;
  device_hangup  : bool
}.

Definition xfer (ch : file_channel) (p : xfer_ptr) : Libusb.transfer :=
  match p with
  | Rd0 => readxfer0 ch
  | Rd1 => readxfer1 ch
  | Wr => writexfer ch
  end.

Definition set_xfer (ch : file_channel) (p : xfer_ptr) (x : Libusb.transfer)
    : file_channel :=
  {| readxfer0 := match p with Rd0 => x | _ => readxfer0 ch end;
     readxfer1 := match p with Rd1 => x | _ => readxfer1 ch end;
     current := current ch;
     writexfer := match p with Wr => x | _ => writexfer ch end;
     readpos := readpos ch; readxfer_busy := readxfer_busy ch;
     writexfer_busy := writexfer_busy ch; fdrd := fdrd ch; fdrw := fdrw ch;
     drv := drv ch; pipein_ready := pipein_ready ch;
     pipeout_ready := pipeout_ready ch; pipein_hangup := pipein_hangup ch;
     pipeout_hangup := pipeout_hangup ch; device_hangup := device_hangup ch |}.

Definition set_current (ch : file_channel) (p : xfer_ptr) : file_channel :=
  {| readxfer0 := readxfer0 ch; readxfer1 := readxfer1 ch; current := p;
     writexfer := writexfer ch;
     readpos := readpos ch; readxfer_busy := readxfer_busy ch;
     writexfer_busy := writexfer_busy ch; fdrd := fdrd ch; fdrw := fdrw ch;
     drv := drv ch; pipein_ready := pipein_ready ch;
     pipeout_ready := pipeout_ready ch; pipein_hangup := pipein_hangup ch;
     pipeout_hangup := pipeout_hangup ch; device_hangup := device_hangup ch |}.

Definition set_readpos (ch : file_channel) (i : bool) (v : Z)
    : file_channel :=
  {| readxfer0 := readxfer0 ch; readxfer1 := readxfer1 ch;
     current := current ch; writexfer := writexfer ch;
     readpos := upd (readpos ch) i v; readxfer_busy := readxfer_busy ch;
     writexfer_busy := writexfer_busy ch; fdrd := fdrd ch; fdrw := fdrw ch;
     drv := drv ch; pipein_ready := pipein_ready ch;
     pipeout_ready := pipeout_ready ch; pipein_hangup := pipein_hangup ch;
     pipeout_hangup := pipeout_hangup ch; device_hangup := device_hangup ch |}.

Definition set_readxfer_busy (ch : file_channel) (i : bool) (b : bool)
    : file_channel :=
  {| readxfer0 := readxfer0 ch; readxfer1 := readxfer1 ch;
     current := current ch; writexfer := writexfer ch;
     readpos := readpos ch; readxfer_busy := upd (readxfer_busy ch) i b;
     writexfer_busy := writexfer_busy ch; fdrd := fdrd ch; fdrw := fdrw ch;
     drv := drv ch; pipein_ready := pipein_ready ch;
     pipeout_ready := pipeout_ready ch; pipein_hangup := pipein_hangup ch;
     pipeout_hangup := pipeout_hangup ch; device_hangup := device_hangup ch |}.

Definition set_writexfer_busy (ch : file_channel) (b : bool)
    : file_channel :=
  {| readxfer0 := readxfer0 ch; readxfer1 := readxfer1 ch;
     current := current ch; writexfer := writexfer ch;
     readpos := readpos ch; readxfer_busy := readxfer_busy ch;
     writexfer_busy := b; fdrd := fdrd ch; fdrw := fdrw ch;
     drv := drv ch; pipein_ready := pipein_ready ch;
     pipeout_ready := pipeout_ready ch; pipein_hangup := pipein_hangup ch;
     pipeout_hangup := pipeout_hangup ch; device_hangup := device_hangup ch |}.

Definition set_drv (ch : file_channel) (d : driver) : file_channel :=
  {| readxfer0 := readxfer0 ch; readxfer1 := readxfer1 ch;
     current := current ch; writexfer := writexfer ch;
     readpos := readpos ch; readxfer_busy := readxfer_busy ch;
     writexfer_busy := writexfer_busy ch; fdrd := fdrd ch; fdrw := fdrw ch;
     drv := d; pipein_ready := pipein_ready ch;
     pipeout_ready := pipeout_ready ch; pipein_hangup := pipein_hangup ch;
     pipeout_hangup := pipeout_hangup ch; device_hangup := device_hangup ch |}.

(** The five [volatile bool] flags. *)
Inductive flag : Type :=
| Pipein_ready | Pipeout_ready | Pipein_hangup | Pipeout_hangup
| Device_hangup.

Definition set_flag (ch : file_channel) (f : flag) (b : bool)
    : file_channel :=
  {| readxfer0 := readxfer0 ch; readxfer1 := readxfer1 ch;
     current := current ch; writexfer := writexfer ch;
     readpos := readpos ch; readxfer_busy := readxfer_busy ch;
     writexfer_busy := writexfer_busy ch; fdrd := fdrd ch; fdrw := fdrw ch;
     drv := drv ch;
     pipein_ready :=
       match f with Pipein_ready => b | _ => pipein_ready ch end;
     pipeout_ready :=
       match f with Pipeout_ready => b | _ => pipeout_ready ch end;
     pipein_hangup :=
       match f with Pipein_hangup => b | _ => pipein_hangup ch end;
     pipeout_hangup :=
       match f with Pipeout_hangup => b | _ => pipeout_hangup ch end;
     device_hangup :=
       match f with Device_hangup => b | _ => device_hangup ch end |}.

(** What a channel does to the world: the system and libusb calls it
    makes and the requests it sends to the backend that owns it. *)
Inductive event : Type :=
| Submit (p : xfer_ptr)                       (* libusb_submit_transfer *)
| Cancel (p : xfer_ptr)                       (* libusb_cancel_transfer *)
| SysWrite (fd : Z) (p : xfer_ptr) (offset size : Z)
                          (* write(fd, p->buffer + offset, size) *)
| SysRead (fd : Z) (size : Z)                 (* read(fd, writebuff, size) *)
| SysClose (fd : Z)                           (* close(fd) *)
| SysPoll (nfds : Z) (timeout : Z)            (* poll(fds, nfds, timeout) *)
| HandleEvents (sec usec : Z)     (* libusb_handle_events_timeout(ctx, tv) *)
| PollRequest (fd : Z) (events : Z)           (* owner.poll_request *)
| OwnerRequestRemoval.                        (* owner.request_removal(this) *)

(** The answers of the world.  Each answer may depend on everything the
    channel did before (the trace up to and including the call). *)
Record syscalls : Type := {
  (** [write(fd, data, size)]: the result and [errno] *)
  sys_write : list event -> Z -> list Z -> Z -> Z * Z;
  (** [read(fd, buf, size)]: the result, [errno] and the bytes read *)
  sys_read : list event -> Z -> Z -> Z * Z * list Z;
  (** [libusb_submit_transfer(p)] *)
  libusb_submit_transfer : list event -> xfer_ptr -> Z
}.

(** Channel code: a state monad over the channel and the trace. *)
Definition M (A : Type) : Type :=
  file_channel -> list event -> A * file_channel * list event.

Definition M_ret {A} (a : A) : M A := fun ch t => (a, ch, t).
Definition M_bind {A B} (m : M A) (k : A -> M B) : M B :=
  fun ch t => let '(a, ch', t') := m ch t in k a ch' t'.

#[global] Instance Monad_M : Monad M :=
  {| ret := @M_ret; bind := @M_bind |}.

Definition get : M file_channel := fun ch t => (ch, ch, t).
Definition modify (f : file_channel -> file_channel) : M unit :=
  fun ch t => (tt, f ch, t).
Definition emit (e : event) : M unit := fun ch t => (tt, ch, t ++ [e]).
Definition history : M (list event) := fun ch t => (t, ch, t).
Definition when (b : bool) (m : M unit) : M unit := if b then m else ret tt.

Section Channel.
Variable os : syscalls.

(** [file_channel::chunksize] *)
Definition chunksize (ch : file_channel) : Z :=
  u16 (chunk_size (getifc (drv ch))).

(** [file_channel::close] *)
Definition close : M bool :=
  ch <- get ;;
  when (writexfer_busy ch) (emit (Cancel Wr)) ;;
  when (idx (readxfer_busy ch) false) (emit (Cancel Rd0)) ;;
  when (idx (readxfer_busy ch) true) (emit (Cancel Rd1)) ;;
  modify (fun ch => set_flag ch Pipein_hangup true) ;;
  modify (fun ch => set_flag ch Pipeout_hangup true) ;;
  ch <- get ;;
  ret (negb (idx (readxfer_busy ch) false || idx (readxfer_busy ch) true
             || writexfer_busy ch)).

(** [file_channel::request_removal] *)
Definition request_removal (enforce : bool) : M unit :=
  modify (fun ch => set_flag ch Device_hangup (device_hangup ch || enforce)) ;;
  ch <- get ;;
  when (device_hangup ch || (pipein_hangup ch && pipeout_hangup ch))
       (close ;; emit OwnerRequestRemoval).

(** [file_channel::poll_request] *)
Definition poll_request (fd : Z) (reading : bool) : M unit :=
  emit (PollRequest fd (if reading then Z.lor POLLIN POLLHUP
                        else Z.lor POLLOUT POLLHUP)).

(** [file_channel::is_error], on the [errno] the failed call left. *)
Definition is_error (errno res : Z) : M bool :=
  if errno =? EAGAIN then ret false
  else if errno =? EINTR then ret false
  else if (errno =? 0) && (res =? 0) then ret false
  else request_removal false ;; ret true.

(** [file_channel::submit_transfer] *)
Definition submit_transfer (p : xfer_ptr) : M bool :=
  emit (Submit p) ;;
  h <- history ;;
  if libusb_submit_transfer os h p =? 0 then ret true
  else request_removal true ;; ret false.

(** [file_channel::getreadbuff]: the offset of the returned pointer in the
    transfer's buffer ([None] for [nullptr]) and [size]. *)
Definition getreadbuff (ch : file_channel) (readxfer : xfer_ptr)
    : option Z * Z :=
  if idx (readxfer_busy ch) (is1 readxfer) then (None, 0)
  else (Some (idx (readpos ch) (is1 readxfer)),
        u16 (Libusb.actual_length (xfer ch readxfer)
             - idx (readpos ch) (is1 readxfer))).

(** [file_channel::getwritebuff]: whether a buffer is returned, and
    [size]. *)
Definition getwritebuff (ch : file_channel) : bool * Z :=
  if writexfer_busy ch then (false, 0) else (true, chunksize ch).

(** [file_channel::submit] *)
Definition submit (size : Z) : M unit :=
  modify (fun ch => set_xfer ch Wr (Libusb.set_length (writexfer ch) size)) ;;
  b <- submit_transfer Wr ;;
  modify (fun ch => set_writexfer_busy ch b).

(** [file_channel::consumed]; [size] is the [uint16_t] parameter. *)
Definition consumed (readxfer : xfer_ptr) (size : Z) : M bool :=
  ch <- get ;;
  if idx (readxfer_busy ch) (is1 readxfer) then ret false
  else
    let pos := u16 (idx (readpos ch) (is1 readxfer) + size) in
    modify (fun ch => set_readpos ch (is1 readxfer) pos) ;;
    if Libusb.actual_length (xfer ch readxfer) <=? pos then
      b <- submit_transfer readxfer ;;
      modify (fun ch => set_readxfer_busy ch (is1 readxfer) b) ;;
      modify (fun ch => set_current ch (if is1 readxfer then Rd0 else Rd1)) ;;
      ret true
    else ret false.

(** The bytes [write] is handed: [size] bytes of the buffer from
    [offset]. *)
Definition payload (x : Libusb.transfer) (offset size : Z) : list Z :=
  firstn (Z.to_nat size) (skipn (Z.to_nat offset) (Libusb.buffer x)).

(** [file_channel::writepipe] *)
Definition writepipe (transfer : xfer_ptr) : M unit :=
  ch <- get ;;
  let '(buff, size) := getreadbuff ch transfer in
  if size =? 0 then ret tt
  else
    let offset := match buff with Some o => o | None => 0 end in
    emit (SysWrite (fdrw ch) transfer offset size) ;;
    h <- history ;;
    let '(res, errno) :=
      sys_write os h (fdrw ch) (payload (xfer ch transfer) offset size) size in
    e <- (if res <=? 0 then is_error errno res else ret false) ;;
    if e then modify (fun ch => set_flag ch Pipeout_hangup true)
    else if 0 <? res then
      c <- consumed transfer (u16 res) ;;
      when (negb c) (poll_request (fdrw ch) false)
    else ret tt.

(** [file_channel::readpipe] *)
Definition readpipe : M unit :=
  ch <- get ;;
  let '(buff, size) := getwritebuff ch in
  emit (SysRead (fdrd ch) size) ;;
  h <- history ;;
  let '(res, errno, data) := sys_read os h (fdrd ch) size in
  when (buff && (0 <? res))
    (modify (fun ch => set_xfer ch Wr
       (Libusb.set_buffer (writexfer ch)
          (firstn (Z.to_nat res) data
           ++ skipn (Z.to_nat res) (Libusb.buffer (writexfer ch)))))) ;;
  e <- (if res <=? 0 then is_error errno res else ret false) ;;
  if e then modify (fun ch => set_flag ch Pipein_hangup true)
  else if 0 <? res then submit (u16 res)
  else if res =? 0 then modify (fun ch => set_flag ch Pipein_hangup true)
  else poll_request (fdrd ch) true.

(** [file_channel::set_events] *)
Definition set_events (events : Z) (read : bool) : M unit :=
  when (negb (Z.land events POLLIN =? 0))
    (modify (fun ch => set_flag ch Pipein_ready true)) ;;
  when (negb (Z.land events POLLOUT =? 0))
    (modify (fun ch => set_flag ch Pipeout_ready true)) ;;
  when (negb (Z.land events POLLHUP =? 0))
    (modify (fun ch => set_flag ch
               (if read then Pipein_hangup else Pipeout_hangup) true) ;;
     request_removal false).

(** [file_channel::events] *)
Definition events : M unit :=
  ch <- get ;;
  when (pipein_ready ch) readpipe ;;
  ch <- get ;;
  when (pipeout_ready ch) (writepipe (current ch)).

(** [file_channel::status] *)
Definition status (ch : file_channel) : Z :=
  Z.lor (Z.lor (if pipein_hangup ch then 0 else read_pipe_ok)
               (if pipeout_hangup ch then 0 else write_pipe_ok))
        (if device_hangup ch then 0 else usb_dev_ok).

(** [file_channel::busy] *)
Definition busy (ch : file_channel) : bool :=
  writexfer_busy ch || idx (readxfer_busy ch) false
  || idx (readxfer_busy ch) true.

(** [file_channel::error_callback] *)
Definition error_callback (transfer : xfer_ptr) : M bool :=
  when (match transfer with Rd0 => true | _ => false end)
    (modify (fun ch => set_readxfer_busy ch false false)) ;;
  when (match transfer with Rd1 => true | _ => false end)
    (modify (fun ch => set_readxfer_busy ch true false)) ;;
  when (match transfer with Wr => true | _ => false end)
    (modify (fun ch => set_writexfer_busy ch false)) ;;
  ch <- get ;;
  match Libusb.status (xfer ch transfer) with
  | Libusb.LIBUSB_TRANSFER_CANCELLED
  | Libusb.LIBUSB_TRANSFER_NO_DEVICE => request_removal true ;; ret false
  | Libusb.LIBUSB_TRANSFER_TIMED_OUT
  | Libusb.LIBUSB_TRANSFER_COMPLETED => ret false
  | Libusb.LIBUSB_TRANSFER_ERROR
  | Libusb.LIBUSB_TRANSFER_STALL
  | Libusb.LIBUSB_TRANSFER_OVERFLOW => request_removal true ;; ret true
  end.

(** [file_channel::read_callback] *)
Definition read_callback (readxfer : xfer_ptr) : M unit :=
  modify (fun ch =>
    let '(d, x, pos) :=
      drv_read_callback (drv ch) (xfer ch readxfer)
                        (idx (readpos ch) (is1 readxfer)) in
    set_readpos (set_xfer (set_drv ch d) readxfer x) (is1 readxfer) pos) ;;
  ch <- get ;;
  if pipeout_hangup ch then ret tt
  else if Libusb.actual_length (xfer ch readxfer)
          <=? idx (readpos ch) (is1 readxfer) then
    b <- submit_transfer readxfer ;;
    modify (fun ch => set_readxfer_busy ch (is1 readxfer) b)
  else
    modify (fun ch => set_readxfer_busy ch (is1 readxfer) false) ;;
    writepipe readxfer.

(** [memmove(buffer, buffer + from, n)] *)
Definition memmove (b : list Z) (from n : Z) : list Z :=
  firstn (Z.to_nat n) (skipn (Z.to_nat from) b) ++ skipn (Z.to_nat n) b.

(** [file_channel::write_callback] *)
Definition write_callback : M unit :=
  ch <- get ;;
  if pipein_hangup ch then ret tt
  else
    let w := writexfer ch in
    if Libusb.actual_length w <? Libusb.length w then
      when (negb (Libusb.actual_length w =? 0))
        (modify (fun ch => set_xfer ch Wr
           (Libusb.set_buffer w
              (memmove (Libusb.buffer w) (Libusb.actual_length w)
                       (Libusb.length w - Libusb.actual_length w))))) ;;
      b <- submit_transfer Wr ;;
      modify (fun ch => set_writexfer_busy ch b)
    else
      modify (fun ch => set_writexfer_busy ch false) ;;
      readpipe.

(** [file_channel::read_cb] *)
Definition read_cb (transfer : xfer_ptr) : M unit :=
  ch <- get ;;
  match Libusb.status (xfer ch transfer) with
  | Libusb.LIBUSB_TRANSFER_COMPLETED => read_callback transfer
  | _ => e <- error_callback transfer ;; when e (read_callback transfer)
  end.

(** [file_channel::write_cb] *)
Definition write_cb (transfer : xfer_ptr) : M unit :=
  ch <- get ;;
  match Libusb.status (xfer ch transfer) with
  | Libusb.LIBUSB_TRANSFER_COMPLETED => write_callback
  | _ => e <- error_callback transfer ;; when e write_callback
  end.

(** A completion as libusb delivers it: it stores the status, the number
    of bytes transferred and (for an IN transfer) the bytes received in the
    transfer, then calls the transfer's callback. *)
Definition complete (p : xfer_ptr) (st : Libusb.transfer_status)
    (n : Z) (data : list Z) : M unit :=
  modify (fun ch =>
    let x := xfer ch p in
    set_xfer ch p
      {| Libusb.status := st; Libusb.length := Libusb.length x;
         Libusb.actual_length := n;
         Libusb.buffer :=
           match p with
           | Wr => Libusb.buffer x
           | _ => firstn (Z.to_nat n) data
                  ++ skipn (Z.to_nat n) (Libusb.buffer x)
           end |}) ;;
  match p with Wr => write_cb p | _ => read_cb p end.

End Channel.

End Core.

(** ** core.cpp: pipe channel, registry, context backend and facade *)

Module Context.
Import Core.

(** [pipe_channel]: a file channel and the caller's ends of the pipes. *)
Record pipe_channel : Type := {
  base : file_channel;
  exrd : Z;
  exrw : Z
}.

(** A channel object on the heap, by its dynamic type. *)
Inductive child : Type :=
| File_child (c : file_channel)
| Pipe_child (c : pipe_channel).

Definition base_of (c : child) : file_channel :=
  match c with
  | File_child f => f
  | Pipe_child p => base p
  end.

Definition with_base (c : child) (f : file_channel) : child :=
  match c with
  | File_child _ => File_child f
  | Pipe_child p => Pipe_child {| base := f; exrd := exrd p; exrw := exrw p |}
  end.

(** The virtual [equals(const channel&)]. *)
Definition equals (c : child) (ch : channel) : bool :=
  match c with
  | File_child f => (fd_read ch =? fdrd f) || (fd_write ch =? fdrw f)
  | Pipe_child p => (fd_read ch =? exrd p) || (fd_write ch =? exrw p)
  end.

(** [file_channel::operator==(int fd)] *)
Definition owns_fd (f : file_channel) (fd : Z) : bool :=
  (fdrd f =? fd) || (fdrw f =? fd).

(** A transfer before [init] has filled it. *)
Definition null_transfer : Libusb.transfer :=
  {| Libusb.status := Libusb.LIBUSB_TRANSFER_COMPLETED; Libusb.length := 0;
     Libusb.actual_length := 0; Libusb.buffer := [] |}.

(** The constructor of [file_channel].  [set_nonblocking] is taken to
    succeed: the constructor is [noexcept]. *)
Definition file_channel_ctor (ch : channel) (d : driver) : file_channel :=
  {| readxfer0 := null_transfer; readxfer1 := null_transfer;
     current := Rd0; writexfer := null_transfer;
     readpos := (0, 0); readxfer_busy := (false, false);
     writexfer_busy := false;
     fdrd := fd_read ch; fdrw := fd_write ch; drv := d;
     pipein_ready := false; pipeout_ready := false;
     pipein_hangup := false; pipeout_hangup := false;
     device_hangup := false |}.

(** [pipe_channel::bipipe::bipipe(ex)], on the results of the two calls of
    [pipe(2)] ([None] when the call fails, else the pair of descriptors
    [(a[0], a[1])]).  Returns the channel handed to the [file_channel]
    constructor and [ex] as the constructor leaves it, and the descriptors
    closed on the way. *)
Definition bipipe (a b : option (Z * Z)) (ex : channel)
    : result (channel * channel) * list Z :=
  match a with
  | None => (Throw pipe_error, [])
  | Some (a0, a1) =>
      match b with
      | None => (Throw pipe_error, [a0; a1])
      | Some (b0, b1) =>
          (Ok ({| fd_read := a0; fd_write := b1 |},
               {| fd_read := b0; fd_write := b1 |}), [])
      end
  end.

(** The constructor of [pipe_channel]:
    [file_channel(_owner, bipipe(ch), _drv), exrd(ch.fd_read),
    exrw(ch.fd_write)]. *)
Definition pipe_channel_ctor (a b : option (Z * Z)) (ch : channel)
    (d : driver) : result (pipe_channel * channel) * list Z :=
  match bipipe a b ch with
  | (Throw e, closed) => (Throw e, closed)
  | (Ok (inner, ex), closed) =>
      (Ok ({| base := file_channel_ctor inner d;
              exrd := fd_read ex; exrw := fd_write ex |}, ex), closed)
  end.

(** The descriptors [~pipe_channel] closes, in order; [~file_channel]
    closes none. *)
Definition pipe_channel_dtor (p : pipe_channel) : list Z :=
  [exrd p; fdrw (base p); fdrd (base p); exrw p].

(** The descriptors closed when a channel object is deleted. *)
Definition delete_child (c : child) : list Z :=
  match c with
  | File_child _ => []
  | Pipe_child p => pipe_channel_dtor p
  end.

(** [file_channel::init].  [alloc_ok] tells whether the six allocations
    succeed; the contents of a fresh buffer are taken to be zeros. *)
Definition fresh_transfer (len size : Z) : Libusb.transfer :=
  {| Libusb.status := Libusb.LIBUSB_TRANSFER_COMPLETED;
     Libusb.length := len; Libusb.actual_length := 0;
     Libusb.buffer := repeat 0 (Z.to_nat size) |}.

Definition init (os : syscalls) (alloc_ok : bool)
    : file_channel -> list event -> result unit * file_channel * list event :=
  fun ch t =>
    if negb alloc_ok then (Throw out_of_memory, ch, t)
    else
      let m : M unit :=
        modify (fun ch =>
          set_current
            (set_xfer
               (set_xfer
                  (set_xfer ch Rd0
                     (fresh_transfer (chunksize ch) (chunksize ch)))
                  Rd1 (fresh_transfer (chunksize ch) (chunksize ch)))
               Wr (fresh_transfer 0 (chunksize ch)))
            Rd0) ;;
        b0 <- submit_transfer os Rd0 ;;
        modify (fun ch => set_readxfer_busy ch false b0) ;;
        b1 <- submit_transfer os Rd1 ;;
        modify (fun ch => set_readxfer_busy ch true b1) ;;
        readpipe os in
      let '(_, ch', t') := m ch t in (Ok tt, ch', t').

(** *** The driver registry *)

Definition factory : Type :=
  Libusb.device_descriptor -> Z -> Generic.io (option driver).

(** [registry::create]: the first factory that returns a driver wins; a
    factory that throws ends the search. *)
Fixpoint registry_create (list : list factory)
    (desc : Libusb.device_descriptor) (id : Z) : Generic.io driver :=
  match list with
  | [] => Generic.raise not_supported
  | f :: rest =>
      r <- f desc id ;;
      match r with
      | Some d => ret d
      | None => registry_create rest desc id
      end
  end.

Definition ftdi_factory (pf : Generic.platform) : factory :=
  fun desc num =>
    r <- Generic.lift (Ftdi.create pf desc num) ;;
    ret (option_map Ftdi_driver r).

Definition ch34x_factory (pf : Generic.platform)
    (usb : control_request -> Z) : factory :=
  fun desc ifc =>
    r <- Ch34x.create usb pf desc ifc ;;
    ret (option_map Ch34x_driver r).

(** [drv->setup(pi)] *)
Definition drv_setup (usb : control_request -> Z) (d : driver)
    (pi : eia_tia_232_info) : Generic.io unit :=
  match d with
  | Ftdi_driver f => Ftdi.setup usb f pi
  | Ch34x_driver _ => Ch34x.setup usb pi
  | Generic_driver _ => ret tt
  end.

(** [safe]: the thrown [error_t] becomes the negative return code. *)
Definition safe (r : result Z) : Z :=
  match r with
  | Ok v => v
  | Throw e => neg_err e
  end.

(** [throw_if] and [validate(const eia_tia_232_info&)] *)
Definition throw_if (bad : bool) : result unit :=
  if bad then Throw invalid_param else Ok tt.

Definition and_then {A B} (r : result A) (k : A -> result B) : result B :=
  match r with
  | Ok a => k a
  | Throw e => Throw e
  end.

Definition validate_info (i : eia_tia_232_info) : result unit :=
  and_then (throw_if ((databits i <? 5) || (9 <? databits i))) (fun _ =>
  and_then (throw_if (4 <? parity i)) (fun _ =>
  and_then (throw_if (2 <? stopbits i)) (fun _ =>
  and_then (throw_if (3 <? flowcontrol i)) (fun _ =>
  throw_if (baudrate i =? 0))))).

(** *** The context backend *)

Record pollfd : Type := {
  fd      : Z;
  events  : Z;
  revents : Z
}.

(** The backend: the channel objects by address, and the lists that hold
    their addresses. *)
Record backend : Type := {
  objects     : list (nat * child);
  poll_list   : list pollfd;
  child_list  : list nat;
  delete_list : list nat;
  pending     : bool
}.

Definition set_objects (b : backend) (o : list (nat * child)) : backend :=
  {| objects := o; poll_list := poll_list b; child_list := child_list b;
     delete_list := delete_list b; pending := pending b |}.
Definition set_poll_list (b : backend) (l : list pollfd) : backend :=
  {| objects := objects b; poll_list := l; child_list := child_list b;
     delete_list := delete_list b; pending := pending b |}.
Definition set_child_list (b : backend) (l : list nat) : backend :=
  {| objects := objects b; poll_list := poll_list b; child_list := l;
     delete_list := delete_list b; pending := pending b |}.
Definition set_delete_list (b : backend) (l : list nat) : backend :=
  {| objects := objects b; poll_list := poll_list b;
     child_list := child_list b; delete_list := l; pending := pending b |}.
Definition set_pending (b : backend) (p : bool) : backend :=
  {| objects := objects b; poll_list := poll_list b;
     child_list := child_list b; delete_list := delete_list b;
     pending := p |}.

Fixpoint deref (o : list (nat * child)) (a : nat) : option child :=
  match o with
  | [] => None
  | (k, c) :: rest => if Nat.eqb k a then Some c else deref rest a
  end.

Fixpoint store (o : list (nat * child)) (a : nat) (c : child)
    : list (nat * child) :=
  match o with
  | [] => [(a, c)]
  | (k, c') :: rest =>
      if Nat.eqb k a then (k, c) :: rest else (k, c') :: store rest a c
  end.

Definition free (o : list (nat * child)) (a : nat) : list (nat * child) :=
  filter (fun kc => negb (Nat.eqb (fst kc) a)) o.

(** An address no object lives at. *)
Definition fresh_address (o : list (nat * child)) : nat :=
  S (fold_right Nat.max 0%nat (map fst o)).

(** [util::erase] on a vector of addresses and on the poll list. *)
Definition erase (l : list nat) (a : nat) : list nat :=
  filter (fun k => negb (Nat.eqb k a)) l.
Definition erase_fd (l : list pollfd) (f : Z) : list pollfd :=
  filter (fun p => negb (fd p =? f)) l.

(** [backend::request_removal(child)] *)
Definition request_removal (b : backend) (a : nat) : backend :=
  let b := set_child_list b (erase (child_list b) a) in
  if existsb (Nat.eqb a) (delete_list b) then b
  else set_delete_list b (delete_list b ++ [a]).

(** [backend::poll_request(fd, events)] *)
Definition poll_request (b : backend) (f : Z) (ev : Z) : backend :=
  if existsb (fun p => fd p =? f) (poll_list b) then b
  else set_poll_list b (poll_list b ++ [{| fd := f; events := ev;
                                           revents := 0 |}]).

(** The requests a channel sent to its owner, carried out in order. *)
Fixpoint serve (b : backend) (a : nat) (requests : list event) : backend :=
  match requests with
  | [] => b
  | PollRequest f ev :: rest => serve (poll_request b f ev) a rest
  | OwnerRequestRemoval :: rest => serve (request_removal b a) a rest
  | _ :: rest => serve b a rest
  end.

(** Run channel code on the object at address [a]. *)
Definition on_child {A} (a : nat) (m : M A) (default : A)
    (b : backend) (t : list event) : A * backend * list event :=
  match deref (objects b) a with
  | None => (default, b, t)
  | Some c =>
      let '(r, f, t') := m (base_of c) t in
      let b := set_objects b (store (objects b) a (with_base c f)) in
      (r, serve b a (skipn (List.length t) t'), t')
  end.

(** *** The event loop *)

(** A completion libusb reports while it handles events: the channel
    object and transfer it belongs to, and what [complete] stores. *)
Record completion : Type := {
  owner       : nat;
  which       : xfer_ptr;
  outcome     : Libusb.transfer_status;
  transferred : Z;
  received    : list Z
}.

(** The answers of the kernel and of libusb to the backend; as for
    [syscalls], an answer may depend on the trace so far. *)
Record kernel : Type := {
  (** [poll(fds, nfds, timeout)]: the result, [errno] and the [revents]
      stored in the entries *)
  sys_poll : list event -> list pollfd -> Z -> Z * Z * list Z;
  (** [libusb_get_pollfds] *)
  libusb_get_pollfds : list event -> list pollfd;
  (** [libusb_handle_events_timeout]: the completions whose callbacks
      run, and the return value *)
  libusb_handle_events_timeout : list event -> list completion * Z
}.

Section Loop.
Variable os : syscalls.
Variable k : kernel.

(** [maketimeval] *)
Definition maketimeval (ms : Z) : Z * Z :=
  if ms <? 0 then (0, 0) else (Z.quot ms 1000, Z.rem ms 1000 * 1000).

Fixpoint run_callbacks (cs : list completion) (b : backend)
    (t : list event) : backend * list event :=
  match cs with
  | [] => (b, t)
  | c :: rest =>
      let '(_, b', t') :=
        on_child (owner c)
          (complete os (which c) (outcome c) (transferred c) (received c))
          tt b t in
      run_callbacks rest b' t'
  end.

(** [backend::handle_libusb_events] *)
Definition handle_libusb_events (timeout : Z) (b : backend)
    (t : list event) : Z * backend * list event :=
  let tv := maketimeval timeout in
  let t := t ++ [HandleEvents (fst tv) (snd tv)] in
  let '(cs, rc) := libusb_handle_events_timeout k t in
  let '(b', t') := run_callbacks cs b t in
  (rc, b', t').

(** [util::find(child_list, item)]: the first channel that owns the
    descriptor. *)
Fixpoint find_owner (o : list (nat * child)) (l : list nat) (f : Z)
    : option nat :=
  match l with
  | [] => None
  | a :: rest =>
      match deref o a with
      | Some c => if owns_fd (base_of c) f then Some a
                  else find_owner o rest f
      | None => find_owner o rest f
      end
  end.

(** The [for] loop of [poll_events] over the remaining items. *)
Fixpoint dispatch (items : list pollfd) (polled : Z) (b : backend)
    (t : list event) : Z * backend * list event :=
  match items with
  | [] => (polled, b, t)
  | item :: rest =>
      if polled =? 0 then (polled, b, t)
      else
        match find_owner (objects b) (child_list b) (fd item) with
        | None => dispatch rest polled b t
        | Some a =>
            if negb (revents item =? 0) then
              let rd :=
                match deref (objects b) a with
                | Some c => fd item =? fdrd (base_of c)
                | None => false
                end in
              let '(_, b', t') :=
                on_child a (set_events (revents item) rd) tt b t in
              let b' := set_poll_list b' (erase_fd (poll_list b') (fd item)) in
              dispatch rest (polled - 1) (set_pending b' true) t'
            else dispatch rest polled b t
        end
  end.

(** The [revents] that [poll] stores in the entries it was handed. *)
Fixpoint store_revents (l : list pollfd) (revs : list Z) : list pollfd :=
  match l, revs with
  | p :: l', r :: revs' =>
      {| fd := fd p; events := events p; revents := r |}
      :: store_revents l' revs'
  | _, _ => l
  end.

(** [backend::poll_events].  The copy [pollfd_list] is made before the
    call of [poll], which is handed [poll_list] itself. *)
Definition poll_events (timeout : Z) (b : backend) (t : list event)
    : result Z * backend * list event :=
  if (Z.of_nat (List.length (poll_list b)) =? 0) then (Ok 0, b, t)
  else
    let pollfd_list := poll_list b ++ libusb_get_pollfds k t in
    let t := t ++ [SysPoll (Z.of_nat (List.length (poll_list b))) timeout] in
    let '(polled, errno, revs) := sys_poll k t (poll_list b) timeout in
    let b := set_poll_list b (store_revents (poll_list b) revs) in
    if polled <? 0 then
      if polled =? EINVAL then (Throw poll_error, b, t)
      else
        match throw_error errno with
        | Throw e => (Throw e, b, t)
        | Ok _ => (Ok polled, b, t)
        end
    else
      let '(p, b', t') := dispatch pollfd_list polled b t in
      (Ok p, b', t').

(** [backend::handle_events] *)
Definition handle_events (timeout : Z) (b : backend) (t : list event)
    : result Z * backend * list event :=
  if (Z.of_nat (List.length (poll_list b)) =? 0) then
    let '(rc, b', t') := handle_libusb_events timeout b t in (Ok rc, b', t')
  else
    match poll_events timeout b t with
    | (Throw e, b', t') => (Throw e, b', t')
    | (Ok res, b', t') =>
        if 0 <=? res then
          let '(rc, b'', t'') := handle_libusb_events timeout b' t' in
          (Ok rc, b'', t'')
        else (Ok res, b', t')
    end.

(** [backend::cleanup], the sweep over the remaining part of
    [delete_list]; channels that are busy stay. *)
Fixpoint sweep (l : list nat) (b : backend) (t : list event)
    : list nat * backend * list event :=
  match l with
  | [] => ([], b, t)
  | a :: rest =>
      match deref (objects b) a with
      | None =>
          let '(l', b', t') := sweep rest b t in (a :: l', b', t')
      | Some c =>
          if busy (base_of c) then
            let '(l', b', t') := sweep rest b t in (a :: l', b', t')
          else
            let b1 :=
              set_poll_list b
                (erase_fd (erase_fd (poll_list b) (fdrd (base_of c)))
                          (fdrw (base_of c))) in
            let '(_, b2, t2) := on_child a close true b1 t in
            let t3 :=
              match deref (objects b2) a with
              | Some c' => t2 ++ map SysClose (delete_child c')
              | None => t2
              end in
            sweep rest (set_objects b2 (free (objects b2) a)) t3
      end
  end.

Definition cleanup (b : backend) (t : list event)
    : bool * backend * list event :=
  let '(l, b', t') := sweep (delete_list b) b t in
  let b'' := set_delete_list b' l in
  (Z.of_nat (List.length (child_list b'')) =? 0, b'', t').

(** [backend::handle_pending_events]: the iterator is an index into the
    vector, which [events] may shorten while the loop runs; the loop is
    followed as long as the index is inside the vector. *)
Fixpoint pending_loop (fuel i : nat) (b : backend) (t : list event)
    : backend * list event :=
  match fuel with
  | O => (b, t)
  | S fuel' =>
      match nth_error (child_list b) i with
      | None => (b, t)
      | Some a =>
          let '(_, b', t') := on_child a (Core.events os) tt b t in
          pending_loop fuel' (S i) b' t'
      end
  end.

Definition handle_pending_events (b : backend) (t : list event)
    : backend * list event :=
  let '(b', t') := pending_loop (List.length (child_list b)) 0 b t in
  (set_pending b' false, t').

(** [context::loop], with the [safe] wrapper around its body. *)
Definition loop (timeout : Z) (b : backend) (t : list event)
    : Z * backend * list event :=
  match handle_events timeout b t with
  | (Throw e, b', t') => (safe (Throw e), b', t')
  | (Ok result, b1, t1) =>
      let '(b2, t2) :=
        if pending b1 then handle_pending_events b1 t1 else (b1, t1) in
      let '(b3, t3) :=
        if negb (Z.of_nat (List.length (delete_list b2)) =? 0) then
          let '(_, b', t') := handle_libusb_events timeout b2 t2 in
          let '(_, b'', t'') := cleanup b' t' in (b'', t'')
        else (b2, t2) in
      (safe (Ok (if (result =? 0)
                    && (Z.of_nat (List.length (child_list b3)) =? 0)
                 then neg_err no_channels else result)), b3, t3)
  end.

End Loop.

(** *** Attach and the facade *)

(** [backend::find(const channel&)] *)
Fixpoint find_in (o : list (nat * child)) (dl l : list nat) (ch : channel)
    : option nat :=
  match l with
  | [] => None
  | a :: rest =>
      match deref o a with
      | Some c =>
          if equals c ch && negb (existsb (Nat.eqb a) dl) then Some a
          else find_in o dl rest ch
      | None => find_in o dl rest ch
      end
  end.

Definition find (b : backend) (ch : channel) : option nat :=
  find_in (objects b) (delete_list b) (child_list b) ch.

(** [context::status] *)
Definition context_status (b : backend) (ch : channel) : Z :=
  safe (Ok match find b ch with
           | None => neg_err no_channel
           | Some a =>
               match deref (objects b) a with
               | Some c => status (base_of c)
               | None => neg_err no_channel
               end
           end).

(** [context::close] *)
Definition context_close (b : backend) (ch : channel) : backend :=
  match find b ch with
  | None => b
  | Some a => request_removal b a
  end.

(** What [attach] meets on its way. *)
Record attach_env : Type := {
  (** the device [find] returns, by its descriptor; [None] is [nullptr] *)
  found      : option Libusb.device_descriptor;
  (** the result of [libusb_open] and the [errno] it leaves *)
  open_res   : Z;
  open_errno : Z;
  usb        : control_request -> Z;
  (** the results of the two [pipe(2)] calls of a pipe channel *)
  pipe_a     : option (Z * Z);
  pipe_b     : option (Z * Z);
  alloc_ok   : bool
}.

(** [backend::create]: open the device and ask the registry. *)
Definition create (env : attach_env) (registrar : list factory)
    (desc : Libusb.device_descriptor) (id : Z) : Generic.io driver :=
  Generic.lift
    (if negb (open_res env =? 0) then
       throw_error (if open_errno env =? 0 then open_res env
                    else open_errno env)
     else Ok tt) ;;
  registry_create registrar desc id.

(** What [attach] leaves: the value returned or the error thrown, the
    caller's [channel], the backend, the trace and the control transfers
    issued. *)
Record attached : Type := {
  returned : result Z;
  ex       : channel;
  backend' : backend;
  trace    : list event;
  controls : list control_request
}.

(** [backend::attach(dev, ifc, ch, pi, pipes)].  A channel object that
    was built is deleted when a later step throws. *)
Definition attach (os : syscalls) (env : attach_env)
    (registrar : list factory) (ifc : Z) (ch : channel)
    (pi : eia_tia_232_info) (pipes : bool) (b : backend) (t : list event)
    : attached :=
  match found env with
  | None => {| returned := Ok (neg_err no_device); ex := ch; backend' := b;
               trace := t; controls := [] |}
  | Some desc =>
      match Generic.run (create env registrar desc ifc) with
      | (Throw e, ctl) =>
          {| returned := Throw e; ex := ch; backend' := b; trace := t;
             controls := ctl |}
      | (Ok d, ctl) =>
          let built :=
            if pipes then
              match pipe_channel_ctor (pipe_a env) (pipe_b env) ch d with
              | (Throw e, closed) => (Throw e, closed)
              | (Ok (p, ex), closed) => (Ok (Pipe_child p, ex), closed)
              end
            else (Ok (File_child (file_channel_ctor ch d), ch), []) in
          match built with
          | (Throw e, closed) =>
              {| returned := Throw e; ex := ch; backend' := b;
                 trace := t ++ map SysClose closed; controls := ctl |}
          | (Ok (c, ex), closed) =>
              let t := t ++ map SysClose closed in
              match drv_setup (usb env) d pi ctl with
              | (Throw e, ctl') =>
                  {| returned := Throw e; ex := ex; backend' := b;
                     trace := t ++ map SysClose (delete_child c);
                     controls := ctl' |}
              | (Ok _, ctl') =>
                  match init os (alloc_ok env) (base_of c) t with
                  | (Throw e, f, t') =>
                      {| returned := Throw e; ex := ex; backend' := b;
                         trace :=
                           t' ++ map SysClose (delete_child (with_base c f));
                         controls := ctl' |}
                  | (Ok _, f, t') =>
                      let a := fresh_address (objects b) in
                      let b1 :=
                        set_objects b (objects b ++ [(a, with_base c f)]) in
                      let b2 := serve b1 a (skipn (List.length t) t') in
                      let b3 := set_child_list b2 (child_list b2 ++ [a]) in
                      {| returned := Ok (pos_err success); ex := ex;
                         backend' := b3; trace := t'; controls := ctl' |}
                  end
              end
          end
      end
  end.

(** [context::attach(id, ch, pi)]: validation, then [attach], inside
    [safe].  [fd_valid] tells whether [fcntl(fd, F_GETFD)] succeeds. *)
Definition validate_channel (fd_valid : Z -> bool) (ch : channel)
    : result unit :=
  and_then (throw_if (negb (fd_valid (fd_read ch)))) (fun _ =>
  throw_if (negb (fd_valid (fd_write ch)))).

Definition context_attach (os : syscalls) (env : attach_env)
    (fd_valid : Z -> bool) (registrar : list factory) (ifc : Z)
    (ch : channel) (pi : eia_tia_232_info) (b : backend) (t : list event)
    : Z * attached :=
  match and_then (validate_info pi) (fun _ => validate_channel fd_valid ch)
  with
  | Throw e =>
      (safe (Throw e),
       {| returned := Throw e; ex := ch; backend' := b; trace := t;
          controls := [] |})
  | Ok _ =>
      let r := attach os env registrar ifc ch pi false b t in
      (safe (returned r), r)
  end.

(** [context::pipe(id, ch, pi)] *)
Definition context_pipe (os : syscalls) (env : attach_env)
    (registrar : list factory) (ifc : Z) (ch : channel)
    (pi : eia_tia_232_info) (b : backend) (t : list event) : Z * attached :=
  match validate_info pi with
  | Throw e =>
      (safe (Throw e),
       {| returned := Throw e; ex := ch; backend' := b; trace := t;
          controls := [] |})
  | Ok _ =>
      let r := attach os env registrar ifc ch pi true b t in
      (safe (returned r), r)
  end.






End Context.

(** ** uartcat.cpp: how the example reads the status *)

Module Uartcat.

(** [is_good] *)
Definition is_good (status : Z) : bool := status =? alles_gute.

(** [is_usable] *)
Definition is_usable (status : Z) : bool :=
  (status =? Z.lor usb_dev_ok read_pipe_ok)
  || (status =? Z.lor usb_dev_ok write_pipe_ok)
  || (status =? alles_gute).

End Uartcat.

(** * Vocabulary of the properties *)

(** The control transfer [setbaudrate] issues for given words. *)
Definition baudrate_request (value index ifcnum : Z) : control_request :=
  {| bmRequestType := Generic.vendor_reqo;
     bRequest := Ftdi.set_baudrate_req;
     wValue := value;
     wIndex := u16 (Z.lor index ifcnum) |}.

(** Concrete devices and platforms used as examples. *)

(** An FT4232H: a high-speed part with four interfaces. *)
Definition ft4232h : Libusb.device_descriptor :=
  {| Libusb.idVendor := 0x0403; Libusb.idProduct := 0x6011;
     Libusb.bcdDevice := 0x0800 |}.

(** An FT232R: a single-interface part that is not high-speed. *)
Definition ft232r : Libusb.device_descriptor :=
  {| Libusb.idVendor := 0x0403; Libusb.idProduct := 0x6001;
     Libusb.bcdDevice := 0x0600 |}.

(** A CH340. *)
Definition ch340 : Libusb.device_descriptor :=
  {| Libusb.idVendor := 0x1a86; Libusb.idProduct := 0x7523;
     Libusb.bcdDevice := 0x0254 |}.

(** A platform on which every interface can be claimed. *)
Definition willing_platform : Generic.platform :=
  {| Generic.libusb_claim_interface := fun _ => 0;
     Generic.errno_after_claim := 0;
     Generic.uninitialised := 0 |}.

(** A device that accepts every control transfer. *)
Definition willing_device : control_request -> Z := fun _ => 0.

(** The two control writes that carry the divisor words of a table
    entry. *)
Definition divisor_requests (e : Ch34x.baudtable)
    : control_request * control_request :=
  ({| bmRequestType := Generic.vendor_reqo; bRequest := 0x9a;
      wValue := 0x1312; wIndex := Ch34x.div1 e |},
   {| bmRequestType := Generic.vendor_reqo; bRequest := 0x9a;
      wValue := 0x0f2c; wIndex := Ch34x.div2 e |}).

(** An operating system on which every write takes all bytes, nothing is
    ready to be read and every transfer is accepted. *)
Definition quiet_os : Core.syscalls :=
  {| Core.sys_write := fun _ _ _ size => (size, 0);
     Core.sys_read := fun _ _ _ => (-1, EAGAIN, []);
     Core.libusb_submit_transfer := fun _ _ => 0 |}.

Definition empty_backend : Context.backend :=
  {| Context.objects := []; Context.poll_list := [];
     Context.child_list := []; Context.delete_list := [];
     Context.pending := false |}.

(** The environment of an [attach] that finds the given device and meets
    no failure. *)
Definition plain_env (desc : Libusb.device_descriptor)
    : Context.attach_env :=
  {| Context.found := Some desc; Context.open_res := 0;
     Context.open_errno := 0; Context.usb := willing_device;
     Context.pipe_a := Some (3, 4); Context.pipe_b := Some (5, 6);
     Context.alloc_ok := true |}.

(** The registry with the two drivers modelled here. *)
Definition registrar : list Context.factory :=
  [Context.ch34x_factory willing_platform willing_device;
   Context.ftdi_factory willing_platform].

Definition _115200_8N1n : eia_tia_232_info :=
  {| baudrate := 115200; databits := 8; parity := 0; stopbits := 0;
     flowcontrol := 0 |}.

(** A channel on descriptors 0 and 1 as its constructor leaves it. *)
Definition new_channel (d : Core.driver) : Core.file_channel :=
  Context.file_channel_ctor {| fd_read := 0; fd_write := 1 |} d.

(** A backend with one FTDI channel that waits for its read descriptor. *)
Definition waiting_backend : Context.backend :=
  {| Context.objects :=
       [(1%nat, Context.File_child
                  (new_channel
                     (Core.Ftdi_driver
                        {| Ftdi.ifc := Ftdi.l_ifc; Ftdi.ifcnum := 0;
                           Ftdi.isH := false; Ftdi.errors := 0 |})))];
     Context.poll_list :=
       [{| Context.fd := 0;
           Context.events := Z.lor Core.POLLIN Core.POLLHUP;
           Context.revents := 0 |}];
     Context.child_list := [1%nat]; Context.delete_list := [];
     Context.pending := false |}.

(** A kernel whose [poll] fails with the given [errno]; libusb has
    nothing to report. *)
Definition failing_poll (errno : Z) : Context.kernel :=
  {| Context.sys_poll := fun _ _ _ => (-1, errno, []);
     Context.libusb_get_pollfds := fun _ => [];
     Context.libusb_handle_events_timeout := fun _ => ([], 0) |}.

(** Two channel states that differ at most in the five flags. *)
Definition same_but_flags (ch ch' : Core.file_channel) : Prop :=
  Core.readxfer0 ch' = Core.readxfer0 ch /\
  Core.readxfer1 ch' = Core.readxfer1 ch /\
  Core.writexfer ch' = Core.writexfer ch /\
  Core.current ch' = Core.current ch /\
  Core.readpos ch' = Core.readpos ch /\
  Core.readxfer_busy ch' = Core.readxfer_busy ch /\
  Core.writexfer_busy ch' = Core.writexfer_busy ch /\
  Core.fdrd ch' = Core.fdrd ch /\
  Core.fdrw ch' = Core.fdrw ch /\
  Core.drv ch' = Core.drv ch.

(** The events of a removal: cancellations and the request to the
    owner. *)
Definition housekeeping (e : Core.event) : bool :=
  match e with
  | Core.Cancel _ | Core.OwnerRequestRemoval => true
  | _ => false
  end.

(** The pointer to an IN transfer, by its index. *)
Definition in_ptr (i : bool) : Core.xfer_ptr :=
  if i then Core.Rd1 else Core.Rd0.

(** The bytes of an IN transfer not yet written to the pipe. *)
Definition pending_bytes (ch : Core.file_channel) (p : Core.xfer_ptr) : Z :=
  Libusb.actual_length (Core.xfer ch p)
  - Core.idx (Core.readpos ch) (Core.is1 p).

(** The call of [write] that [writepipe] makes for a transfer that holds
    pending bytes, and the answer it gets after the trace [t]. *)
Definition write_call (ch : Core.file_channel) (p : Core.xfer_ptr)
    : Core.event :=
  Core.SysWrite (Core.fdrw ch) p (Core.idx (Core.readpos ch) (Core.is1 p))
                (pending_bytes ch p).

Definition write_answer (os : Core.syscalls) (ch : Core.file_channel)
    (p : Core.xfer_ptr) (t : list Core.event) : Z * Z :=
  Core.sys_write os (t ++ [write_call ch p]) (Core.fdrw ch)
    (Core.payload (Core.xfer ch p)
       (Core.idx (Core.readpos ch) (Core.is1 p)) (pending_bytes ch p))
    (pending_bytes ch p).

(** The state [consumed] leaves, up to the flags, when a transfer is
    drained: the position advanced, the transfer resubmitted with the
    given outcome, [current] set to the other IN transfer. *)
Definition drained (ch : Core.file_channel) (p : Core.xfer_ptr)
    (pos : Z) (submitted : bool) : Core.file_channel :=
  Core.set_current
    (Core.set_readxfer_busy
       (Core.set_readpos ch (Core.is1 p) pos) (Core.is1 p) submitted)
    (if Core.is1 p then Core.Rd0 else Core.Rd1).

(** The calls of [write] in a trace, in order. *)
Definition is_write (e : Core.event) : bool :=
  match e with
  | Core.SysWrite _ _ _ _ => true
  | _ => false
  end.

Definition writes (evs : list Core.event) : list Core.event :=
  filter is_write evs.

(** The submissions in a trace, in order. *)
Definition is_submit (e : Core.event) : bool :=
  match e with
  | Core.Submit _ => true
  | _ => false
  end.

Definition submissions (evs : list Core.event) : list Core.event :=
  filter is_submit evs.




(** The channel once the driver's [read_callback] has run on a completed
    IN transfer, the first step of [file_channel::read_callback]. *)
Definition after_driver (ch : Core.file_channel) (p : Core.xfer_ptr)
    : Core.file_channel :=
  let '(d, x, pos) :=
    Core.drv_read_callback (Core.drv ch) (Core.xfer ch p)
                           (Core.idx (Core.readpos ch) (Core.is1 p)) in
  Core.set_readpos (Core.set_xfer (Core.set_drv ch d) p x) (Core.is1 p) pos.

(** The transfer as libusb hands it to the callback on completion. *)
Definition completed (x : Libusb.transfer) (st : Libusb.transfer_status)
    (n : Z) (data : list Z) : Libusb.transfer :=
  {| Libusb.status := st; Libusb.length := Libusb.length x;
     Libusb.actual_length := n;
     Libusb.buffer :=
       firstn (Z.to_nat n) data ++ skipn (Z.to_nat n) (Libusb.buffer x) |}.

(** The line-error bits a driver has recorded, and the status value as
    the specification words it: the three bits of [status] with the
    driver's bits OR-ed in. *)
Definition driver_errors (d : Core.driver) : Z :=
  match d with
  | Core.Ftdi_driver f => Ftdi.errors f
  | _ => 0
  end.

Definition spec_status (ch : Core.file_channel) : Z :=
  Z.lor (Core.status ch) (driver_errors (Core.drv ch)).

(** An FTDI channel after [init], both IN transfers in flight. *)
Definition started_ftdi_channel : Core.file_channel :=
  snd (fst (Context.init quiet_os true
              (new_channel
                 (Core.Ftdi_driver
                    {| Ftdi.ifc := Ftdi.l_ifc; Ftdi.ifcnum := 0;
                       Ftdi.isH := false; Ftdi.errors := 0 |})) [])).

(** The state of a channel after an operation, and its trace. *)
Definition state_after {A : Type}
    (r : A * Core.file_channel * list Core.event) : Core.file_channel :=
  snd (fst r).

(** The ten bytes of the example of the specification: two status bytes,
    then "Hello" and three more. *)
Definition hello_transfer : list Z :=
  [0x01; 0x60; 72; 101; 108; 108; 111; 10; 13; 0].

(** The channel after that transfer has completed on [readxfer0] and has
    been written out whole and resubmitted. *)
Definition channel_after_hello : Core.file_channel :=
  state_after
    (Core.complete quiet_os Core.Rd0 Libusb.LIBUSB_TRANSFER_COMPLETED
       10 hello_transfer started_ftdi_channel []).

(** An operating system whose [write] takes three bytes at a time. *)
Definition slow_os : Core.syscalls :=
  {| Core.sys_write := fun _ _ _ size => (Z.min size 3, 0);
     Core.sys_read := fun _ _ _ => (-1, EAGAIN, []);
     Core.libusb_submit_transfer := fun _ _ => 0 |}.

(** The channel holding the example transfer on [readxfer0], not yet
    written: the position is behind the status bytes. *)
Definition channel_holding_hello : Core.file_channel :=
  Core.set_readxfer_busy
    (after_driver
       (Core.set_xfer started_ftdi_channel Core.Rd0
          (completed (Core.readxfer0 started_ftdi_channel)
             Libusb.LIBUSB_TRANSFER_COMPLETED 10 hello_transfer))
       Core.Rd0)
    false false.

(** An FTDI driver object for interface 0 of a part that is not
    high-speed, with no error recorded. *)
Definition plain_ftdi : Ftdi.ftdi :=
  {| Ftdi.ifc := Ftdi.l_ifc; Ftdi.ifcnum := 0;
     Ftdi.isH := false; Ftdi.errors := 0 |}.

(** A completed IN transfer that holds a single byte. *)
Definition short_transfer : Libusb.transfer :=
  {| Libusb.status := Libusb.LIBUSB_TRANSFER_COMPLETED;
     Libusb.length := 64; Libusb.actual_length := 1;
     Libusb.buffer := 1 :: repeat 0 63 |}.

(** The channel after a three-byte transfer whose second status byte
    reports a framing error has completed on [readxfer0]. *)
Definition channel_after_framing_error : Core.file_channel :=
  state_after
    (Core.complete quiet_os Core.Rd0 Libusb.LIBUSB_TRANSFER_COMPLETED
       3 [0x01; 0x08; 65] started_ftdi_channel []).

(** The four control writes of [ftdi::setup], for given words. *)
Definition ftdi_setup_requests (d : Ftdi.ftdi) (info : eia_tia_232_info)
    : list control_request :=
  let words := Ftdi.compute_divisors (Ftdi.isH d) (baudrate info) in
  [ baudrate_request (fst words) (snd words) (Ftdi.ifcnum d);
    {| bmRequestType := Generic.vendor_reqo;
       bRequest := Ftdi.set_data_req;
       wValue := databits info + 256 * parity info + 2048 * stopbits info;
       wIndex := Ftdi.ifcnum d |};
    {| bmRequestType := Generic.vendor_reqo;
       bRequest := Ftdi.set_flowcontrol_req;
       wValue := flowcontrol info;
       wIndex := Ftdi.ifcnum d |};
    {| bmRequestType := Generic.vendor_reqo;
       bRequest := 0; wValue := 0; wIndex := Ftdi.ifcnum d |} ].

(** Line parameters that [validate] lets through. *)
Definition valid_info (i : eia_tia_232_info) : Prop :=
  5 <= databits i <= 9 /\ parity i <= 4 /\ stopbits i <= 2 /\
  flowcontrol i <= 3 /\ baudrate i <> 0.

(** The three control writes of [ch34x::probe]. *)
Definition ch34x_probe_requests : list control_request :=
  [ {| bmRequestType := Generic.vendor_reqo; bRequest := 0xa1;
       wValue := 0; wIndex := 0 |};
    {| bmRequestType := Generic.vendor_reqo; bRequest := 0x9a;
       wValue := 0x2518; wIndex := 0x0050 |};
    {| bmRequestType := Generic.vendor_reqo; bRequest := 0xa1;
       wValue := 0x501f; wIndex := 0xd90a |} ].

(** The control write of [ch34x::setflowcontrol]. *)
Definition ch34x_flow_request (fc : Z) : control_request :=
  {| bmRequestType := Generic.vendor_reqo; bRequest := 0xa4;
     wValue := if fc =? Ch34x.rts_cts then 0xFFBF
               else if fc =? Ch34x.dtr_dsr then 0xFFDF else 0x00FF;
     wIndex := 0 |}.

(** Control writes issued in order until the device refuses one: the
    refusal throws [control_error] and nothing is sent after it. *)
Fixpoint issue (usb : control_request -> Z) (reqs : list control_request)
    : result unit * list control_request :=
  match reqs with
  | [] => (Ok tt, [])
  | rq :: rest =>
      if usb rq <? 0 then (Throw control_error, [rq])
      else let '(r, t) := issue usb rest in (r, rq :: t)
  end.

(** An [attach] whose [libusb_open] fails with the given result and
    [errno]. *)
Definition failed_open (res errno : Z) : Context.attach_env :=
  {| Context.found := Some ch340; Context.open_res := res;
     Context.open_errno := errno; Context.usb := willing_device;
     Context.pipe_a := Some (3, 4); Context.pipe_b := Some (5, 6);
     Context.alloc_ok := true |}.

(** An [attach] for which the second [pipe(2)] call fails. *)
Definition one_pipe_env (desc : Libusb.device_descriptor)
    : Context.attach_env :=
  {| Context.found := Some desc; Context.open_res := 0;
     Context.open_errno := 0; Context.usb := willing_device;
     Context.pipe_a := Some (3, 4); Context.pipe_b := None;
     Context.alloc_ok := true |}.

(** The lowest baud rate whose divisor fits the 14-bit field. *)
Definition ftdi_lowest_rate (ish : bool) : Z := if ish then 458 else 184.

(** The three control writes of [ch34x::setup] for a table entry. *)
Definition ch34x_setup_requests (e : Ch34x.baudtable) (fc : Z)
    : list control_request :=
  [fst (divisor_requests e); snd (divisor_requests e);
   ch34x_flow_request fc].

(** Reading the words of a baud-rate request back: the place in the
    [mapper] table of the sub-integer code (bits 14 and 15 of the value,
    bit 8 of the index), the divisor and the prescaler they stand for. *)
Fixpoint mapper_position (code : Z) (l : list Z) : Z :=
  match l with
  | [] => 0
  | m :: rest => if m =? code then 0 else 1 + mapper_position code rest
  end.

Definition ftdi_decode (value index : Z) : Z * Z :=
  (8 * Z.land value 0x3FFF
   + mapper_position (Z.lor (Z.land value 0xC000) (Z.land index 0x0100))
                     Ftdi.mapper,
   if Z.land index 0x0200 =? 0 then 16 else 10).



(** No flag that is set in [ch] is clear in [ch']. *)
Definition flags_grow (ch ch' : Core.file_channel) : Prop :=
  (Core.pipein_ready ch = true -> Core.pipein_ready ch' = true) /\
  (Core.pipeout_ready ch = true -> Core.pipeout_ready ch' = true) /\
  (Core.pipein_hangup ch = true -> Core.pipein_hangup ch' = true) /\
  (Core.pipeout_hangup ch = true -> Core.pipeout_hangup ch' = true) /\
  (Core.device_hangup ch = true -> Core.device_hangup ch' = true).

(** A channel that has given up its device has given up both pipes. *)
Definition gone_means_closed (ch : Core.file_channel) : Prop :=
  Core.device_hangup ch = true ->
  Core.pipein_hangup ch = true /\ Core.pipeout_hangup ch = true.

(** Channel code that only adds to the trace, clears no flag, keeps the
    descriptors, and sets [device_hangup] only together with both pipe
    flags and a request to the owner to remove the channel. *)
Definition steady {A : Type} (m : Core.M A) : Prop :=
  forall (ch : Core.file_channel) (t : list Core.event),
    flags_grow ch (snd (fst (m ch t))) /\
    (Core.fdrd (snd (fst (m ch t))) = Core.fdrd ch /\
     Core.fdrw (snd (fst (m ch t))) = Core.fdrw ch) /\
    exists evs : list Core.event,
      snd (m ch t) = t ++ evs /\
      (Core.device_hangup (snd (fst (m ch t))) = true ->
       Core.device_hangup ch = true \/
       (Core.pipein_hangup (snd (fst (m ch t))) = true /\
        Core.pipeout_hangup (snd (fst (m ch t))) = true /\
        In Core.OwnerRequestRemoval evs)).

(** The calls a channel object gets from the backend and from libusb. *)
Inductive call : Type :=
| Complete (p : Core.xfer_ptr) (st : Libusb.transfer_status) (n : Z)
           (data : list Z)
| SetEvents (events : Z) (read : bool)
| Events
| Close
| RequestRemoval (enforce : bool).

Definition perform (os : Core.syscalls) (c : call) : Core.M unit :=
  match c with
  | Complete p st n data => Core.complete os p st n data
  | SetEvents events read => Core.set_events events read
  | Events => Core.events os
  | Close => Core.M_bind Core.close (fun _ => Core.M_ret tt)
  | RequestRemoval enforce => Core.request_removal enforce
  end.

Fixpoint perform_all (os : Core.syscalls) (cs : list call) : Core.M unit :=
  match cs with
  | [] => Core.M_ret tt
  | c :: rest => Core.M_bind (perform os c) (fun _ => perform_all os rest)
  end.

(** The life of a channel: built on the caller's descriptors, started by
    [init], then called any number of times. *)
Definition life (os : Core.syscalls) (ch : channel) (d : Core.driver)
    (cs : list call) : unit * Core.file_channel * list Core.event :=
  let '(_, f, t) := Context.init os true (Context.file_channel_ctor ch d) []
  in perform_all os cs f t.

(** The call of [read] that [readpipe] makes: for a whole chunk, or for
    no bytes at all while the OUT transfer is in flight. *)
Definition read_size (ch : Core.file_channel) : Z :=
  if Core.writexfer_busy ch then 0 else Core.chunksize ch.

Definition read_call (ch : Core.file_channel) : Core.event :=
  Core.SysRead (Core.fdrd ch) (read_size ch).

(** The OUT transfer loaded with the first [res] bytes read. *)
Definition loaded (ch : Core.file_channel) (res : Z) (data : list Z)
    : Core.file_channel :=
  Core.set_xfer ch Core.Wr
    (Libusb.set_length
       (Libusb.set_buffer (Core.writexfer ch)
          (firstn (Z.to_nat res) data
           ++ skipn (Z.to_nat res) (Libusb.buffer (Core.writexfer ch))))
       res).

(** The busy mark of a transfer. *)
Definition busy_mark (ch : Core.file_channel) (p : Core.xfer_ptr) : bool :=
  match p with
  | Core.Rd0 => Core.idx (Core.readxfer_busy ch) false
  | Core.Rd1 => Core.idx (Core.readxfer_busy ch) true
  | Core.Wr => Core.writexfer_busy ch
  end.

(** The flag that makes the callback of a transfer return at once: the
    hang-up of the pipe the transfer feeds or is fed from. *)
Definition far_side_hangup (ch : Core.file_channel) (p : Core.xfer_ptr)
    : bool :=
  match p with
  | Core.Wr => Core.pipein_hangup ch
  | _ => Core.pipeout_hangup ch
  end.

(** The channel with the busy mark of a transfer cleared, and with a
    transfer as libusb hands it to its callback. *)
Definition clear_busy (ch : Core.file_channel) (p : Core.xfer_ptr)
    : Core.file_channel :=
  match p with
  | Core.Rd0 => Core.set_readxfer_busy ch false false
  | Core.Rd1 => Core.set_readxfer_busy ch true false
  | Core.Wr => Core.set_writexfer_busy ch false
  end.

Definition delivered (ch : Core.file_channel) (p : Core.xfer_ptr)
    (st : Libusb.transfer_status) (n : Z) (data : list Z)
    : Core.file_channel :=
  Core.set_xfer ch p
    {| Libusb.status := st;
       Libusb.length := Libusb.length (Core.xfer ch p);
       Libusb.actual_length := n;
       Libusb.buffer :=
         match p with
         | Core.Wr => Libusb.buffer (Core.xfer ch p)
         | _ => firstn (Z.to_nat n) data
                ++ skipn (Z.to_nat n) (Libusb.buffer (Core.xfer ch p))
         end |}.

(** A backend whose only channel has been closed by its owner while both
    IN transfers are in flight. *)
Definition closing_backend : Context.backend :=
  {| Context.objects := [(1%nat, Context.File_child started_ftdi_channel)];
     Context.poll_list := [];
     Context.child_list := []; Context.delete_list := [1%nat];
     Context.pending := false |}.

(** No other channel of the backend answers to [ch]. *)
Definition only_match (b : Context.backend) (a : nat) (ch : channel)
    : Prop :=
  forall (a' : nat) (c' : Context.child),
    In a' (Context.child_list b) -> a' <> a ->
    Context.deref (Context.objects b) a' = Some c' ->
    Context.equals c' ch = false.

(** A kernel that reports one event, input on the first entry, and
    nothing from libusb. *)
Definition input_ready : Context.kernel :=
  {| Context.sys_poll := fun _ _ _ => (1, 0, [Core.POLLIN]);
     Context.libusb_get_pollfds := fun _ => [];
     Context.libusb_handle_events_timeout := fun _ => ([], 0) |}.

(** Every channel named in the lists of the backend exists. *)
Definition listed_exist (b : Context.backend) : Prop :=
  forall a : nat,
    In a (Context.child_list b) \/ In a (Context.delete_list b) ->
    Context.deref (Context.objects b) a <> None.

(** No channel of the backend answers to [ch]. *)
Definition no_match (b : Context.backend) (ch : channel) : Prop :=
  forall (a : nat) (c : Context.child),
    In a (Context.child_list b) ->
    Context.deref (Context.objects b) a = Some c ->
    Context.equals c ch = false.

(** An operating system that refuses every transfer. *)
Definition refusing_os : Core.syscalls :=
  {| Core.sys_write := fun _ _ _ size => (size, 0);
     Core.sys_read := fun _ _ _ => (-1, EAGAIN, []);
     Core.libusb_submit_transfer := fun _ _ => LIBUSB_ERROR_NO_DEVICE |}.

(** An [attach] whose allocations in [init] fail. *)
Definition starved_env (desc : Libusb.device_descriptor)
    : Context.attach_env :=
  {| Context.found := Some desc; Context.open_res := 0;
     Context.open_errno := 0; Context.usb := willing_device;
     Context.pipe_a := Some (3, 4); Context.pipe_b := Some (5, 6);
     Context.alloc_ok := false |}.

(** * Properties *)

(** ** Fixed-width arithmetic *)

Lemma u16_small (z : Z) : 0 <= z < 2^16 -> u16 z = z.
Proof. intros H. unfold u16. apply Z.mod_small. exact H. Qed.

Lemma u32_small (z : Z) : 0 <= z < 2^32 -> u32 z = z.
Proof. intros H. unfold u32. apply Z.mod_small. exact H. Qed.

Lemma lor_below (n a b : Z) :
  0 <= n -> 0 <= a < 2^n -> 0 <= b < 2^n -> 0 <= Z.lor a b < 2^n.
Proof.
  intros Hn Ha Hb.
  assert (E : Z.lor a b = Z.lor a b mod 2^n).
  { rewrite <- Z.land_ones by exact Hn.
    rewrite Z.land_lor_distr_l.
    rewrite !Z.land_ones by exact Hn.
    rewrite !Z.mod_small by assumption. reflexivity. }
  rewrite E. apply Z.mod_pos_bound. apply Z.pow_pos_nonneg; lia.
Qed.

Lemma land_ones_below (n a : Z) : 0 <= n -> 0 <= Z.land a (Z.ones n) < 2^n.
Proof.
  intros Hn. rewrite Z.land_ones by exact Hn.
  apply Z.mod_pos_bound. apply Z.pow_pos_nonneg; lia.
Qed.

(** ** FTDI baud-rate divisors *)

Lemma prescaler_cases (ish : bool) (baud : Z) :
  Ftdi.prescaler_of ish baud = 10 \/ Ftdi.prescaler_of ish baud = 16.
Proof.
  unfold Ftdi.prescaler_of.
  destruct (ish && (Ftdi.low_limit <? baud)); [left | right]; reflexivity.
Qed.

Lemma prescaler_10_iff (ish : bool) (baud : Z) :
  Ftdi.prescaler_of ish baud = 10 <-> ish = true /\ Ftdi.low_limit < baud.
Proof.
  unfold Ftdi.prescaler_of.
  destruct ish; cbn [andb].
  - destruct (Z.ltb_spec Ftdi.low_limit baud); split; intros H0;
      try discriminate; try (split; [reflexivity | assumption]);
      try reflexivity.
    destruct H0 as [_ H0]. lia.
  - split; intros H0; [discriminate | destruct H0; discriminate].
Qed.

(** The 32-bit arithmetic of [compute_divisors] never wraps. *)
Lemma divisor_of_rounded (ish : bool) (baud : Z) :
  0 < baud < 2^32 -> Ftdi.divisor_of ish baud = Ftdi.rounded_divisor ish baud.
Proof.
  intros Hb. unfold Ftdi.divisor_of, Ftdi.rounded_divisor.
  set (clk := if ish then Ftdi.high_clk else Ftdi.low_clk).
  assert (Hclk : 0 <= clk * 8 <= 960000000).
  { subst clk. destruct ish; unfold Ftdi.high_clk, Ftdi.low_clk; lia. }
  rewrite Z.shiftl_mul_pow2 by lia.
  rewrite Z.shiftr_div_pow2 by lia.
  change (2 ^ 3) with 8. change (2 ^ 1) with 2.
  assert (Hq : 0 <= clk * 8 / baud <= 960000000).
  { split.
    - apply Z.div_pos; lia.
    - apply Z.div_le_upper_bound; nia. }
  rewrite (u32_small (clk * 8)) by lia.
  destruct (prescaler_cases ish baud) as [E | E]; rewrite E.
  - change (10 / 2) with 5.
    rewrite (u32_small (clk * 8 / baud + 5)) by lia.
    rewrite (u32_small (clk * 8 / baud + 5 - 1)) by lia. reflexivity.
  - change (16 / 2) with 8.
    rewrite (u32_small (clk * 8 / baud + 8)) by lia.
    rewrite (u32_small (clk * 8 / baud + 8 - 1)) by lia. reflexivity.
Qed.

Lemma mapper_entry (d : Z) :
  let m := nth (Z.to_nat (Z.land d 7)) Ftdi.mapper 0 in
  (Z.land m 0x0100 = 0 \/ Z.land m 0x0100 = 0x0100) /\
  (0 <= Z.land m 0xC000 < 2^16).
Proof.
  intros m. subst m.
  change 7 with (Z.ones 3). rewrite Z.land_ones by lia.
  assert (H : 0 <= d mod 2^3 < 2^3) by (apply Z.mod_pos_bound; lia).
  change (2^3) with 8 in *.
  assert (C : d mod 8 = 0 \/ d mod 8 = 1 \/ d mod 8 = 2 \/ d mod 8 = 3 \/
              d mod 8 = 4 \/ d mod 8 = 5 \/ d mod 8 = 6 \/ d mod 8 = 7)
    by lia.
  destruct C as [E|[E|[E|[E|[E|[E|[E|E]]]]]]]; rewrite E;
    (split; [vm_compute; auto | vm_compute; split; congruence]).
Qed.

Lemma compute_divisors_words (ish : bool) (baud : Z) :
  0 < baud < 2^32 ->
  Ftdi.compute_divisors ish baud =
  Ftdi.spec_words (Ftdi.rounded_divisor ish baud) (Ftdi.prescaler_of ish baud).
Proof.
  intros Hb. unfold Ftdi.compute_divisors, Ftdi.spec_words.
  rewrite (divisor_of_rounded ish baud Hb).
  set (d := Ftdi.rounded_divisor ish baud).
  destruct (mapper_entry d) as [Hi Hv].
  set (m := nth (Z.to_nat (Z.land d 7)) Ftdi.mapper 0) in *.
  f_equal.
  - apply u16_small. apply lor_below; [lia | | exact Hv].
    change 0x3FFF with (Z.ones 14).
    pose proof (land_ones_below 14 (Z.shiftr d 3)). lia.
  - apply u16_small.
    destruct (prescaler_cases ish baud) as [E | E]; rewrite E; cbn [Z.eqb];
      destruct Hi as [Hi | Hi]; rewrite Hi; cbn; lia.
Qed.

Lemma u16_idem (z : Z) : u16 (u16 z) = u16 z.
Proof. unfold u16. apply Z.mod_mod. lia. Qed.

Lemma setbaudrate_run (usb : control_request -> Z) (d : Ftdi.ftdi)
    (baud : Z) :
  let words := Ftdi.compute_divisors (Ftdi.isH d) baud in
  let rq := baudrate_request (fst words) (snd words) (Ftdi.ifcnum d) in
  Generic.run (Ftdi.setbaudrate usb d baud) =
  (if usb rq <? 0 then Throw control_error else Ok tt, [rq]).
Proof.
  intros words rq. unfold Ftdi.setbaudrate. fold words.
  assert (Ev : u16 (fst words) = fst words).
  { subst words. unfold Ftdi.compute_divisors. cbn [fst]. apply u16_idem. }
  destruct words as [value index] eqn:E. cbn [fst snd] in *.
  unfold Generic.run, Generic.write_cv. cbn [app].
  unfold baudrate_request in rq. rewrite Ev. fold rq.
  change (u8 Ftdi.set_baudrate_req) with Ftdi.set_baudrate_req. fold rq.
  destruct (usb rq <? 0); reflexivity.
Qed.

(** C5, as the specification words it, fails: at 57600 baud on a
    low-speed part the unrounded divisor [(clk * 8 / baud) / prescaler]
    is 416, the code's divisor is 417, and the value words differ. *)
Lemma ftdi_unrounded_divisor_differs :
  Ftdi.spec_divisor false 57600 = 416 /\
  Ftdi.divisor_of false 57600 = 417 /\
  Ftdi.compute_divisors false 57600 = (0xC034, 0) /\
  Ftdi.compute_divisors false 57600 <>
  Ftdi.spec_words (Ftdi.spec_divisor false 57600)
                  (Ftdi.prescaler_of false 57600).
Proof.
  repeat split; try (vm_compute; reflexivity).
  vm_compute. intros H. discriminate H.
Qed.

(** C5, amended: for every nonzero 32-bit baud rate, [compute_divisors]
    selects prescaler 10 exactly when the part is high-speed and the rate
    exceeds [(high_clk / 10) >> 14] (so baud 1 selects 16), and with the
    rounded divisor [((clk * 8) / baud + prescaler / 2 - 1) / prescaler]
    -- no 32-bit or 16-bit wrap-around occurs -- it produces
    [value = ((divisor >> 3) & 0x3FFF) | (mapper[divisor & 7] & 0xC000)] and
    [index = (mapper[divisor & 7] & 0x0100) | (0x0200 if prescaler is 10)];
    [setbaudrate] transmits [value] and [index | ifcnum] in one control
    write with request 0x03. *)
Theorem ftdi_compute_divisors_rounded (ish : bool) (baud : Z) :
  0 < baud < 2^32 ->
  (Ftdi.prescaler_of ish baud = 10 <->
   ish = true /\ Z.shiftr (Ftdi.high_clk / 10) 14 < baud) /\
  (Ftdi.prescaler_of ish baud = 10 \/ Ftdi.prescaler_of ish baud = 16) /\
  Ftdi.prescaler_of ish 1 = 16 /\
  Ftdi.compute_divisors ish baud =
    Ftdi.spec_words (Ftdi.rounded_divisor ish baud)
                    (Ftdi.prescaler_of ish baud) /\
  (forall (usb : control_request -> Z) (d : Ftdi.ftdi),
     Ftdi.isH d = ish ->
     let words := Ftdi.spec_words (Ftdi.rounded_divisor ish baud)
                                  (Ftdi.prescaler_of ish baud) in
     let rq := baudrate_request (fst words) (snd words) (Ftdi.ifcnum d) in
     Generic.run (Ftdi.setbaudrate usb d baud) =
     (if usb rq <? 0 then Throw control_error else Ok tt, [rq])).
Proof.
  intros Hb. split; [| split; [| split; [| split]]].
  - apply prescaler_10_iff.
  - apply prescaler_cases.
  - destruct ish; reflexivity.
  - apply compute_divisors_words. exact Hb.
  - intros usb d Hd words rq. subst words rq.
    rewrite <- (compute_divisors_words ish baud Hb). rewrite <- Hd.
    apply setbaudrate_run.
Qed.

Lemma ftdi_compute_divisors_rounded_witness :
  0 < 57600 < 2^32 /\
  Ftdi.compute_divisors false 57600 =
    Ftdi.spec_words (Ftdi.rounded_divisor false 57600)
                    (Ftdi.prescaler_of false 57600).
Proof.
  assert (H : 0 < 57600 < 2^32) by (split; reflexivity).
  split; [exact H |].
  exact (proj1 (proj2 (proj2 (proj2
           (ftdi_compute_divisors_rounded false 57600 H))))).
Defined.

(** ** The FTDI factory *)

Lemma ftdi_ctor_fields (pf : Generic.platform) (num : Z) (ish : bool)
    (d : Ftdi.ftdi) :
  Ftdi.ftdi_ctor pf num ish = Ok d ->
  Ftdi.ifcnum d = num /\ Ftdi.isH d = ish.
Proof.
  unfold Ftdi.ftdi_ctor.
  destruct (Generic.claim_interface _ _); intros H; [| discriminate H].
  injection H as <-. split; reflexivity.
Qed.

(** C9 fails on the code: [create] ends with
    [new ftdi(handle, ish, num)] while the constructor is
    [ftdi(d, uint8_t num, bool ish)], so the driver returned has its
    high-speed flag equal to "the requested index is nonzero" and its
    interface number equal to the detection result as 0 or 1. *)
Theorem ftdi_create_swaps_arguments (pf : Generic.platform)
    (desc : Libusb.device_descriptor) (num : Z) (d : Ftdi.ftdi) :
  Ftdi.create pf desc num = Ok (Some d) ->
  Ftdi.isH d = int_to_bool num /\
  Ftdi.ifcnum d = bool_to_int (Ftdi.detect_high_speed desc).
Proof.
  unfold Ftdi.create.
  destruct (_ <=? num); [discriminate |].
  destruct (negb (Libusb.idVendor desc =? 1027)); [discriminate |].
  destruct (negb (Ftdi.detect_high_speed desc) && int_to_bool num);
    [discriminate |].
  destruct (Ftdi.ftdi_ctor pf _ _) as [d' | e] eqn:E; [| discriminate].
  intros H. injection H as ->.
  apply ftdi_ctor_fields in E. destruct E as [E1 E2]. split; assumption.
Qed.

(** The failing input of C9: interface 0 of an FT4232H. *)
Lemma ftdi_create_swaps_arguments_witness :
  Ftdi.create willing_platform ft4232h 0 =
    Ok (Some {| Ftdi.ifc := Ftdi.l_ifc; Ftdi.ifcnum := 1;
                Ftdi.isH := false; Ftdi.errors := 0 |}) /\
  Ftdi.detect_high_speed ft4232h = true /\
  Ftdi.isH {| Ftdi.ifc := Ftdi.l_ifc; Ftdi.ifcnum := 1;
              Ftdi.isH := false; Ftdi.errors := 0 |} = int_to_bool 0 /\
  Ftdi.ifcnum {| Ftdi.ifc := Ftdi.l_ifc; Ftdi.ifcnum := 1;
                 Ftdi.isH := false; Ftdi.errors := 0 |} =
    bool_to_int (Ftdi.detect_high_speed ft4232h).
Proof.
  split; [reflexivity |]. split; [reflexivity |].
  exact (ftdi_create_swaps_arguments willing_platform ft4232h 0 _ eq_refl).
Defined.

Lemma registry_skips (pre post : list Context.factory) (f : Context.factory)
    (desc : Libusb.device_descriptor) (id : Z) (e : error_t) :
  (forall g, In g pre -> forall t, fst (g desc id t) = Ok None) ->
  (forall t, fst (f desc id t) = Throw e) ->
  forall t, fst (Context.registry_create (pre ++ f :: post) desc id t)
            = Throw e.
Proof.
  intros Hpre Hf. induction pre as [| g pre IH]; intros t.
  - cbn [app Context.registry_create]. cbn. unfold Generic.bind.
    specialize (Hf t). destruct (f desc id t) as [[o | e'] t'];
      cbn in Hf; [discriminate | ]. injection Hf as ->. reflexivity.
  - cbn [app Context.registry_create]. cbn. unfold Generic.bind.
    pose proof (Hpre g (or_introl eq_refl) t) as Hg.
    destruct (g desc id t) as [[o | e'] t']; cbn in Hg; [| discriminate].
    injection Hg as ->. apply IH.
    intros g' Hin. apply Hpre. right. exact Hin.
Qed.

Lemma ftdi_create_invalid_index (pf : Generic.platform)
    (desc : Libusb.device_descriptor) (num : Z) :
  4 <= num \/
  (Libusb.idVendor desc = 0x0403 /\ num <> 0 /\
   Ftdi.detect_high_speed desc = false) ->
  Ftdi.create pf desc num = Throw invalid_param.
Proof.
  unfold Ftdi.create. change (Z.of_nat (List.length Ftdi.h_ifcs)) with 4.
  intros [H | (Hv & Hn & Hd)].
  - destruct (Z.leb_spec 4 num); [reflexivity | lia].
  - destruct (4 <=? num); [reflexivity |].
    rewrite Hv. cbn [Z.eqb Pos.eqb negb]. rewrite Hd. cbn [negb andb].
    unfold int_to_bool. destruct (Z.eqb_spec num 0); [contradiction |].
    reflexivity.
Qed.

(** C10: the FTDI factory throws [invalid_param] whenever the requested
    interface index is 4 or greater, whatever the device, and, for a
    device with the FTDI vendor id, whenever the index is nonzero and the
    device is not detected as high-speed; when the registry reaches this
    factory (those before it decline the device) the facade's [attach]
    returns [-invalid_param]. *)
Theorem ftdi_factory_invalid_param (pf : Generic.platform)
    (desc : Libusb.device_descriptor) (num : Z) :
  (4 <= num -> Ftdi.create pf desc num = Throw invalid_param) /\
  (Libusb.idVendor desc = 0x0403 -> num <> 0 ->
   Ftdi.detect_high_speed desc = false ->
   Ftdi.create pf desc num = Throw invalid_param) /\
  (4 <= num \/
   (Libusb.idVendor desc = 0x0403 /\ num <> 0 /\
    Ftdi.detect_high_speed desc = false) ->
   forall (os : Core.syscalls) (env : Context.attach_env)
          (fd_valid : Z -> bool) (pre post : list Context.factory)
          (ch : channel) (pi : eia_tia_232_info) (b : Context.backend)
          (t : list Core.event),
     Context.found env = Some desc ->
     Context.open_res env = 0 ->
     (forall g, In g pre -> forall c, fst (g desc num c) = Ok None) ->
     fst (Context.context_attach os env fd_valid
            (pre ++ Context.ftdi_factory pf :: post) num ch pi b t)
     = neg_err invalid_param).
Proof.
  split; [| split].
  - intros H. apply ftdi_create_invalid_index. left. exact H.
  - intros Hv Hn Hd. apply ftdi_create_invalid_index. right. auto.
  - intros H os env fd_valid pre post ch pi b t Hfound Hopen Hpre.
    unfold Context.context_attach.
    destruct (Context.and_then _ _) as [u | e] eqn:Ev.
    + cbn [fst]. unfold Context.attach. rewrite Hfound.
      assert (Hc : fst (Generic.run
                (Context.create env (pre ++ Context.ftdi_factory pf :: post)
                   desc num)) = Throw invalid_param).
      { unfold Generic.run, Context.create. rewrite Hopen. cbn.
        unfold Generic.bind, Generic.lift.
        apply registry_skips; [exact Hpre |].
        intros c. unfold Context.ftdi_factory. cbn.
        unfold Generic.bind, Generic.lift.
        rewrite (ftdi_create_invalid_index pf desc num H). reflexivity. }
      destruct (Generic.run _) as [[d | e] ctl]; cbn in Hc;
        [discriminate |].
      injection Hc as ->. reflexivity.
    + cbn [fst]. unfold Context.and_then in Ev.
      assert (He : e = invalid_param).
      { unfold Context.validate_info, Context.validate_channel,
          Context.and_then, Context.throw_if in Ev.
        repeat match type of Ev with
               | context [if ?c then _ else _] => destruct c
               end; congruence. }
      rewrite He. reflexivity.
Qed.

Lemma ftdi_factory_invalid_param_witness :
  Ftdi.create willing_platform ft232r 4 = Throw invalid_param /\
  Ftdi.create willing_platform ft232r 1 = Throw invalid_param /\
  fst (Context.context_attach quiet_os (plain_env ft232r) (fun _ => true)
         ([Context.ch34x_factory willing_platform willing_device]
          ++ Context.ftdi_factory willing_platform :: [])
         1 {| fd_read := 0; fd_write := 1 |} _115200_8N1n empty_backend [])
  = neg_err invalid_param.
Proof.
  destruct (ftdi_factory_invalid_param willing_platform ft232r 4)
    as (H4 & _ & _).
  destruct (ftdi_factory_invalid_param willing_platform ft232r 1)
    as (_ & H1 & Ha).
  split; [apply H4; lia |].
  split; [apply H1; [reflexivity | lia | reflexivity] |].
  apply Ha.
  - right. split; [reflexivity |]. split; [lia | reflexivity].
  - reflexivity.
  - reflexivity.
  - intros g [<- | []] c. reflexivity.
Defined.

(** ** The CH34x baud-rate table *)

Lemma ch34x_rate_listed (rate : Z) :
  In rate Ch34x.listed_rates <->
  exists e, In e Ch34x.table /\ Ch34x.baud e = rate.
Proof.
  change Ch34x.listed_rates with (map Ch34x.baud Ch34x.table).
  rewrite in_map_iff. split; intros (e & H1 & H2); exists e; auto.
Qed.

Lemma ch34x_unlisted_run (usb : control_request -> Z) (rate : Z)
    (t : list control_request) :
  ~ In rate Ch34x.listed_rates ->
  Ch34x.setbaudrate usb rate t = (Throw bad_baudrate, t).
Proof.
  intros H. unfold Ch34x.listed_rates in H. cbn [In] in H.
  unfold Ch34x.setbaudrate, Ch34x.table.
  cbn [Ch34x.setbaudrate_from Ch34x.baud].
  repeat match goal with
         | |- context [?c =? rate] =>
             destruct (Z.eqb_spec c rate); [exfalso; apply H; tauto |]
         end.
  reflexivity.
Qed.

Lemma write_cv_run (usb : control_request -> Z) (req val index : Z)
    (t : list control_request) :
  0 <= req < 2^8 -> 0 <= val < 2^16 -> 0 <= index < 2^16 ->
  Generic.write_cv usb req val index t =
  (if usb {| bmRequestType := Generic.vendor_reqo; bRequest := req;
             wValue := val; wIndex := index |} <? 0
   then Throw control_error else Ok tt,
   t ++ [{| bmRequestType := Generic.vendor_reqo; bRequest := req;
            wValue := val; wIndex := index |}]).
Proof.
  intros Hr Hv Hi. unfold Generic.write_cv.
  rewrite (u16_small val Hv), (u16_small index Hi).
  unfold u8. rewrite (Z.mod_small req) by exact Hr.
  destruct (usb _ <? 0); reflexivity.
Qed.

Lemma ch34x_entry_run (usb : control_request -> Z) (e : Ch34x.baudtable) :
  0 <= Ch34x.div1 e < 2^16 -> 0 <= Ch34x.div2 e < 2^16 ->
  Generic.run
    (Generic.bind (Generic.write_cv usb 0x9a 0x1312 (Ch34x.div1 e))
       (fun _ => Generic.write_cv usb 0x9a 0x0f2c (Ch34x.div2 e))) =
  (if usb (fst (divisor_requests e)) <? 0 then
     (Throw control_error, [fst (divisor_requests e)])
   else
     (if usb (snd (divisor_requests e)) <? 0 then Throw control_error
      else Ok tt,
      [fst (divisor_requests e); snd (divisor_requests e)])).
Proof.
  intros H1 H2. unfold Generic.run, Generic.bind.
  rewrite write_cv_run by (try exact H1; lia).
  unfold divisor_requests. cbn [fst snd app].
  destruct (usb _ <? 0); [reflexivity |].
  rewrite write_cv_run by (try exact H2; lia). reflexivity.
Qed.

Lemma ch34x_listed_run (usb : control_request -> Z) (e : Ch34x.baudtable) :
  In e Ch34x.table ->
  Generic.run (Ch34x.setbaudrate usb (Ch34x.baud e)) =
  (if usb (fst (divisor_requests e)) <? 0 then
     (Throw control_error, [fst (divisor_requests e)])
   else
     (if usb (snd (divisor_requests e)) <? 0 then Throw control_error
      else Ok tt,
      [fst (divisor_requests e); snd (divisor_requests e)])).
Proof.
  intros He. unfold Ch34x.table in He. cbn [In] in He.
  repeat (destruct He as [He | He];
          [subst e; apply (ch34x_entry_run usb);
           cbn [Ch34x.div1 Ch34x.div2]; lia |]).
  contradiction.
Qed.

Lemma attach_ch34x_unlisted (os : Core.syscalls) (env : Context.attach_env)
    (reg : list Context.factory) (ifc : Z) (ch : channel)
    (pi : eia_tia_232_info) (b : Context.backend) (t : list Core.event)
    (desc : Libusb.device_descriptor) (d : Ch34x.ch34x)
    (ctl : list control_request) :
  Context.found env = Some desc ->
  Generic.run (Context.create env reg desc ifc)
    = (Ok (Core.Ch34x_driver d), ctl) ->
  ~ In (baudrate pi) Ch34x.listed_rates ->
  Context.returned (Context.attach os env reg ifc ch pi false b t)
    = Throw bad_baudrate.
Proof.
  intros Hfound Hcreate Hrate. unfold Context.attach.
  rewrite Hfound, Hcreate. cbn [Context.drv_setup app map].
  unfold Ch34x.setup. cbn [bind Monad_io]. unfold Generic.bind.
  rewrite (ch34x_unlisted_run (Context.usb env) (baudrate pi) ctl Hrate).
  reflexivity.
Qed.

(** C8: [ch34x::setbaudrate] issues the two request-0x9a control writes
    that carry the rate's divisor words (the second once the device has
    accepted the first) when the rate is one of 2400, 4800, 9600, 19200,
    38400, 57600, 115200; for every other rate it throws [bad_baudrate]
    and issues no control write, and an [attach] that reaches the CH34x
    driver returns [-bad_baudrate]. *)
Theorem ch34x_setbaudrate_by_table (usb : control_request -> Z) (rate : Z) :
  (In rate Ch34x.listed_rates ->
   exists e, In e Ch34x.table /\ Ch34x.baud e = rate /\
     Generic.run (Ch34x.setbaudrate usb rate) =
     (if usb (fst (divisor_requests e)) <? 0 then
        (Throw control_error, [fst (divisor_requests e)])
      else
        (if usb (snd (divisor_requests e)) <? 0 then Throw control_error
         else Ok tt,
         [fst (divisor_requests e); snd (divisor_requests e)]))) /\
  (~ In rate Ch34x.listed_rates ->
   Generic.run (Ch34x.setbaudrate usb rate) = (Throw bad_baudrate, []) /\
   forall (os : Core.syscalls) (env : Context.attach_env)
          (fd_valid : Z -> bool) (reg : list Context.factory) (ifc : Z)
          (ch : channel) (pi : eia_tia_232_info) (b : Context.backend)
          (t : list Core.event) (desc : Libusb.device_descriptor)
          (d : Ch34x.ch34x) (ctl : list control_request),
     Context.validate_info pi = Ok tt ->
     Context.validate_channel fd_valid ch = Ok tt ->
     Context.found env = Some desc ->
     Generic.run (Context.create env reg desc ifc)
       = (Ok (Core.Ch34x_driver d), ctl) ->
     baudrate pi = rate ->
     fst (Context.context_attach os env fd_valid reg ifc ch pi b t)
       = neg_err bad_baudrate).
Proof.
  split.
  - intros H. apply ch34x_rate_listed in H. destruct H as (e & He & Hb).
    exists e. split; [exact He |]. split; [exact Hb |].
    rewrite <- Hb. apply ch34x_listed_run. exact He.
  - intros H. split.
    + unfold Generic.run. apply ch34x_unlisted_run. exact H.
    + intros os env fd_valid reg ifc ch pi b t desc d ctl Hv Hc Hf Hcr Hr.
      unfold Context.context_attach. rewrite Hv. cbn [Context.and_then].
      rewrite Hc. cbn [fst].
      rewrite (attach_ch34x_unlisted os env reg ifc ch pi b t desc d ctl);
        [reflexivity | exact Hf | exact Hcr | rewrite Hr; exact H].
Qed.

Lemma ch34x_setbaudrate_by_table_witness :
  (exists e, In e Ch34x.table /\ Ch34x.baud e = 9600 /\
     Generic.run (Ch34x.setbaudrate willing_device 9600) =
     (if willing_device (fst (divisor_requests e)) <? 0 then
        (Throw control_error, [fst (divisor_requests e)])
      else
        (if willing_device (snd (divisor_requests e)) <? 0
         then Throw control_error else Ok tt,
         [fst (divisor_requests e); snd (divisor_requests e)]))) /\
  Generic.run (Ch34x.setbaudrate willing_device 1200)
    = (Throw bad_baudrate, []) /\
  fst (Context.context_attach quiet_os (plain_env ch340) (fun _ => true)
         registrar 0 {| fd_read := 0; fd_write := 1 |}
         {| baudrate := 1200; databits := 8; parity := 0; stopbits := 0;
            flowcontrol := 0 |} empty_backend [])
    = neg_err bad_baudrate.
Proof.
  assert (N : ~ In 1200 Ch34x.listed_rates).
  { unfold Ch34x.listed_rates. cbn [In]. lia. }
  assert (Y : In 9600 Ch34x.listed_rates).
  { unfold Ch34x.listed_rates. cbn [In]. lia. }
  split.
  - exact (proj1 (ch34x_setbaudrate_by_table willing_device 9600) Y).
  - destruct (proj2 (ch34x_setbaudrate_by_table willing_device 1200) N)
      as [H1 H2].
    split; [exact H1 |].
    eapply H2.
    + reflexivity.
    + reflexivity.
    + reflexivity.
    + vm_compute. reflexivity.
    + reflexivity.
Defined.

(** ** The event loop when [poll] fails *)

Lemma poll_events_negative (k : Context.kernel) (timeout : Z)
    (b : Context.backend) (t : list Core.event) (polled errno : Z)
    (revs : list Z) :
  Context.poll_list b <> [] ->
  Context.sys_poll k
    (t ++ [Core.SysPoll (Z.of_nat (List.length (Context.poll_list b)))
                        timeout])
    (Context.poll_list b) timeout = (polled, errno, revs) ->
  polled < 0 ->
  fst (fst (Context.poll_events k timeout b t)) =
  match Core.throw_error errno with
  | Throw e => Throw e
  | Ok _ => Ok polled
  end.
Proof.
  intros Hne Hpoll Hneg. unfold Context.poll_events.
  destruct (Context.poll_list b) as [| p l] eqn:El; [contradiction |].
  destruct (Z.eqb_spec (Z.of_nat (List.length (p :: l))) 0) as [E | _].
  { cbn [List.length] in E. lia. }
  rewrite Hpoll.
  destruct (Z.ltb_spec polled 0) as [_ | Hge]; [| lia].
  destruct (Z.eqb_spec polled EINVAL) as [E | _].
  { unfold EINVAL in E. lia. }
  destruct (Core.throw_error errno); reflexivity.
Qed.

Lemma handle_events_negative (os : Core.syscalls) (k : Context.kernel)
    (timeout : Z) (b : Context.backend) (t : list Core.event)
    (polled errno : Z) (revs : list Z) :
  Context.poll_list b <> [] ->
  Context.sys_poll k
    (t ++ [Core.SysPoll (Z.of_nat (List.length (Context.poll_list b)))
                        timeout])
    (Context.poll_list b) timeout = (polled, errno, revs) ->
  polled < 0 ->
  fst (fst (Context.handle_events os k timeout b t)) =
  match Core.throw_error errno with
  | Throw e => Throw e
  | Ok _ => Ok polled
  end.
Proof.
  intros Hne Hpoll Hneg.
  pose proof (poll_events_negative k timeout b t polled errno revs
                Hne Hpoll Hneg) as H.
  unfold Context.handle_events.
  destruct (Z.eqb_spec (Z.of_nat (List.length (Context.poll_list b))) 0)
    as [E | _].
  { destruct (Context.poll_list b); [contradiction |].
    cbn [List.length] in E. lia. }
  destruct (Context.poll_events k timeout b t) as [[r b'] t'].
  cbn [fst] in H. rewrite H.
  destruct (Core.throw_error errno); [| reflexivity].
  destruct (Z.leb_spec 0 polled); [lia | reflexivity].
Qed.

(** The value [loop] returns is decided by the result of
    [handle_events]. *)
Lemma loop_result (os : Core.syscalls) (k : Context.kernel) (timeout : Z)
    (b : Context.backend) (t : list Core.event) :
  match fst (fst (Context.handle_events os k timeout b t)) with
  | Throw e => fst (fst (Context.loop os k timeout b t)) = neg_err e
  | Ok result =>
      result <> 0 -> fst (fst (Context.loop os k timeout b t)) = result
  end.
Proof.
  unfold Context.loop.
  destruct (Context.handle_events os k timeout b t) as [[[result | e] b1] t1];
    cbn [fst]; [| reflexivity].
  intros Hr.
  destruct (if Context.pending b1 then _ else _) as [b2 t2].
  destruct (if negb _ then _ else _) as [b3 t3].
  cbn [fst Context.safe].
  destruct (Z.eqb_spec result 0); [contradiction | reflexivity].
Qed.

(** C7 fails on the code: [poll_events] tests [polled == EINVAL] on the
    negative value [poll] returned instead of [errno], so [poll_error] is
    never thrown: with [errno] [EINVAL] the call of [throw_error] throws
    [io_error] and [loop] returns [-io_error]; with [errno] [EINTR] or
    [EAGAIN] [throw_error] returns, [poll_events] returns the negative
    [polled], and [loop] hands it to the caller. *)
Theorem loop_poll_failure (os : Core.syscalls) (k : Context.kernel)
    (timeout : Z) (b : Context.backend) (t : list Core.event)
    (polled errno : Z) (revs : list Z) :
  Context.poll_list b <> [] ->
  Context.sys_poll k
    (t ++ [Core.SysPoll (Z.of_nat (List.length (Context.poll_list b)))
                        timeout])
    (Context.poll_list b) timeout = (polled, errno, revs) ->
  polled < 0 ->
  (errno = EINVAL ->
   fst (fst (Context.loop os k timeout b t)) = neg_err io_error) /\
  (errno = EINTR \/ errno = EAGAIN ->
   fst (fst (Context.loop os k timeout b t)) = polled).
Proof.
  intros Hne Hpoll Hneg.
  pose proof (handle_events_negative os k timeout b t polled errno revs
                Hne Hpoll Hneg) as H.
  pose proof (loop_result os k timeout b t) as L.
  rewrite H in L. split.
  - intros ->. exact L.
  - intros [-> | ->]; cbn in L; apply L; lia.
Qed.

(** The failing input of C7: [poll] returns -1 with [errno] [EINVAL];
    and the same with [EINTR]. *)
Lemma loop_poll_failure_witness :
  fst (fst (Context.loop quiet_os (failing_poll EINVAL) 10
              waiting_backend [])) = -16 /\
  neg_err poll_error = -18 /\
  fst (fst (Context.loop quiet_os (failing_poll EINTR) 10
              waiting_backend [])) = -1 /\
  neg_err no_channels = -1.
Proof.
  assert (Hne : Context.poll_list waiting_backend <> [])
    by (intros H; discriminate H).
  split; [| split; [reflexivity | split; [| reflexivity]]].
  - exact (proj1 (loop_poll_failure quiet_os (failing_poll EINVAL) 10
                    waiting_backend [] (-1) EINVAL [] Hne eq_refl eq_refl)
                 eq_refl).
  - exact (proj2 (loop_poll_failure quiet_os (failing_poll EINTR) 10
                    waiting_backend [] (-1) EINTR [] Hne eq_refl eq_refl)
                 (or_introl eq_refl)).
Defined.

(** ** The pipe channel *)

(** C6 fails on the code: [bipipe] stores [b[1]] in [ex.fd_write] (and
    not [a[1]]), so the caller receives both ends of pipe [b]; the
    destructor closes [b[0]], [b[1]], [a[0]] and [b[1]] again, and never
    [a[1]]. *)
Theorem pipe_channel_descriptors (a0 a1 b0 b1 : Z) (ch : channel)
    (d : Core.driver) :
  exists (p : Context.pipe_channel) (ex : channel),
    Context.pipe_channel_ctor (Some (a0, a1)) (Some (b0, b1)) ch d
      = (Ok (p, ex), []) /\
    Core.fdrd (Context.base p) = a0 /\
    Core.fdrw (Context.base p) = b1 /\
    fd_read ex = b0 /\
    fd_write ex = b1 /\
    Context.pipe_channel_dtor p = [b0; b1; a0; b1].
Proof.
  eexists. eexists. split; [reflexivity |].
  repeat split.
Qed.

(** The failing input of C6: [pipe] yields the descriptors (3, 4) for
    [a] and (5, 6) for [b].  The caller gets 5 and 6, and descriptor 4 is
    neither handed out nor closed. *)
Lemma bipipe_hands_out_pipe_b :
  forall (d : Core.driver) (ch : channel),
  exists (p : Context.pipe_channel),
    Context.pipe_channel_ctor (Some (3, 4)) (Some (5, 6)) ch d
      = (Ok (p, {| fd_read := 5; fd_write := 6 |}), []) /\
    Context.pipe_channel_dtor p = [5; 6; 3; 6] /\
    ~ In 4 (Context.pipe_channel_dtor p).
Proof.
  intros d ch. eexists. split; [reflexivity |].
  split; [reflexivity |].
  cbn. intros [H | [H | [H | [H | []]]]]; discriminate H.
Qed.

(** ** The file channel: removal, submission *)

Lemma same_but_flags_refl (ch : Core.file_channel) : same_but_flags ch ch.
Proof. unfold same_but_flags. repeat split. Qed.

Lemma same_but_flags_trans (a b c : Core.file_channel) :
  same_but_flags a b -> same_but_flags b c -> same_but_flags a c.
Proof.
  unfold same_but_flags. intros H1 H2.
  destruct H1 as (A1 & A2 & A3 & A4 & A5 & A6 & A7 & A8 & A9 & A10).
  destruct H2 as (B1 & B2 & B3 & B4 & B5 & B6 & B7 & B8 & B9 & B10).
  repeat split; congruence.
Qed.

Lemma same_but_flags_set_flag (ch : Core.file_channel) (f : Core.flag)
    (b : bool) : same_but_flags ch (Core.set_flag ch f b).
Proof. unfold same_but_flags. repeat split. Qed.

Lemma same_but_flags_xfer (ch ch' : Core.file_channel) (p : Core.xfer_ptr) :
  same_but_flags ch ch' -> Core.xfer ch' p = Core.xfer ch p.
Proof.
  intros (A1 & A2 & A3 & _). destruct p; cbn [Core.xfer]; assumption.
Qed.

(** Run the monadic code of a channel operation as far as it goes. *)
Ltac run_M :=
  cbn [bind ret Core.Monad_M Core.M_bind Core.M_ret Core.when Core.get
       Core.modify Core.emit Core.history Core.idx fst snd];
  try unfold Core.emit; try unfold Core.modify; try unfold Core.M_ret;
  cbn [bind ret Core.Monad_M Core.M_bind Core.when Core.get
       Core.history Core.idx fst snd].

Lemma close_spec (ch : Core.file_channel) (t : list Core.event) :
  exists (r : bool) (ch' : Core.file_channel) (evs : list Core.event),
    Core.close ch t = (r, ch', t ++ evs) /\
    same_but_flags ch ch' /\ forallb housekeeping evs = true.
Proof.
  unfold Core.close.
  destruct (Core.writexfer_busy ch) eqn:Ew,
           (Core.readxfer_busy ch) as [[|] [|]] eqn:Er;
    run_M; rewrite ?Ew, ?Er; run_M;
    rewrite <- ?app_assoc; cbn [app];
    (eexists; eexists; eexists;
     split; [first [reflexivity | rewrite app_nil_r; reflexivity] |];
     split; [unfold same_but_flags; repeat split | reflexivity]).
Qed.

Lemma request_removal_spec (enforce : bool) (ch : Core.file_channel)
    (t : list Core.event) :
  exists (ch' : Core.file_channel) (evs : list Core.event),
    Core.request_removal enforce ch t = (tt, ch', t ++ evs) /\
    same_but_flags ch ch' /\ forallb housekeeping evs = true.
Proof.
  unfold Core.request_removal. run_M.
  set (ch1 := Core.set_flag ch Core.Device_hangup _).
  assert (H1 : same_but_flags ch ch1) by apply same_but_flags_set_flag.
  destruct (Core.device_hangup ch1
            || Core.pipein_hangup ch1 && Core.pipeout_hangup ch1); run_M.
  - destruct (close_spec ch1 t) as (r & ch2 & evs & E & H2 & Hk).
    unfold Core.M_bind. rewrite E. run_M.
    exists ch2, (evs ++ [Core.OwnerRequestRemoval]).
    split; [rewrite app_assoc; reflexivity |].
    split; [exact (same_but_flags_trans _ _ _ H1 H2) |].
    rewrite forallb_app, Hk. reflexivity.
  - exists ch1, []. rewrite app_nil_r.
    split; [reflexivity |]. split; [exact H1 | reflexivity].
Qed.

Lemma is_error_spec (errno res : Z) (ch : Core.file_channel)
    (t : list Core.event) :
  exists (r : bool) (ch' : Core.file_channel) (evs : list Core.event),
    Core.is_error errno res ch t = (r, ch', t ++ evs) /\
    same_but_flags ch ch' /\ forallb housekeeping evs = true.
Proof.
  unfold Core.is_error.
  destruct (errno =? EAGAIN);
    [exists false, ch, []; rewrite app_nil_r;
     split; [reflexivity | split; [apply same_but_flags_refl | reflexivity]]
    |].
  destruct (errno =? EINTR);
    [exists false, ch, []; rewrite app_nil_r;
     split; [reflexivity | split; [apply same_but_flags_refl | reflexivity]]
    |].
  destruct ((errno =? 0) && (res =? 0));
    [exists false, ch, []; rewrite app_nil_r;
     split; [reflexivity | split; [apply same_but_flags_refl | reflexivity]]
    |].
  run_M.
  destruct (request_removal_spec false ch t) as (ch' & evs & E & H & Hk).
  unfold Core.M_bind. rewrite E. run_M. exists true, ch', evs.
  split; [reflexivity | split; assumption].
Qed.

Lemma submit_transfer_spec (os : Core.syscalls) (p : Core.xfer_ptr)
    (ch : Core.file_channel) (t : list Core.event) :
  exists (ch' : Core.file_channel) (evs : list Core.event),
    Core.submit_transfer os p ch t =
      (Core.libusb_submit_transfer os (t ++ [Core.Submit p]) p =? 0, ch',
       t ++ Core.Submit p :: evs) /\
    same_but_flags ch ch' /\ forallb housekeeping evs = true.
Proof.
  unfold Core.submit_transfer. run_M.
  destruct (Core.libusb_submit_transfer os (t ++ [Core.Submit p]) p =? 0);
    run_M.
  - exists ch, [].
    split; [reflexivity |].
    split; [apply same_but_flags_refl | reflexivity].
  - destruct (request_removal_spec true ch (t ++ [Core.Submit p]))
      as (ch' & evs & E & H & Hk).
    unfold Core.M_bind. rewrite E. run_M. exists ch', evs.
    split; [rewrite <- app_assoc; reflexivity |].
    split; assumption.
Qed.

(** ** The file channel: draining an IN transfer *)

Lemma consumed_partial (os : Core.syscalls) (p : Core.xfer_ptr) (size : Z)
    (ch : Core.file_channel) (t : list Core.event) :
  Core.idx (Core.readxfer_busy ch) (Core.is1 p) = false ->
  u16 (Core.idx (Core.readpos ch) (Core.is1 p) + size)
    < Libusb.actual_length (Core.xfer ch p) ->
  Core.consumed os p size ch t =
  (false,
   Core.set_readpos ch (Core.is1 p)
     (u16 (Core.idx (Core.readpos ch) (Core.is1 p) + size)), t).
Proof.
  intros Hb Hlt. unfold Core.consumed. run_M. rewrite Hb. run_M.
  destruct (Z.leb_spec (Libusb.actual_length (Core.xfer ch p))
              (u16 (Core.idx (Core.readpos ch) (Core.is1 p) + size)));
    [lia | reflexivity].
Qed.

Lemma consumed_full (os : Core.syscalls) (p : Core.xfer_ptr) (size : Z)
    (ch : Core.file_channel) (t : list Core.event) :
  Core.idx (Core.readxfer_busy ch) (Core.is1 p) = false ->
  Libusb.actual_length (Core.xfer ch p)
    <= u16 (Core.idx (Core.readpos ch) (Core.is1 p) + size) ->
  exists (ch' : Core.file_channel) (evs : list Core.event),
    Core.consumed os p size ch t = (true, ch', t ++ Core.Submit p :: evs) /\
    forallb housekeeping evs = true /\
    same_but_flags
      (Core.set_current
         (Core.set_readxfer_busy
            (Core.set_readpos ch (Core.is1 p)
               (u16 (Core.idx (Core.readpos ch) (Core.is1 p) + size)))
            (Core.is1 p)
            (Core.libusb_submit_transfer os (t ++ [Core.Submit p]) p =? 0))
         (if Core.is1 p then Core.Rd0 else Core.Rd1))
      ch'.
Proof.
  intros Hb Hle. unfold Core.consumed. run_M. rewrite Hb. run_M.
  destruct (Z.leb_spec (Libusb.actual_length (Core.xfer ch p))
              (u16 (Core.idx (Core.readpos ch) (Core.is1 p) + size)));
    [| lia].
  set (pos := u16 (Core.idx (Core.readpos ch) (Core.is1 p) + size)).
  destruct (submit_transfer_spec os p (Core.set_readpos ch (Core.is1 p) pos) t)
    as (ch1 & evs & E & Hs & Hk).
  unfold Core.M_bind. rewrite E. run_M.
  eexists. exists evs. split; [reflexivity |]. split; [exact Hk |].
  destruct Hs as (A1 & A2 & A3 & A4 & A5 & A6 & A7 & A8 & A9 & A10).
  unfold same_but_flags.
  cbn [Core.readxfer0 Core.readxfer1 Core.writexfer Core.current
       Core.readpos Core.readxfer_busy Core.writexfer_busy Core.fdrd
       Core.fdrw Core.drv Core.set_current Core.set_readxfer_busy
       Core.set_readpos] in *.
  repeat split; congruence.
Qed.

Lemma writepipe_answered (os : Core.syscalls) (p : Core.xfer_ptr)
    (ch : Core.file_channel) (t : list Core.event) :
  Core.idx (Core.readxfer_busy ch) (Core.is1 p) = false ->
  0 < pending_bytes ch p < 2^16 ->
  Core.writepipe os p ch t =
  (let '(res, errno) := write_answer os ch p t in
   e <- (if res <=? 0 then Core.is_error errno res else ret false) ;;
   if e then Core.modify (fun ch => Core.set_flag ch Core.Pipeout_hangup true)
   else if 0 <? res then
     c <- Core.consumed os p (u16 res) ;;
     Core.when (negb c) (Core.poll_request (Core.fdrw ch) false)
   else ret tt) ch (t ++ [write_call ch p]).
Proof.
  intros Hb Hn. unfold Core.writepipe. run_M. unfold Core.getreadbuff.
  rewrite Hb. fold (pending_bytes ch p).
  rewrite (u16_small (pending_bytes ch p)) by lia.
  destruct (Z.eqb_spec (pending_bytes ch p) 0) as [E | _]; [lia |].
  reflexivity.
Qed.

Lemma writepipe_idle (os : Core.syscalls) (p : Core.xfer_ptr)
    (ch : Core.file_channel) (t : list Core.event) :
  Core.idx (Core.readxfer_busy ch) (Core.is1 p) = true \/
  u16 (pending_bytes ch p) = 0 ->
  Core.writepipe os p ch t = (tt, ch, t).
Proof.
  intros H. unfold Core.writepipe. run_M. unfold Core.getreadbuff.
  destruct (Core.idx (Core.readxfer_busy ch) (Core.is1 p)) eqn:Hb.
  - reflexivity.
  - destruct H as [H | H]; [discriminate H |].
    fold (pending_bytes ch p). rewrite H. reflexivity.
Qed.

Lemma writepipe_partial (os : Core.syscalls) (p : Core.xfer_ptr)
    (ch : Core.file_channel) (t : list Core.event) (k errno : Z) :
  Core.idx (Core.readxfer_busy ch) (Core.is1 p) = false ->
  0 <= Core.idx (Core.readpos ch) (Core.is1 p) ->
  Libusb.actual_length (Core.xfer ch p) < 2^16 ->
  write_answer os ch p t = (k, errno) ->
  0 < k < pending_bytes ch p ->
  Core.writepipe os p ch t =
  (tt,
   Core.set_readpos ch (Core.is1 p)
     (Core.idx (Core.readpos ch) (Core.is1 p) + k),
   t ++ [write_call ch p;
         Core.PollRequest (Core.fdrw ch) (Z.lor Core.POLLOUT Core.POLLHUP)]).
Proof.
  intros Hb Hpos Hal Hans Hk.
  assert (Hn : 0 < pending_bytes ch p < 2^16)
    by (unfold pending_bytes in *; lia).
  rewrite (writepipe_answered os p ch t Hb Hn), Hans.
  destruct (Z.leb_spec k 0); [lia |]. run_M.
  destruct (Z.ltb_spec 0 k); [| lia].
  rewrite (u16_small k) by lia.
  unfold Core.M_bind.
  rewrite consumed_partial;
    [| exact Hb | unfold pending_bytes in Hk; rewrite u16_small; lia].
  rewrite u16_small by (unfold pending_bytes in Hk; lia).
  cbn [negb]. unfold Core.poll_request. run_M.
  rewrite <- app_assoc. reflexivity.
Qed.

Lemma writepipe_full (os : Core.syscalls) (p : Core.xfer_ptr)
    (ch : Core.file_channel) (t : list Core.event) (k errno : Z) :
  Core.idx (Core.readxfer_busy ch) (Core.is1 p) = false ->
  0 <= Core.idx (Core.readpos ch) (Core.is1 p) ->
  Libusb.actual_length (Core.xfer ch p) < 2^16 ->
  0 < pending_bytes ch p ->
  write_answer os ch p t = (k, errno) ->
  k = pending_bytes ch p ->
  exists (ch' : Core.file_channel) (evs : list Core.event),
    Core.writepipe os p ch t =
      (tt, ch', t ++ write_call ch p :: Core.Submit p :: evs) /\
    forallb housekeeping evs = true /\
    same_but_flags
      (drained ch p (Libusb.actual_length (Core.xfer ch p))
         (Core.libusb_submit_transfer os
            (t ++ [write_call ch p; Core.Submit p]) p =? 0))
      ch'.
Proof.
  intros Hb Hpos Hal Hn0 Hans Hk.
  assert (Hn : 0 < pending_bytes ch p < 2^16)
    by (unfold pending_bytes in *; lia).
  rewrite (writepipe_answered os p ch t Hb Hn), Hans.
  destruct (Z.leb_spec k 0); [lia |]. run_M.
  destruct (Z.ltb_spec 0 k); [| lia].
  rewrite (u16_small k) by lia.
  assert (Hsum : Core.idx (Core.readpos ch) (Core.is1 p) + k
                 = Libusb.actual_length (Core.xfer ch p))
    by (unfold pending_bytes in Hk; lia).
  destruct (consumed_full os p k ch (t ++ [write_call ch p]) Hb)
    as (ch' & evs & E & Hh & Hs).
  { rewrite Hsum, u16_small; lia. }
  rewrite Hsum, u16_small in Hs by lia.
  unfold Core.M_bind. rewrite E. cbn [negb Core.when]. run_M.
  exists ch', evs. rewrite <- app_assoc in Hs |- *. cbn [app] in Hs |- *.
  split; [reflexivity |]. split; [exact Hh | exact Hs].
Qed.


Lemma housekeeping_no_writes (evs : list Core.event) :
  forallb housekeeping evs = true ->
  writes evs = [] /\ submissions evs = [].
Proof.
  induction evs as [| e evs IH]; intros H; [split; reflexivity |].
  cbn [forallb] in H. apply andb_prop in H. destruct H as [He H].
  destruct (IH H) as [IH1 IH2].
  unfold writes, submissions in *. cbn [filter].
  destruct e; cbn in He; try discriminate He; cbn [is_write is_submit];
    split; assumption.
Qed.



Lemma in_ptr_is1 (i : bool) : Core.is1 (in_ptr i) = i.
Proof. destruct i; reflexivity. Qed.

Lemma drained_xfer (ch : Core.file_channel) (p q : Core.xfer_ptr) (pos : Z)
    (b : bool) : Core.xfer (drained ch p pos b) q = Core.xfer ch q.
Proof. destruct q; reflexivity. Qed.

Lemma set_readpos_xfer (ch : Core.file_channel) (q : Core.xfer_ptr)
    (i : bool) (pos : Z) :
  Core.xfer (Core.set_readpos ch i pos) q = Core.xfer ch q.
Proof. destruct q; reflexivity. Qed.

Lemma idx_upd {A : Type} (a : A * A) (i j : bool) (v : A) :
  Core.idx (Core.upd a i v) j = if Bool.eqb i j then v else Core.idx a j.
Proof. destruct a, i, j; reflexivity. Qed.




(** ** The file channel: read completions *)

Lemma consumed_no_writes (os : Core.syscalls) (p : Core.xfer_ptr) (size : Z)
    (ch : Core.file_channel) (t : list Core.event) :
  exists (c : bool) (ch' : Core.file_channel) (evs : list Core.event),
    Core.consumed os p size ch t = (c, ch', t ++ evs) /\ writes evs = [].
Proof.
  destruct (Core.idx (Core.readxfer_busy ch) (Core.is1 p)) eqn:Hb.
  - exists false, ch, []. unfold Core.consumed. run_M. rewrite Hb.
    rewrite app_nil_r. split; reflexivity.
  - destruct (Z.le_gt_cases
                (Libusb.actual_length (Core.xfer ch p))
                (u16 (Core.idx (Core.readpos ch) (Core.is1 p) + size)))
      as [Hle | Hgt].
    + destruct (consumed_full os p size ch t Hb Hle)
        as (ch' & evs & E & Hh & _).
      exists true, ch', (Core.Submit p :: evs). split; [exact E |].
      unfold writes. cbn [filter is_write].
      exact (proj1 (housekeeping_no_writes evs Hh)).
    + rewrite (consumed_partial os p size ch t Hb Hgt).
      eexists. eexists. exists []. rewrite app_nil_r.
      split; reflexivity.
Qed.


Lemma writes_cons_write (fd : Z) (p : Core.xfer_ptr) (o n : Z)
    (evs : list Core.event) :
  writes (Core.SysWrite fd p o n :: evs)
  = Core.SysWrite fd p o n :: writes evs.
Proof. reflexivity. Qed.

Lemma writes_app (a b : list Core.event) :
  writes (a ++ b) = writes a ++ writes b.
Proof. unfold writes. apply filter_app. Qed.

(** Close a goal about the writes of a trace made of a write followed by
    parts known to hold none. *)
Ltac no_more_writes :=
  rewrite ?writes_cons_write, ?writes_app;
  repeat match goal with
         | H : forallb housekeeping ?e = true |- _ =>
             rewrite (proj1 (housekeeping_no_writes e H))
         | H : writes ?e = [] |- _ => rewrite H
         end;
  reflexivity.

(** The trace of [writepipe]: nothing for a busy or empty transfer, else
    one call of [write], from the current position to the end of the data,
    followed by events that are not calls of [write]. *)
Lemma writepipe_trace (os : Core.syscalls) (p : Core.xfer_ptr)
    (ch : Core.file_channel) (t : list Core.event) :
  exists (ch' : Core.file_channel) (evs : list Core.event),
    Core.writepipe os p ch t = (tt, ch', t ++ evs) /\
    if Core.idx (Core.readxfer_busy ch) (Core.is1 p)
       || (u16 (pending_bytes ch p) =? 0)
    then evs = [] /\ ch' = ch
    else exists rest,
        evs = Core.SysWrite (Core.fdrw ch) p
                (Core.idx (Core.readpos ch) (Core.is1 p))
                (u16 (pending_bytes ch p)) :: rest /\
        writes rest = [].
Proof.
  destruct (Core.idx (Core.readxfer_busy ch) (Core.is1 p)) eqn:Hb.
  { rewrite writepipe_idle by (left; exact Hb).
    exists ch, []. rewrite app_nil_r. repeat split. }
  destruct (Z.eqb_spec (u16 (pending_bytes ch p)) 0) as [E0 | N0].
  { rewrite writepipe_idle by (right; exact E0).
    exists ch, []. rewrite app_nil_r. repeat split. }
  cbn [orb].
  unfold Core.writepipe. run_M. unfold Core.getreadbuff. rewrite Hb.
  fold (pending_bytes ch p).
  destruct (Z.eqb_spec (u16 (pending_bytes ch p)) 0) as [E0 | _];
    [contradiction |].
  run_M.
  set (w := Core.SysWrite (Core.fdrw ch) p
              (Core.idx (Core.readpos ch) (Core.is1 p))
              (u16 (pending_bytes ch p))).
  destruct (Core.sys_write os (t ++ [w]) _ _ _) as [res errno].
  destruct (res <=? 0).
  - destruct (is_error_spec errno res ch (t ++ [w]))
      as (r & ch' & evs & E & _ & Hh).
    unfold Core.M_bind. rewrite E.
    destruct r.
    + run_M. eexists. exists (w :: evs).
      rewrite <- app_assoc. split; [reflexivity |].
      exists evs. split; [reflexivity | no_more_writes].
    + destruct (0 <? res).
      * destruct (consumed_no_writes os p (u16 res) ch' ((t ++ [w]) ++ evs))
          as (c & ch'' & evs' & E' & Hw).
        rewrite E'. destruct c; cbn [negb Core.when]; run_M.
        -- exists ch'', (w :: evs ++ evs').
           rewrite <- !app_assoc. split; [reflexivity |].
           exists (evs ++ evs'). split; [reflexivity | no_more_writes].
        -- unfold Core.poll_request. run_M.
           exists ch'',
             (w :: evs ++ evs'
                ++ [Core.PollRequest (Core.fdrw ch)
                      (Z.lor Core.POLLOUT Core.POLLHUP)]).
           rewrite <- !app_assoc. split; [reflexivity |].
           eexists. split; [reflexivity | no_more_writes].
      * run_M. exists ch', (w :: evs).
        rewrite <- app_assoc. split; [reflexivity |].
        exists evs. split; [reflexivity | no_more_writes].
  - run_M. destruct (0 <? res).
    + destruct (consumed_no_writes os p (u16 res) ch (t ++ [w]))
        as (c & ch'' & evs' & E' & Hw).
      unfold Core.M_bind. rewrite E'.
      destruct c; cbn [negb Core.when]; run_M.
      * exists ch'', (w :: evs').
        rewrite <- !app_assoc. split; [reflexivity |].
        exists evs'. split; [reflexivity | no_more_writes].
      * unfold Core.poll_request. run_M.
        exists ch'',
          (w :: evs' ++ [Core.PollRequest (Core.fdrw ch)
                           (Z.lor Core.POLLOUT Core.POLLHUP)]).
        rewrite <- !app_assoc. split; [reflexivity |].
        eexists. split; [reflexivity | no_more_writes].
    + exists ch, [w]. split; [reflexivity |].
      exists []. split; reflexivity.
Qed.

Lemma read_callback_run (os : Core.syscalls) (p : Core.xfer_ptr)
    (ch : Core.file_channel) (t : list Core.event) :
  Core.read_callback os p ch t =
  if Core.pipeout_hangup (after_driver ch p) then (tt, after_driver ch p, t)
  else if Libusb.actual_length (Core.xfer (after_driver ch p) p)
          <=? Core.idx (Core.readpos (after_driver ch p)) (Core.is1 p) then
    let '(b, ch2, t2) := Core.submit_transfer os p (after_driver ch p) t in
    (tt, Core.set_readxfer_busy ch2 (Core.is1 p) b, t2)
  else
    Core.writepipe os p
      (Core.set_readxfer_busy (after_driver ch p) (Core.is1 p) false) t.
Proof.
  unfold Core.read_callback. run_M. fold (after_driver ch p).
  destruct (Core.pipeout_hangup (after_driver ch p)); [reflexivity |].
  destruct (_ <=? _); run_M.
  - unfold Core.M_bind.
    destruct (Core.submit_transfer os p (after_driver ch p) t)
      as [[b ch2] t2]. reflexivity.
  - reflexivity.
Qed.

Lemma complete_in_run (os : Core.syscalls) (i : bool)
    (n : Z) (data : list Z) (ch : Core.file_channel) (t : list Core.event) :
  Core.complete os (in_ptr i) Libusb.LIBUSB_TRANSFER_COMPLETED n data ch t =
  Core.read_callback os (in_ptr i)
    (Core.set_xfer ch (in_ptr i)
       (completed (Core.xfer ch (in_ptr i))
                  Libusb.LIBUSB_TRANSFER_COMPLETED n data)) t.
Proof.
  unfold Core.complete, Core.read_cb, completed.
  destruct i; cbn [in_ptr]; run_M; reflexivity.
Qed.

(** What the FTDI [read_callback] does, by the length of the transfer. *)
Lemma ftdi_read_callback_cases (f : Ftdi.ftdi) (x : Libusb.transfer)
    (pos : Z) :
  (2 <= Libusb.actual_length x ->
   exists f', Ftdi.read_callback f x pos = (f', x, 2) /\
              Ftdi.ifc f' = Ftdi.ifc f /\
              Ftdi.errors f' =
                if u8 (Z.land (nth 1 (Libusb.buffer x) 0) Ftdi.error_mask)
                   =? 0
                then Ftdi.errors f
                else u8 (Z.lor (Ftdi.errors f)
                           (u8 (Z.land (nth 1 (Libusb.buffer x) 0)
                                       Ftdi.error_mask)))) /\
  (Libusb.actual_length x < 2 ->
   Ftdi.read_callback f x pos = (f, Libusb.set_actual_length x 0, pos)).
Proof.
  unfold Ftdi.read_callback. split; intros H.
  - destruct (Z.ltb_spec (Libusb.actual_length x) 2); [lia |].
    destruct (u8 (Z.land (nth 1 (Libusb.buffer x) 0) Ftdi.error_mask) =? 0);
      cbn [negb]; eexists; (split; [reflexivity | split; reflexivity]).
  - destruct (Z.ltb_spec (Libusb.actual_length x) 2); [reflexivity | lia].
Qed.

(** The state after the driver step for an FTDI channel. *)
Lemma after_driver_ftdi (ch : Core.file_channel) (i : bool) (f : Ftdi.ftdi) :
  Core.drv ch = Core.Ftdi_driver f ->
  Core.pipeout_hangup (after_driver ch (in_ptr i)) = Core.pipeout_hangup ch /\
  Core.fdrw (after_driver ch (in_ptr i)) = Core.fdrw ch /\
  Core.chunksize (after_driver ch (in_ptr i)) = Core.chunksize ch /\
  Core.xfer (after_driver ch (in_ptr i)) (in_ptr (negb i))
    = Core.xfer ch (in_ptr (negb i)) /\
  Core.idx (Core.readpos (after_driver ch (in_ptr i))) (negb i)
    = Core.idx (Core.readpos ch) (negb i) /\
  (2 <= Libusb.actual_length (Core.xfer ch (in_ptr i)) ->
   Core.xfer (after_driver ch (in_ptr i)) (in_ptr i)
     = Core.xfer ch (in_ptr i) /\
   Core.idx (Core.readpos (after_driver ch (in_ptr i))) i = 2) /\
  (Libusb.actual_length (Core.xfer ch (in_ptr i)) < 2 ->
   Core.xfer (after_driver ch (in_ptr i)) (in_ptr i)
     = Libusb.set_actual_length (Core.xfer ch (in_ptr i)) 0 /\
   Core.idx (Core.readpos (after_driver ch (in_ptr i))) i
     = Core.idx (Core.readpos ch) i).
Proof.
  intros Hd. unfold after_driver. rewrite Hd. cbn [Core.drv_read_callback].
  rewrite in_ptr_is1.
  destruct (ftdi_read_callback_cases f (Core.xfer ch (in_ptr i))
              (Core.idx (Core.readpos ch) i)) as [H2 H1].
  destruct (Z.le_gt_cases 2 (Libusb.actual_length (Core.xfer ch (in_ptr i))))
    as [Hge | Hlt].
  - destruct (H2 Hge) as (f' & E & Hifc & _). rewrite E.
    unfold Core.chunksize.
    cbn [Core.drv Core.set_readpos Core.set_xfer Core.set_drv Core.getifc
         Core.pipeout_hangup Core.fdrw Core.readpos].
    rewrite Hd, Hifc. cbn [Core.getifc].
    repeat split; try (destruct i; reflexivity); try lia.
  - assert (Hlt' : Libusb.actual_length (Core.xfer ch (in_ptr i)) < 2) by lia.
    rewrite (H1 Hlt').
    unfold Core.chunksize.
    cbn [Core.drv Core.set_readpos Core.set_xfer Core.set_drv Core.getifc
         Core.pipeout_hangup Core.fdrw Core.readpos].
    rewrite Hd.
    repeat split; try (destruct i; reflexivity); try lia.
Qed.

(** The bytes handed to [write] from offset 2 of a completed transfer are
    the bytes received without the first two. *)
Lemma payload_skips_status (x : Libusb.transfer)
    (st : Libusb.transfer_status) (s0 s1 : Z) (body : list Z) :
  Core.payload
    (completed x st (Z.of_nat (List.length (s0 :: s1 :: body)))
               (s0 :: s1 :: body))
    2 (Z.of_nat (List.length (s0 :: s1 :: body)) - 2)
  = body.
Proof.
  unfold Core.payload, completed. cbn [Libusb.buffer].
  rewrite Nat2Z.id. rewrite firstn_all.
  change (Z.to_nat 2) with 2%nat. cbn [app skipn List.length].
  replace (Z.to_nat (Z.of_nat (S (S (List.length body))) - 2))
    with (List.length body) by lia.
  rewrite firstn_app, firstn_all, Nat.sub_diag. cbn [firstn].
  apply app_nil_r.
Qed.

Lemma set_xfer_same (ch : Core.file_channel) (i : bool)
    (x : Libusb.transfer) :
  Core.xfer (Core.set_xfer ch (in_ptr i) x) (in_ptr i) = x.
Proof. destruct i; reflexivity. Qed.


(** C1 as stated fails on the code: for a transfer shorter than two
    bytes [ftdi::read_callback] returns before it assigns [readpos], so the
    payload offset is not set to 2 (here it stays 0). *)
Lemma ftdi_short_transfer_keeps_readpos :
  Libusb.actual_length short_transfer = 1 /\
  snd (Ftdi.read_callback plain_ftdi short_transfer 0) = 0 /\
  snd (Ftdi.read_callback plain_ftdi short_transfer 0) <> 2.
Proof.
  split; [reflexivity |]. split; [reflexivity |].
  intros H. discriminate H.
Qed.

(** C1, amended: for every completed FTDI bulk IN transfer of at least two
    bytes the driver's [read_callback] sets the payload offset to 2, and the
    only call of [write] the completion can lead to hands over the bytes
    from offset 2 on, so the two status bytes are never delivered; for
    every IN transfer shorter than two bytes [actual_length] is zeroed, the
    offset is left as it was, and [write] is not called. *)
Theorem ftdi_read_completion_strips_status (os : Core.syscalls) (i : bool)
    (ch : Core.file_channel) (t : list Core.event) (f : Ftdi.ftdi)
    (n : Z) (data : list Z) :
  Core.drv ch = Core.Ftdi_driver f ->
  0 <= Core.idx (Core.readpos ch) i ->
  n < 2^16 ->
  let x := completed (Core.xfer ch (in_ptr i))
                     Libusb.LIBUSB_TRANSFER_COMPLETED n data in
  exists (ch' : Core.file_channel) (evs : list Core.event),
    Core.complete os (in_ptr i) Libusb.LIBUSB_TRANSFER_COMPLETED n data ch t
      = (tt, ch', t ++ evs) /\
    (2 <= n ->
     snd (Ftdi.read_callback f x (Core.idx (Core.readpos ch) i)) = 2 /\
     writes evs =
       if Core.pipeout_hangup ch || (n =? 2) then []
       else [Core.SysWrite (Core.fdrw ch) (in_ptr i) 2 (n - 2)]) /\
    (n < 2 ->
     Ftdi.read_callback f x (Core.idx (Core.readpos ch) i)
       = (f, Libusb.set_actual_length x 0, Core.idx (Core.readpos ch) i) /\
     Libusb.actual_length (Core.xfer ch' (in_ptr i)) = 0 /\
     writes evs = []).
Proof.
  intros Hd Hpos Hn x.
  rewrite complete_in_run. fold x.
  set (ch0 := Core.set_xfer ch (in_ptr i) x).
  assert (Hd0 : Core.drv ch0 = Core.Ftdi_driver f)
    by (subst ch0; destruct i; exact Hd).
  assert (Hx0 : Core.xfer ch0 (in_ptr i) = x) by apply set_xfer_same.
  assert (Hp0 : Core.idx (Core.readpos ch0) i = Core.idx (Core.readpos ch) i)
    by (subst ch0; destruct i; reflexivity).
  destruct (after_driver_ftdi ch0 i f Hd0)
    as (Hh & Hfd & _ & _ & _ & Hge & Hlt).
  rewrite Hx0 in Hge, Hlt.
  change (Libusb.actual_length x) with n in Hge, Hlt.
  assert (Hh' : Core.pipeout_hangup (after_driver ch0 (in_ptr i))
                = Core.pipeout_hangup ch)
    by (rewrite Hh; subst ch0; destruct i; reflexivity).
  assert (Hfd' : Core.fdrw (after_driver ch0 (in_ptr i)) = Core.fdrw ch)
    by (rewrite Hfd; subst ch0; destruct i; reflexivity).
  destruct (ftdi_read_callback_cases f x (Core.idx (Core.readpos ch) i))
    as [Cge Clt].
  change (Libusb.actual_length x) with n in Cge, Clt.
  rewrite read_callback_run, in_ptr_is1, Hh'.
  set (ch1 := after_driver ch0 (in_ptr i)) in *.
  destruct (Core.pipeout_hangup ch) eqn:Ehang.
  { (* the write pipe has hung up: the callback stops *)
    exists ch1, []. rewrite app_nil_r. split; [reflexivity |].
    split.
    - intros H2. destruct (Cge H2) as (f' & E & _). rewrite E.
      split; reflexivity.
    - intros H1. split; [exact (Clt H1) |].
      destruct (Hlt H1) as [Ex _]. rewrite Ex. split; reflexivity. }
  destruct (Z.le_gt_cases 2 n) as [H2 | H1].
  - destruct (Hge H2) as [Ex Ep]. rewrite Ex, Ep.
    change (Libusb.actual_length x) with n.
    destruct (Z.leb_spec n 2) as [Hle | Hgt].
    + (* exactly the two status bytes: resubmit *)
      destruct (submit_transfer_spec os (in_ptr i) ch1 t)
        as (ch2 & evs & E & Hs & Hk).
      rewrite E. eexists. exists (Core.Submit (in_ptr i) :: evs).
      split; [reflexivity |]. split; [| intros; lia].
      intros _. destruct (Cge H2) as (f' & E' & _). rewrite E'.
      split; [reflexivity |].
      destruct (Z.eqb_spec n 2); [| lia]. cbn [orb].
      unfold writes. cbn [filter is_write].
      exact (proj1 (housekeeping_no_writes evs Hk)).
    + (* payload: one write from offset 2 *)
      set (ch2 := Core.set_readxfer_busy ch1 i false).
      destruct (writepipe_trace os (in_ptr i) ch2 t)
        as (ch' & evs & E & Hw).
      rewrite E. exists ch', evs. split; [reflexivity |].
      split; [| intros; lia].
      intros _. destruct (Cge H2) as (f' & E' & _). rewrite E'.
      split; [reflexivity |].
      rewrite in_ptr_is1 in Hw.
      assert (Hb : Core.idx (Core.readxfer_busy ch2) i = false)
        by (subst ch2; cbn [Core.readxfer_busy Core.set_readxfer_busy];
            rewrite idx_upd, Bool.eqb_reflx; reflexivity).
      assert (Hpb : pending_bytes ch2 (in_ptr i) = n - 2).
      { unfold pending_bytes. rewrite in_ptr_is1.
        change (Core.readpos ch2) with (Core.readpos ch1).
        replace (Core.xfer ch2 (in_ptr i)) with (Core.xfer ch1 (in_ptr i))
          by (subst ch2; destruct i; reflexivity).
        rewrite Ex, Ep. reflexivity. }
      rewrite Hb, Hpb in Hw. cbn [orb] in Hw.
      rewrite (u16_small (n - 2)) in Hw by lia.
      destruct (Z.eqb_spec (n - 2) 0); [lia |].
      destruct (Z.eqb_spec n 2); [lia |]. cbn [orb].
      destruct Hw as (rest & -> & Hrest).
      change (Core.readpos ch2) with (Core.readpos ch1). rewrite Ep.
      change (Core.fdrw ch2) with (Core.fdrw ch1).
      rewrite Hfd'.
      rewrite writes_cons_write, Hrest. reflexivity.
  - (* malformed transfer *)
    destruct (Hlt H1) as [Ex Ep]. rewrite Ex, Ep, Hp0.
    cbn [Libusb.actual_length Libusb.set_actual_length].
    destruct (Z.leb_spec 0 (Core.idx (Core.readpos ch) i)); [| lia].
    destruct (submit_transfer_spec os (in_ptr i) ch1 t)
      as (ch2 & evs & E & Hs & Hk).
    rewrite E. eexists. exists (Core.Submit (in_ptr i) :: evs).
    split; [reflexivity |]. split; [intros; lia |].
    intros _. split; [exact (Clt H1) |]. split.
    + replace (Core.xfer (Core.set_readxfer_busy ch2 i _) (in_ptr i))
        with (Core.xfer ch2 (in_ptr i)) by (destruct i; reflexivity).
      rewrite (same_but_flags_xfer ch1 ch2 (in_ptr i) Hs), Ex. reflexivity.
    + unfold writes. cbn [filter is_write].
      exact (proj1 (housekeeping_no_writes evs Hk)).
Qed.

Lemma ftdi_read_completion_strips_status_witness :
  exists (ch' : Core.file_channel) (evs : list Core.event),
    Core.complete quiet_os Core.Rd0 Libusb.LIBUSB_TRANSFER_COMPLETED 10
      hello_transfer started_ftdi_channel [] = (tt, ch', [] ++ evs) /\
    writes evs = [Core.SysWrite 1 Core.Rd0 2 8] /\
    Core.payload (Core.readxfer0 ch') 2 8 = [72; 101; 108; 108; 111; 10; 13; 0].
Proof.
  assert (Hpos : 0 <= Core.idx (Core.readpos started_ftdi_channel) false)
    by (apply Z.leb_le; reflexivity).
  assert (Hn : 10 < 2^16) by reflexivity.
  destruct (ftdi_read_completion_strips_status quiet_os false
              started_ftdi_channel [] plain_ftdi
              10 hello_transfer eq_refl Hpos Hn)
    as (ch' & evs & E & H2 & _).
  exists ch', evs. split; [exact E |].
  split; [exact (proj2 (H2 ltac:(lia))) |].
  assert (E' : ch' = channel_after_hello).
  { unfold channel_after_hello, state_after.
    change (in_ptr false) with Core.Rd0 in E. rewrite E. reflexivity. }
  rewrite E'. reflexivity.
Defined.

(** ** The invariant on read positions *)










(** ** Partial writes *)

Lemma housekeeping_no_submissions (evs : list Core.event) :
  forallb housekeeping evs = true -> submissions evs = [].
Proof. intros H. exact (proj2 (housekeeping_no_writes evs H)). Qed.

(** C2: when [write] takes [k] of the [n] bytes an IN transfer holds,
    [readpos] advances by exactly [k]; if [k < n] the transfer is not
    resubmitted, [current] stays, and the next [writepipe] on the transfer
    calls [write] from offset [readpos + k] for the remaining [n - k]
    bytes; if [k = n] the transfer is resubmitted and [current] becomes
    the other IN transfer. *)
Theorem partial_write_resumes (os : Core.syscalls) (i : bool)
    (ch : Core.file_channel) (t : list Core.event) (k errno : Z) :
  Core.idx (Core.readxfer_busy ch) i = false ->
  0 <= Core.idx (Core.readpos ch) i ->
  Libusb.actual_length (Core.xfer ch (in_ptr i)) < 2^16 ->
  write_answer os ch (in_ptr i) t = (k, errno) ->
  0 < k <= pending_bytes ch (in_ptr i) ->
  exists (ch' : Core.file_channel) (evs : list Core.event),
    Core.writepipe os (in_ptr i) ch t
      = (tt, ch', t ++ write_call ch (in_ptr i) :: evs) /\
    Core.idx (Core.readpos ch') i = Core.idx (Core.readpos ch) i + k /\
    (k < pending_bytes ch (in_ptr i) ->
     submissions evs = [] /\
     Core.current ch' = Core.current ch /\
     Core.idx (Core.readxfer_busy ch') i = false /\
     exists (ch'' : Core.file_channel) (evs' : list Core.event),
       Core.writepipe os (in_ptr i) ch'
         (t ++ write_call ch (in_ptr i) :: evs)
       = (tt, ch'',
          (t ++ write_call ch (in_ptr i) :: evs)
          ++ Core.SysWrite (Core.fdrw ch) (in_ptr i)
               (Core.idx (Core.readpos ch) i + k)
               (pending_bytes ch (in_ptr i) - k) :: evs')) /\
    (k = pending_bytes ch (in_ptr i) ->
     submissions evs = [Core.Submit (in_ptr i)] /\
     Core.current ch' = in_ptr (negb i) /\
     (Core.current ch = in_ptr i -> Core.current ch' <> Core.current ch) /\
     Core.idx (Core.readpos ch') i
       = Libusb.actual_length (Core.xfer ch (in_ptr i))).
Proof.
  intros Hb Hpos Hal Hans Hk.
  pose proof (in_ptr_is1 i) as Ei.
  remember (in_ptr i) as p eqn:Ep.
  rewrite <- Ei in Hb, Hpos.
  destruct (Z.eq_dec k (pending_bytes ch p)) as [Efull | Npart].
  - (* the whole payload is taken *)
    destruct (writepipe_full os p ch t k errno Hb Hpos Hal) as
      (ch' & evs & E & Hh & Hs); try assumption; try lia.
    exists ch', (Core.Submit p :: evs). split; [exact E |].
    destruct Hs as (_ & _ & _ & A4 & A5 & _).
    unfold drained in A4, A5.
    cbn [Core.current Core.readpos Core.set_current Core.set_readxfer_busy
         Core.set_readpos] in A4, A5.
    assert (Hp' : Core.idx (Core.readpos ch') i
                  = Libusb.actual_length (Core.xfer ch p)).
    { rewrite A5, Ei, idx_upd, Bool.eqb_reflx. reflexivity. }
    split; [rewrite Hp'; unfold pending_bytes in Efull; rewrite Ei in *; lia |].
    split; [intros; lia |].
    intros _. split.
    + change (submissions (Core.Submit p :: evs))
        with (Core.Submit p :: submissions evs).
      rewrite (housekeeping_no_submissions evs Hh). reflexivity.
    + assert (Hc : Core.current ch' = in_ptr (negb i))
        by (rewrite A4, Ei; destruct i; reflexivity).
      split; [exact Hc |]. split; [| exact Hp'].
      intros Hcur. rewrite Hc, Hcur, Ep.
      destruct i; intros H; discriminate H.
  - (* part of the payload is taken *)
    assert (Hk' : 0 < k < pending_bytes ch p) by lia.
    rewrite (writepipe_partial os p ch t k errno Hb Hpos Hal Hans Hk').
    set (ch' := Core.set_readpos ch (Core.is1 p)
                  (Core.idx (Core.readpos ch) (Core.is1 p) + k)).
    eexists. eexists. split; [reflexivity |].
    assert (Hp' : Core.idx (Core.readpos ch') i
                  = Core.idx (Core.readpos ch) i + k).
    { subst ch'. cbn [Core.readpos Core.set_readpos].
      rewrite Ei, idx_upd, Bool.eqb_reflx. reflexivity. }
    split; [exact Hp' |]. split; [| intros; lia].
    intros _. split; [reflexivity |]. split; [reflexivity |].
    split; [rewrite <- Ei; exact Hb |].
    set (t' := t ++ _).
    destruct (writepipe_trace os p ch' t') as (ch'' & evs' & E & Hw).
    assert (Hb' : Core.idx (Core.readxfer_busy ch') (Core.is1 p) = false)
      by exact Hb.
    assert (Hpb : pending_bytes ch' p = pending_bytes ch p - k).
    { unfold pending_bytes. rewrite Ei, Hp'. subst ch'.
      rewrite set_readpos_xfer. rewrite ?Ei. lia. }
    rewrite Hb', Hpb in Hw. cbn [orb] in Hw.
    assert (Hr : 0 < pending_bytes ch p - k < 2^16)
      by (unfold pending_bytes in *; lia).
    rewrite (u16_small _ (conj (Z.lt_le_incl _ _ (proj1 Hr)) (proj2 Hr))) in Hw.
    destruct (Z.eqb_spec (pending_bytes ch p - k) 0); [lia |].
    destruct Hw as (rest & -> & _).
    exists ch'', rest. rewrite E.
    rewrite Ei, Hp'. reflexivity.
Qed.

Lemma partial_write_resumes_witness :
  exists (ch' : Core.file_channel) (evs : list Core.event),
    Core.writepipe slow_os Core.Rd0 channel_holding_hello []
      = (tt, ch', [Core.SysWrite 1 Core.Rd0 2 8] ++ evs) /\
    Core.idx (Core.readpos ch') false = 5 /\
    submissions evs = [] /\
    exists (ch'' : Core.file_channel) (evs' : list Core.event),
      Core.writepipe slow_os Core.Rd0 ch'
        ([Core.SysWrite 1 Core.Rd0 2 8] ++ evs)
      = (tt, ch'',
         ([Core.SysWrite 1 Core.Rd0 2 8] ++ evs)
         ++ Core.SysWrite 1 Core.Rd0 5 5 :: evs').
Proof.
  assert (Hpos : 0 <= Core.idx (Core.readpos channel_holding_hello) false)
    by (apply Z.leb_le; reflexivity).
  assert (Hal : Libusb.actual_length
                  (Core.xfer channel_holding_hello (in_ptr false)) < 2^16)
    by reflexivity.
  assert (Hk : 0 < 3 <= pending_bytes channel_holding_hello (in_ptr false))
    by (split; [reflexivity | apply Z.leb_le; reflexivity]).
  destruct (partial_write_resumes slow_os false channel_holding_hello []
              3 0 eq_refl Hpos Hal eq_refl Hk)
    as (ch' & evs & E & Hp & Hpart & _).
  assert (Hlt : 3 < pending_bytes channel_holding_hello (in_ptr false))
    by reflexivity.
  destruct (Hpart Hlt) as (Hs & _ & _ & ch'' & evs' & E').
  exists ch', evs. split; [exact E |]. split; [exact Hp |].
  split; [exact Hs |]. exists ch'', evs'. exact E'.
Defined.

(** ** The status query *)

(** C4 as stated fails on the code: after a read completion whose second
    status byte reports a framing error the FTDI driver has recorded the
    bit, but [status] still returns 7 and not 7 with the bit OR-ed in. *)
Lemma status_omits_line_errors :
  driver_errors (Core.drv channel_after_framing_error) = 8 /\
  Core.status channel_after_framing_error = 7 /\
  spec_status channel_after_framing_error = 15 /\
  Core.status channel_after_framing_error
    <> spec_status channel_after_framing_error.
Proof.
  repeat split; try (vm_compute; reflexivity).
  vm_compute. intros H. discriminate H.
Qed.

(** C4, amended: [status] returns exactly the OR of [read_pipe_ok] (1)
    when [pipein_hangup] is false, [write_pipe_ok] (2) when
    [pipeout_hangup] is false and [usb_dev_ok] (4) when [device_hangup] is
    false; the line-error bits an FTDI read completion of at least two
    bytes reports are OR-ed into the driver's [errors] member, which
    [status] does not read: the value does not depend on the driver and
    is not changed by the driver's read callback. *)
Theorem status_reports_hangup_flags (ch : Core.file_channel) :
  Z.testbit (Core.status ch) 0 = negb (Core.pipein_hangup ch) /\
  Z.testbit (Core.status ch) 1 = negb (Core.pipeout_hangup ch) /\
  Z.testbit (Core.status ch) 2 = negb (Core.device_hangup ch) /\
  Core.status ch =
    (if Core.pipein_hangup ch then 0 else read_pipe_ok)
    + (if Core.pipeout_hangup ch then 0 else write_pipe_ok)
    + (if Core.device_hangup ch then 0 else usb_dev_ok) /\
  0 <= Core.status ch <= alles_gute /\
  (forall d, Core.status (Core.set_drv ch d) = Core.status ch) /\
  (forall p, Core.status (after_driver ch p) = Core.status ch) /\
  (forall (f : Ftdi.ftdi) (x : Libusb.transfer) (pos : Z),
     2 <= Libusb.actual_length x ->
     Ftdi.errors (fst (fst (Ftdi.read_callback f x pos))) =
       if u8 (Z.land (nth 1 (Libusb.buffer x) 0) Ftdi.error_mask) =? 0
       then Ftdi.errors f
       else u8 (Z.lor (Ftdi.errors f)
                  (u8 (Z.land (nth 1 (Libusb.buffer x) 0)
                              Ftdi.error_mask)))).
Proof.
  assert (Hbits :
    Z.testbit (Core.status ch) 0 = negb (Core.pipein_hangup ch) /\
    Z.testbit (Core.status ch) 1 = negb (Core.pipeout_hangup ch) /\
    Z.testbit (Core.status ch) 2 = negb (Core.device_hangup ch) /\
    Core.status ch =
      (if Core.pipein_hangup ch then 0 else read_pipe_ok)
      + (if Core.pipeout_hangup ch then 0 else write_pipe_ok)
      + (if Core.device_hangup ch then 0 else usb_dev_ok) /\
    0 <= Core.status ch <= alles_gute).
  { unfold Core.status, alles_gute.
    destruct (Core.pipein_hangup ch), (Core.pipeout_hangup ch),
      (Core.device_hangup ch); vm_compute;
      repeat split; intros H; discriminate H. }
  destruct Hbits as (B0 & B1 & B2 & Bs & Br).
  split; [exact B0 |]. split; [exact B1 |]. split; [exact B2 |].
  split; [exact Bs |]. split; [exact Br |].
  split; [| split].
  - intros d. reflexivity.
  - intros p. unfold after_driver.
    destruct (Core.drv_read_callback _ _ _) as [[d x] pos]. reflexivity.
  - intros f x pos H.
    destruct (proj1 (ftdi_read_callback_cases f x pos) H) as (f' & E & _ & He).
    rewrite E. exact He.
Qed.

Lemma status_reports_hangup_flags_witness :
  Ftdi.errors
    (fst (fst (Ftdi.read_callback
                 {| Ftdi.ifc := Ftdi.l_ifc; Ftdi.ifcnum := 0;
                    Ftdi.isH := false; Ftdi.errors := 2 |}
                 {| Libusb.status := Libusb.LIBUSB_TRANSFER_COMPLETED;
                    Libusb.length := 64; Libusb.actual_length := 3;
                    Libusb.buffer := [0x01; 0x08; 65] |} 0))) = 10 /\
  Core.status started_ftdi_channel = 7.
Proof.
  destruct (status_reports_hangup_flags started_ftdi_channel)
    as (_ & _ & _ & Hs & _ & _ & _ & He).
  split.
  - rewrite (He _ _ 0); [reflexivity |].
    apply Z.leb_le. reflexivity.
  - rewrite Hs. reflexivity.
Defined.

(** * Further properties of the code *)

(** ** Error codes and small helpers *)

(** X1: [throw_error] looks at the magnitude of its argument only; it
    returns for [EAGAIN] and [EINTR], throws [interface_busy] for [EBUSY],
    [no_access] for [EACCES] and [io_error] for everything else. *)
Theorem throw_error_by_magnitude (err : Z) :
  Core.throw_error (- err) = Core.throw_error err /\
  (Core.throw_error err = Ok tt <->
   Z.abs err = EAGAIN \/ Z.abs err = EINTR) /\
  (Core.throw_error err = Throw interface_busy <-> Z.abs err = EBUSY) /\
  (Core.throw_error err = Throw no_access <-> Z.abs err = EACCES) /\
  (Core.throw_error err = Throw io_error <->
   Z.abs err <> EAGAIN /\ Z.abs err <> EINTR /\
   Z.abs err <> EBUSY /\ Z.abs err <> EACCES).
Proof.
  assert (Habs : forall e, (if e <? 0 then - e else e) = Z.abs e).
  { intros e. destruct (Z.ltb_spec e 0); lia. }
  unfold Core.throw_error. rewrite !Habs, Z.abs_opp.
  unfold EAGAIN, EINTR, EBUSY, EACCES.
  split; [reflexivity |].
  destruct (Z.eqb_spec (Z.abs err) 11) as [E | N11];
    [rewrite E; cbn; repeat split; intros; try discriminate; try lia; auto |].
  destruct (Z.eqb_spec (Z.abs err) 4) as [E | N4];
    [rewrite E; cbn; repeat split; intros; try discriminate; try lia; auto |].
  cbn [orb].
  destruct (Z.eqb_spec (Z.abs err) 16) as [E | N16];
    [rewrite E; cbn; repeat split; intros; try discriminate; try lia; auto |].
  destruct (Z.eqb_spec (Z.abs err) 13) as [E | N13];
    [rewrite E; cbn; repeat split; intros; try discriminate; try lia; auto |].
  repeat split; intros; try discriminate; try lia; auto.
Qed.

(** X2: [maketimeval] turns a negative timeout into zero and splits any
    other number of milliseconds into seconds and microseconds that add
    up to it, the microseconds below one second. *)
Theorem maketimeval_splits (ms : Z) :
  (ms < 0 -> Context.maketimeval ms = (0, 0)) /\
  (0 <= ms ->
   fst (Context.maketimeval ms) * 1000000 + snd (Context.maketimeval ms)
     = ms * 1000 /\
   0 <= fst (Context.maketimeval ms) /\
   0 <= snd (Context.maketimeval ms) < 1000000).
Proof.
  unfold Context.maketimeval. split; intros H.
  - destruct (Z.ltb_spec ms 0); [reflexivity | lia].
  - destruct (Z.ltb_spec ms 0); [lia |]. cbn [fst snd].
    rewrite Z.quot_div_nonneg, Z.rem_mod_nonneg by lia.
    pose proof (Z.div_mod ms 1000 ltac:(lia)).
    pose proof (Z.mod_pos_bound ms 1000 ltac:(lia)).
    assert (0 <= ms / 1000) by (apply Z.div_pos; lia).
    lia.
Qed.

Lemma maketimeval_splits_witness :
  Context.maketimeval (-1) = (0, 0) /\
  fst (Context.maketimeval 1500) * 1000000 + snd (Context.maketimeval 1500)
    = 1500 * 1000.
Proof.
  split.
  - apply (proj1 (maketimeval_splits (-1))). lia.
  - apply (proj2 (maketimeval_splits 1500)). lia.
Defined.

(** X3: [validate] accepts line parameters exactly when the data bits are
    5 to 9, parity is at most [space], stop bits at most [two], flow
    control at most [xon_xoff] and the baud rate is not 0; it throws
    nothing but [invalid_param], and [attach] and [pipe] then return
    [-invalid_param] without touching the backend, the caller's channel
    or the device. *)
Theorem validate_accepts_valid_info (i : eia_tia_232_info) :
  (Context.validate_info i = Ok tt <-> valid_info i) /\
  (~ valid_info i ->
   Context.validate_info i = Throw invalid_param /\
   forall (os : Core.syscalls) (env : Context.attach_env)
          (fd_valid : Z -> bool) (reg : list Context.factory) (ifc : Z)
          (ch : channel) (b : Context.backend) (t : list Core.event),
     Context.context_attach os env fd_valid reg ifc ch i b t =
       (neg_err invalid_param,
        {| Context.returned := Throw invalid_param; Context.ex := ch;
           Context.backend' := b; Context.trace := t;
           Context.controls := [] |}) /\
     Context.context_pipe os env reg ifc ch i b t =
       (neg_err invalid_param,
        {| Context.returned := Throw invalid_param; Context.ex := ch;
           Context.backend' := b; Context.trace := t;
           Context.controls := [] |})).
Proof.
  assert (Hcases :
    (valid_info i /\ Context.validate_info i = Ok tt) \/
    (~ valid_info i /\ Context.validate_info i = Throw invalid_param)).
  { unfold valid_info, Context.validate_info, Context.and_then,
      Context.throw_if.
    destruct (Z.ltb_spec (databits i) 5); cbn [orb];
      [right; split; [lia | reflexivity] |].
    destruct (Z.ltb_spec 9 (databits i));
      [right; split; [lia | reflexivity] |].
    destruct (Z.ltb_spec 4 (parity i));
      [right; split; [lia | reflexivity] |].
    destruct (Z.ltb_spec 2 (stopbits i));
      [right; split; [lia | reflexivity] |].
    destruct (Z.ltb_spec 3 (flowcontrol i));
      [right; split; [lia | reflexivity] |].
    destruct (Z.eqb_spec (baudrate i) 0);
      [right; split; [lia | reflexivity] |].
    left. split; [lia | reflexivity]. }
  split.
  - destruct Hcases as [[Hv E] | [Hn E]]; rewrite E; split; intros H;
      try assumption; try reflexivity; try discriminate H; contradiction.
  - intros Hn. destruct Hcases as [[Hv _] | [_ E]]; [contradiction |].
    split; [exact E |].
    intros os env fd_valid reg ifc ch b t.
    unfold Context.context_attach, Context.context_pipe.
    rewrite E. cbn [Context.and_then]. split; reflexivity.
Qed.

Lemma validate_accepts_valid_info_witness :
  Context.validate_info _115200_8N1n = Ok tt /\
  fst (Context.context_attach quiet_os (plain_env ft232r) (fun _ => true)
         registrar 0 {| fd_read := 0; fd_write := 1 |}
         {| baudrate := 0; databits := 8; parity := 0; stopbits := 0;
            flowcontrol := 0 |} empty_backend [])
    = neg_err invalid_param.
Proof.
  split.
  - apply (proj1 (validate_accepts_valid_info _115200_8N1n)).
    unfold valid_info. cbn. lia.
  - destruct (validate_accepts_valid_info
                {| baudrate := 0; databits := 8; parity := 0; stopbits := 0;
                   flowcontrol := 0 |})
      as [_ H].
    destruct H as [_ H]; [unfold valid_info; cbn; lia |].
    rewrite (proj1 (H quiet_os (plain_env ft232r) (fun _ => true) registrar 0
                      {| fd_read := 0; fd_write := 1 |} empty_backend [])).
    reflexivity.
Defined.

(** X4: what the example [uartcat] makes of [status]: a channel is good
    exactly when no hang-up flag is set, and usable exactly when the
    device has not hung up and at least one of the two pipes has not. *)
Theorem uartcat_reads_status (ch : Core.file_channel) :
  Uartcat.is_good (Core.status ch)
    = negb (Core.pipein_hangup ch) && negb (Core.pipeout_hangup ch)
      && negb (Core.device_hangup ch) /\
  Uartcat.is_usable (Core.status ch)
    = negb (Core.device_hangup ch)
      && negb (Core.pipein_hangup ch && Core.pipeout_hangup ch).
Proof.
  unfold Core.status, Uartcat.is_good, Uartcat.is_usable.
  destruct (Core.pipein_hangup ch), (Core.pipeout_hangup ch),
    (Core.device_hangup ch); split; reflexivity.
Qed.

(** ** The registry and the way to a driver *)

Lemma registry_declined (l : list Context.factory)
    (desc : Libusb.device_descriptor) (id : Z) :
  (forall g, In g l -> forall c, fst (g desc id c) = Ok None) ->
  forall t, fst (Context.registry_create l desc id t) = Throw not_supported.
Proof.
  intros H. induction l as [| g l IH]; intros t; [reflexivity |].
  cbn [Context.registry_create]. cbn. unfold Generic.bind.
  pose proof (H g (or_introl eq_refl) t) as Hg.
  destruct (g desc id t) as [[o | e] t']; cbn in Hg; [| discriminate].
  injection Hg as ->. apply IH. intros g' Hin. apply H. right. exact Hin.
Qed.

Lemma registry_accepts (pre post : list Context.factory)
    (f : Context.factory) (desc : Libusb.device_descriptor) (id : Z)
    (d : Core.driver) :
  (forall g, In g pre -> forall c, fst (g desc id c) = Ok None) ->
  (forall c, fst (f desc id c) = Ok (Some d)) ->
  forall t, fst (Context.registry_create (pre ++ f :: post) desc id t)
            = Ok d.
Proof.
  intros Hpre Hf. induction pre as [| g pre IH]; intros t.
  - cbn [app Context.registry_create]. cbn. unfold Generic.bind.
    specialize (Hf t). destruct (f desc id t) as [[o | e'] t'];
      cbn in Hf; [| discriminate]. injection Hf as ->. reflexivity.
  - cbn [app Context.registry_create]. cbn. unfold Generic.bind.
    pose proof (Hpre g (or_introl eq_refl) t) as Hg.
    destruct (g desc id t) as [[o | e'] t']; cbn in Hg; [| discriminate].
    injection Hg as ->. apply IH.
    intros g' Hin. apply Hpre. right. exact Hin.
Qed.

(** X5: the registry asks its factories in order: the first one that
    returns a driver or throws decides, whatever the factories behind it
    would do, and when every factory declines the registry throws
    [not_supported]. *)
Theorem registry_first_answer (pre post : list Context.factory)
    (f : Context.factory) (desc : Libusb.device_descriptor) (id : Z) :
  (forall g, In g pre -> forall c, fst (g desc id c) = Ok None) ->
  (forall d, (forall c, fst (f desc id c) = Ok (Some d)) ->
     forall t, fst (Context.registry_create (pre ++ f :: post) desc id t)
               = Ok d) /\
  (forall e, (forall c, fst (f desc id c) = Throw e) ->
     forall t, fst (Context.registry_create (pre ++ f :: post) desc id t)
               = Throw e) /\
  (forall t, fst (Context.registry_create pre desc id t)
             = Throw not_supported).
Proof.
  intros Hpre. split; [| split].
  - intros d Hf. apply registry_accepts; assumption.
  - intros e Hf. apply registry_skips; assumption.
  - apply registry_declined. exact Hpre.
Qed.

Lemma registry_first_answer_witness :
  fst (Context.registry_create
         ([Context.ch34x_factory willing_platform willing_device]
          ++ Context.ftdi_factory willing_platform :: [])
         ft232r 0 [])
    = Ok (Core.Ftdi_driver plain_ftdi) /\
  fst (Context.registry_create
         [Context.ch34x_factory willing_platform willing_device]
         ft232r 0 []) = Throw not_supported.
Proof.
  assert (Hpre : forall g,
            In g [Context.ch34x_factory willing_platform willing_device] ->
            forall c, fst (g ft232r 0 c) = Ok None).
  { intros g [<- | []] c. reflexivity. }
  destruct (registry_first_answer
              [Context.ch34x_factory willing_platform willing_device] []
              (Context.ftdi_factory willing_platform) ft232r 0 Hpre)
    as (Ha & _ & Hn).
  split.
  - apply Ha. intros c. reflexivity.
  - apply Hn.
Defined.

Lemma throw_error_abs (err : Z) :
  Core.throw_error err =
  if (Z.abs err =? EAGAIN) || (Z.abs err =? EINTR) then Ok tt
  else if Z.abs err =? EBUSY then Throw interface_busy
  else if Z.abs err =? EACCES then Throw no_access
  else Throw io_error.
Proof.
  assert (Habs : (if err <? 0 then - err else err) = Z.abs err).
  { destruct (Z.ltb_spec err 0); lia. }
  unfold Core.throw_error. rewrite !Habs. reflexivity.
Qed.

(** X6: when [libusb_open] fails, [backend::create] hands [errno] -- or,
    when [errno] is 0, the libusb error code -- to [throw_error], which
    reads it as an [errno] value: unless its magnitude is that of [EAGAIN]
    or [EINTR] the call throws before any factory is asked,
    [interface_busy] for 16, [no_access] for 13 and [io_error] otherwise,
    so that the libusb codes for a busy or inaccessible device (-6, -3)
    end as [io_error]. *)
Theorem create_open_failure (env : Context.attach_env)
    (reg : list Context.factory) (desc : Libusb.device_descriptor) (id : Z) :
  Context.open_res env <> 0 ->
  Z.abs (if Context.open_errno env =? 0 then Context.open_res env
         else Context.open_errno env) <> EAGAIN ->
  Z.abs (if Context.open_errno env =? 0 then Context.open_res env
         else Context.open_errno env) <> EINTR ->
  Generic.run (Context.create env reg desc id) =
  (Throw (if Z.abs (if Context.open_errno env =? 0 then Context.open_res env
                    else Context.open_errno env) =? EBUSY
          then interface_busy
          else if Z.abs (if Context.open_errno env =? 0
                         then Context.open_res env
                         else Context.open_errno env) =? EACCES
               then no_access else io_error), []).
Proof.
  intros Hres Ha Hi.
  set (code := if Context.open_errno env =? 0 then Context.open_res env
               else Context.open_errno env) in *.
  unfold Generic.run, Context.create. cbn. unfold Generic.bind, Generic.lift.
  destruct (Z.eqb_spec (Context.open_res env) 0); [contradiction |].
  cbn [negb]. fold code. rewrite (throw_error_abs code).
  destruct (Z.eqb_spec (Z.abs code) EAGAIN); [contradiction |].
  destruct (Z.eqb_spec (Z.abs code) EINTR); [contradiction |].
  cbn [orb].
  destruct (Z.abs code =? EBUSY); [reflexivity |].
  destruct (Z.abs code =? EACCES); reflexivity.
Qed.

Lemma create_open_failure_witness :
  Generic.run (Context.create (failed_open (-3) 0) registrar ch340 0)
    = (Throw io_error, []) /\
  Generic.run (Context.create (failed_open (-3) EACCES) registrar ch340 0)
    = (Throw no_access, []).
Proof.
  split.
  - apply (create_open_failure (failed_open (-3) 0) registrar ch340 0);
      vm_compute; discriminate.
  - apply (create_open_failure (failed_open (-3) EACCES) registrar ch340 0);
      vm_compute; discriminate.
Defined.

(** X7: when a [pipe(2)] call of a pipe channel fails, [context::pipe]
    returns [-pipe_error]; both ends of the first pipe are closed again
    if it was the second call that failed, the caller's [channel] and the
    backend are left as they were and no setup request reaches the
    device. *)
Theorem pipe_failure_closes_first_pipe (os : Core.syscalls)
    (env : Context.attach_env) (reg : list Context.factory) (ifc : Z)
    (ch : channel) (pi : eia_tia_232_info) (b : Context.backend)
    (t : list Core.event) (desc : Libusb.device_descriptor)
    (d : Core.driver) (ctl : list control_request) :
  Context.validate_info pi = Ok tt ->
  Context.found env = Some desc ->
  Generic.run (Context.create env reg desc ifc) = (Ok d, ctl) ->
  Context.pipe_a env = None \/ Context.pipe_b env = None ->
  Context.context_pipe os env reg ifc ch pi b t =
  (neg_err pipe_error,
   {| Context.returned := Throw pipe_error; Context.ex := ch;
      Context.backend' := b;
      Context.trace :=
        t ++ map Core.SysClose
               match Context.pipe_a env with
               | Some (a0, a1) => [a0; a1]
               | None => []
               end;
      Context.controls := ctl |}).
Proof.
  intros Hv Hf Hc Hp.
  unfold Context.context_pipe, Context.attach. rewrite Hv, Hf, Hc.
  unfold Context.pipe_channel_ctor, Context.bipipe.
  destruct (Context.pipe_a env) as [[a0 a1] |].
  - destruct Hp as [Hp | Hp]; [discriminate |]. rewrite Hp. reflexivity.
  - reflexivity.
Qed.

Lemma pipe_failure_closes_first_pipe_witness :
  Context.context_pipe quiet_os (one_pipe_env ch340) registrar 0
    {| fd_read := 0; fd_write := 1 |} _115200_8N1n empty_backend [] =
  (-19,
   {| Context.returned := Throw pipe_error;
      Context.ex := {| fd_read := 0; fd_write := 1 |};
      Context.backend' := empty_backend;
      Context.trace := [Core.SysClose 3; Core.SysClose 4];
      Context.controls := ch34x_probe_requests |}).
Proof.
  apply (pipe_failure_closes_first_pipe quiet_os (one_pipe_env ch340)
           registrar 0 {| fd_read := 0; fd_write := 1 |} _115200_8N1n
           empty_backend [] ch340 (Core.Ch34x_driver {| Ch34x.ifcnum := 0 |})
           ch34x_probe_requests).
  - reflexivity.
  - reflexivity.
  - vm_compute. reflexivity.
  - right. reflexivity.
Defined.

(** ** The FTDI driver: divisor field, setup, endpoints *)

Lemma div_div_below (a p c : Z) :
  0 < p -> 0 <= a -> a < p * (8 * c) -> a / p / 8 < c.
Proof.
  intros Hp Ha H.
  apply Z.div_lt_upper_bound; [lia |].
  apply Z.div_lt_upper_bound; [lia |]. lia.
Qed.

Lemma div_div_above (a p c : Z) :
  0 < p -> p * (8 * c) <= a -> c <= a / p / 8.
Proof.
  intros Hp H.
  apply Z.div_le_lower_bound; [lia |].
  apply Z.div_le_lower_bound; [lia |]. lia.
Qed.

Lemma ftdi_divisor_range (ish : bool) (baud : Z) :
  0 < baud < 2^32 ->
  0 <= Z.shiftr (Ftdi.divisor_of ish baud) 3 /\
  (ftdi_lowest_rate ish <= baud ->
   Z.shiftr (Ftdi.divisor_of ish baud) 3 < 2^14) /\
  (baud < ftdi_lowest_rate ish ->
   2^14 <= Z.shiftr (Ftdi.divisor_of ish baud) 3 < 2^28).
Proof.
  intros Hb. rewrite (divisor_of_rounded ish baud Hb).
  rewrite Z.shiftr_div_pow2 by lia. change (2 ^ 3) with 8.
  unfold Ftdi.rounded_divisor, Ftdi.prescaler_of, ftdi_lowest_rate.
  change Ftdi.low_limit with 732.
  destruct ish; cbn [andb].
  - change (Ftdi.high_clk * 8) with 960000000.
    assert (Hq : 0 <= 960000000 / baud <= 960000000).
    { split; [apply Z.div_pos; lia | apply Z.div_le_upper_bound; nia]. }
    destruct (Z.ltb_spec 732 baud) as [Hh | Hl].
    + change (10 / 2) with 5.
      assert (Hu : 960000000 / baud < 1310716)
        by (apply Z.div_lt_upper_bound; lia).
      split; [| split].
      * apply Z.div_pos; [apply Z.div_pos |]; lia.
      * intros _. apply div_div_below; lia.
      * intros H. lia.
    + change (16 / 2) with 8.
      split; [| split].
      * apply Z.div_pos; [apply Z.div_pos |]; lia.
      * intros H.
        assert (Hu : 960000000 / baud < 2097145)
          by (apply Z.div_lt_upper_bound; lia).
        apply div_div_below; lia.
      * intros H.
        assert (Hu : 2097145 <= 960000000 / baud)
          by (apply Z.div_le_lower_bound; lia).
        split; [apply div_div_above; lia | apply div_div_below; lia].
  - change (Ftdi.low_clk * 8) with 384000000. change (16 / 2) with 8.
    assert (Hq : 0 <= 384000000 / baud <= 384000000).
    { split; [apply Z.div_pos; lia | apply Z.div_le_upper_bound; nia]. }
    split; [| split].
    + apply Z.div_pos; [apply Z.div_pos |]; lia.
    + intros H.
      assert (Hu : 384000000 / baud < 2097145)
        by (apply Z.div_lt_upper_bound; lia).
      apply div_div_below; lia.
    + intros H.
      assert (Hu : 2097145 <= 384000000 / baud)
        by (apply Z.div_le_lower_bound; lia).
      split; [apply div_div_above; lia | apply div_div_below; lia].
Qed.

Lemma ftdi_value_field (ish : bool) (baud : Z) :
  Z.land (fst (Ftdi.compute_divisors ish baud)) 0x3FFF =
  Z.shiftr (Ftdi.divisor_of ish baud) 3 mod 2^14.
Proof.
  unfold Ftdi.compute_divisors. cbn [fst].
  set (d := Ftdi.divisor_of ish baud).
  destruct (mapper_entry d) as [_ Hm]. cbn zeta in Hm.
  set (m := nth (Z.to_nat (Z.land d 7)) Ftdi.mapper 0) in *.
  assert (Hlow : 0 <= Z.land (Z.shiftr d 3) 0x3FFF < 2^16).
  { change 0x3FFF with (Z.ones 14).
    pose proof (land_ones_below 14 (Z.shiftr d 3)). lia. }
  rewrite u16_small by (apply lor_below; [lia | exact Hlow | exact Hm]).
  rewrite Z.land_lor_distr_l.
  rewrite <- !Z.land_assoc.
  change (Z.land 0x3FFF 0x3FFF) with 0x3FFF.
  change (Z.land 0xC000 0x3FFF) with 0.
  rewrite Z.land_0_r, Z.lor_0_r.
  change 0x3FFF with (Z.ones 14). apply Z.land_ones. lia.
Qed.

Lemma ftdi_value_fits (ish : bool) (baud : Z) :
  0 < baud < 2^32 -> ftdi_lowest_rate ish <= baud ->
  Z.land (fst (Ftdi.compute_divisors ish baud)) 0x3FFF
    = Z.shiftr (Ftdi.divisor_of ish baud) 3.
Proof.
  intros Hb H. rewrite ftdi_value_field.
  destruct (ftdi_divisor_range ish baud Hb) as (H0 & Hfit & _).
  apply Z.mod_small. split; [exact H0 | exact (Hfit H)].
Qed.

(** X8: the value word of [compute_divisors] carries the integer part of
    the divisor in 14 bits.  The integer part fits them exactly for the
    baud rates from 184 (48 MHz parts) or 458 (high-speed parts) upwards;
    below that rate the mask cuts the divisor and the word programs
    another, smaller, divisor. *)
Theorem ftdi_divisor_fits_14_bits (ish : bool) (baud : Z) :
  0 < baud < 2^32 ->
  (ftdi_lowest_rate ish <= baud ->
   Z.land (fst (Ftdi.compute_divisors ish baud)) 0x3FFF
     = Z.shiftr (Ftdi.divisor_of ish baud) 3) /\
  (baud < ftdi_lowest_rate ish ->
   Z.land (fst (Ftdi.compute_divisors ish baud)) 0x3FFF
     < Z.shiftr (Ftdi.divisor_of ish baud) 3).
Proof.
  intros Hb. rewrite ftdi_value_field.
  destruct (ftdi_divisor_range ish baud Hb) as (H0 & Hfit & Hcut).
  split; intros H.
  - apply Z.mod_small. split; [exact H0 | exact (Hfit H)].
  - specialize (Hcut H).
    pose proof (Z.mod_pos_bound (Z.shiftr (Ftdi.divisor_of ish baud) 3)
                  (2^14) ltac:(lia)). lia.
Qed.

Lemma ftdi_divisor_fits_14_bits_witness :
  Z.land (fst (Ftdi.compute_divisors false 300)) 0x3FFF
    = Z.shiftr (Ftdi.divisor_of false 300) 3 /\
  Z.land (fst (Ftdi.compute_divisors false 110)) 0x3FFF
    < Z.shiftr (Ftdi.divisor_of false 110) 3.
Proof.
  split.
  - apply (proj1 (ftdi_divisor_fits_14_bits false 300 ltac:(lia))).
    vm_compute. discriminate.
  - apply (proj2 (ftdi_divisor_fits_14_bits false 110 ltac:(lia))).
    vm_compute. reflexivity.
Defined.

Lemma land_byte_high (a k : Z) :
  0 <= a < 2^8 -> Z.land k 0xFF = 0 -> Z.land a k = 0.
Proof.
  intros Ha Hk.
  assert (E : a = Z.land a 0xFF).
  { change 0xFF with (Z.ones 8). rewrite Z.land_ones by lia.
    symmetry. apply Z.mod_small. exact Ha. }
  rewrite E, <- Z.land_assoc, (Z.land_comm 0xFF k), Hk. apply Z.land_0_r.
Qed.

Lemma ftdi_words_masks (ish : bool) (baud : Z) :
  let m := nth (Z.to_nat (Z.land (Ftdi.divisor_of ish baud) 7))
               Ftdi.mapper 0 in
  Z.land (fst (Ftdi.compute_divisors ish baud)) 0xC000 = Z.land m 0xC000 /\
  Z.land (snd (Ftdi.compute_divisors ish baud)) 0x0100 = Z.land m 0x0100 /\
  Z.land (snd (Ftdi.compute_divisors ish baud)) 0x0200 =
    (if Ftdi.prescaler_of ish baud =? 10 then 0x0200 else 0) /\
  Z.land (snd (Ftdi.compute_divisors ish baud)) 0xFF = 0 /\
  0 <= snd (Ftdi.compute_divisors ish baud) < 2^16.
Proof.
  intros m. unfold Ftdi.compute_divisors. cbn [fst snd].
  set (d := Ftdi.divisor_of ish baud) in *. fold m.
  destruct (mapper_entry d) as [Hi Hm]. cbn zeta in Hi, Hm. fold m in Hi, Hm.
  assert (Hlow : 0 <= Z.land (Z.shiftr d 3) 0x3FFF < 2^16).
  { change 0x3FFF with (Z.ones 14).
    pose proof (land_ones_below 14 (Z.shiftr d 3)). lia. }
  rewrite (u16_small (Z.lor (Z.land (Z.shiftr d 3) 0x3FFF) (Z.land m 0xC000)))
    by (apply lor_below; [lia | exact Hlow | exact Hm]).
  split.
  { rewrite Z.land_lor_distr_l, <- !Z.land_assoc.
    change (Z.land 0x3FFF 0xC000) with 0.
    change (Z.land 0xC000 0xC000) with 0xC000.
    rewrite Z.land_0_r. reflexivity. }
  destruct (Ftdi.prescaler_of ish baud =? 10);
    destruct Hi as [E | E]; rewrite E; vm_compute; intuition congruence.
Qed.

Lemma mapper_position_entry (d : Z) :
  let m := nth (Z.to_nat (Z.land d 7)) Ftdi.mapper 0 in
  mapper_position (Z.lor (Z.land m 0xC000) (Z.land m 0x0100)) Ftdi.mapper
    = Z.land d 7.
Proof.
  intros m. subst m.
  change 7 with (Z.ones 3). rewrite Z.land_ones by lia.
  assert (H : 0 <= d mod 2^3 < 2^3) by (apply Z.mod_pos_bound; lia).
  change (2^3) with 8 in *.
  assert (C : d mod 8 = 0 \/ d mod 8 = 1 \/ d mod 8 = 2 \/ d mod 8 = 3 \/
              d mod 8 = 4 \/ d mod 8 = 5 \/ d mod 8 = 6 \/ d mod 8 = 7)
    by lia.
  destruct C as [E|[E|[E|[E|[E|[E|[E|E]]]]]]]; rewrite E; reflexivity.
Qed.

(** X9: the one request [ftdi::setbaudrate] sends can be read back.  For
    a baud rate whose divisor fits, with an interface number below 256,
    the value and index words of the request decode to the divisor and
    the prescaler that [compute_divisors] chose, and the low byte of the
    index is the interface number: OR-ing it in loses nothing. *)
Theorem ftdi_baudrate_request_decodes (usb : control_request -> Z)
    (d : Ftdi.ftdi) (baud : Z) :
  0 < baud < 2^32 ->
  ftdi_lowest_rate (Ftdi.isH d) <= baud ->
  0 <= Ftdi.ifcnum d < 2^8 ->
  exists rq : control_request,
    Generic.run (Ftdi.setbaudrate usb d baud) =
      (if usb rq <? 0 then Throw control_error else Ok tt, [rq]) /\
    bRequest rq = Ftdi.set_baudrate_req /\
    ftdi_decode (wValue rq) (wIndex rq) =
      (Ftdi.divisor_of (Ftdi.isH d) baud,
       Ftdi.prescaler_of (Ftdi.isH d) baud) /\
    Z.land (wIndex rq) 0xFF = Ftdi.ifcnum d.
Proof.
  intros Hb Hfit Hn.
  pose proof (setbaudrate_run usb d baud) as Hrun. cbn zeta in Hrun.
  eexists. split; [exact Hrun |].
  unfold baudrate_request. cbn [bRequest wValue wIndex].
  split; [reflexivity |].
  destruct (ftdi_words_masks (Ftdi.isH d) baud) as (Hc & H1 & H2 & H0 & Hr).
  cbn zeta in Hc, H1.
  set (v := fst (Ftdi.compute_divisors (Ftdi.isH d) baud)) in *.
  set (i := snd (Ftdi.compute_divisors (Ftdi.isH d) baud)) in *.
  rewrite (u16_small (Z.lor i (Ftdi.ifcnum d)))
    by (apply lor_below; lia).
  assert (Hmask : forall k, Z.land k 0xFF = 0 ->
            Z.land (Z.lor i (Ftdi.ifcnum d)) k = Z.land i k).
  { intros k Hk. rewrite Z.land_lor_distr_l.
    rewrite (land_byte_high (Ftdi.ifcnum d) k Hn Hk). apply Z.lor_0_r. }
  split.
  - unfold ftdi_decode.
    rewrite (Hmask 0x0100 eq_refl), (Hmask 0x0200 eq_refl), Hc, H1, H2.
    rewrite mapper_position_entry.
    pose proof (ftdi_value_fits (Ftdi.isH d) baud Hb Hfit) as Hv.
    fold v in Hv. rewrite Hv.
    f_equal.
    + rewrite Z.shiftr_div_pow2 by lia.
      change 7 with (Z.ones 3). rewrite Z.land_ones by lia.
      change (2^3) with 8.
      pose proof (Z.div_mod (Ftdi.divisor_of (Ftdi.isH d) baud) 8). lia.
    + destruct (prescaler_cases (Ftdi.isH d) baud) as [E | E]; rewrite E;
        reflexivity.
  - rewrite Z.land_lor_distr_l, H0, Z.lor_0_l.
    change 0xFF with (Z.ones 8). rewrite Z.land_ones by lia.
    apply Z.mod_small. exact Hn.
Qed.

Lemma ftdi_baudrate_request_decodes_witness :
  exists rq : control_request,
    Generic.run (Ftdi.setbaudrate willing_device plain_ftdi 9600) =
      (if willing_device rq <? 0 then Throw control_error else Ok tt, [rq]) /\
    bRequest rq = Ftdi.set_baudrate_req /\
    ftdi_decode (wValue rq) (wIndex rq) =
      (Ftdi.divisor_of (Ftdi.isH plain_ftdi) 9600,
       Ftdi.prescaler_of (Ftdi.isH plain_ftdi) 9600) /\
    Z.land (wIndex rq) 0xFF = Ftdi.ifcnum plain_ftdi.
Proof.
  apply (ftdi_baudrate_request_decodes willing_device plain_ftdi 9600).
  - lia.
  - vm_compute. discriminate.
  - vm_compute. split; [discriminate | reflexivity].
Defined.

Lemma land_shiftl_low (a b n : Z) :
  0 <= n -> 0 <= a < 2^n -> Z.land a (Z.shiftl b n) = 0.
Proof.
  intros Hn Ha. apply Z.bits_inj'. intros m Hm.
  rewrite Z.land_spec, Z.bits_0.
  destruct (Z.lt_ge_cases m n) as [Hlt | Hge].
  - rewrite Z.shiftl_spec_low by exact Hlt. apply andb_false_r.
  - rewrite <- (Z.mod_small a (2^n)) by exact Ha.
    rewrite Z.mod_pow2_bits_high by lia. reflexivity.
Qed.

Lemma lor_shiftl_add (a b n : Z) :
  0 <= n -> 0 <= a < 2^n -> Z.lor a (Z.shiftl b n) = a + b * 2^n.
Proof.
  intros Hn Ha.
  pose proof (land_shiftl_low a b n Hn Ha) as H0.
  rewrite <- (Z.lxor_lor _ _ H0), <- (Z.add_nocarry_lxor _ _ H0).
  rewrite Z.shiftl_mul_pow2 by exact Hn. reflexivity.
Qed.

Lemma issue_cons (usb : control_request -> Z) (rq : control_request)
    (rest : list control_request) :
  issue usb (rq :: rest) =
  if usb rq <? 0 then (Throw control_error, [rq])
  else (fst (issue usb rest), rq :: snd (issue usb rest)).
Proof.
  cbn [issue]. destruct (usb rq <? 0); [reflexivity |].
  destruct (issue usb rest). reflexivity.
Qed.

(** Running a control write after a computation whose outcome is known. *)
Lemma write_cv_then {A : Type} (usb : control_request -> Z)
    (req val index : Z) (k : Generic.io A) (t : list control_request) :
  0 <= req < 2^8 -> 0 <= val < 2^16 -> 0 <= index < 2^16 ->
  Generic.bind (Generic.write_cv usb req val index) (fun _ => k) t =
  if usb {| bmRequestType := Generic.vendor_reqo; bRequest := req;
            wValue := val; wIndex := index |} <? 0
  then (Throw control_error,
        t ++ [{| bmRequestType := Generic.vendor_reqo; bRequest := req;
                 wValue := val; wIndex := index |}])
  else k (t ++ [{| bmRequestType := Generic.vendor_reqo; bRequest := req;
                   wValue := val; wIndex := index |}]).
Proof.
  intros Hr Hv Hi. unfold Generic.bind.
  rewrite (write_cv_run usb req val index t Hr Hv Hi).
  destruct (usb _ <? 0); reflexivity.
Qed.

(** X10: [ftdi::setup] sends four requests, in this order: the baud
    rate, the line properties, the flow control and the reset.  The line
    properties word is data bits + 256 * parity + 2048 * stop bits.  The
    first request the device refuses throws [control_error] and none of
    the later ones is sent. *)
Theorem ftdi_setup_sequence (usb : control_request -> Z) (d : Ftdi.ftdi)
    (info : eia_tia_232_info) :
  valid_info info ->
  0 <= parity info -> 0 <= stopbits info -> 0 <= flowcontrol info ->
  0 <= Ftdi.ifcnum d < 2^16 ->
  Generic.run (Ftdi.setup usb d info) = issue usb (ftdi_setup_requests d info).
Proof.
  intros (Hd & Hp & Hs & Hf & _) Hp0 Hs0 Hf0 Hn.
  unfold Ftdi.setup, ftdi_setup_requests, Generic.run.
  cbn [bind Monad_io]. unfold Generic.bind at 1.
  pose proof (setbaudrate_run usb d (baudrate info)) as Hrun.
  cbn zeta in Hrun. unfold Generic.run in Hrun. rewrite Hrun. clear Hrun.
  set (r1 := baudrate_request _ _ _).
  rewrite issue_cons. destruct (usb r1 <? 0); [reflexivity |].
  unfold Ftdi.setlineprops. cbn [bind Monad_io].
  assert (Hval :
    u16 (Z.lor (Z.lor (databits info) (Z.shiftl (u16 (parity info)) 8))
               (Z.shiftl (u16 (stopbits info)) 11))
    = databits info + 256 * parity info + 2048 * stopbits info).
  { rewrite (u16_small (parity info)), (u16_small (stopbits info)) by lia.
    rewrite (lor_shiftl_add (databits info) (parity info) 8) by lia.
    rewrite (lor_shiftl_add _ (stopbits info) 11) by lia.
    rewrite u16_small by lia. lia. }
  rewrite Hval.
  unfold Generic.bind at 1.
  rewrite write_cv_then by (unfold Ftdi.set_data_req; lia).
  cbn [app]. rewrite issue_cons. fold Ftdi.set_data_req.
  destruct (usb _ <? 0); [reflexivity |].
  rewrite write_cv_run by (unfold Ftdi.set_flowcontrol_req; lia).
  cbn [app fst snd]. rewrite issue_cons. fold Ftdi.set_flowcontrol_req.
  destruct (usb _ <? 0); [reflexivity |].
  unfold Ftdi.reset. rewrite write_cv_run by lia.
  cbn [app fst snd]. rewrite issue_cons.
  destruct (usb _ <? 0); reflexivity.
Qed.

Lemma ftdi_setup_sequence_witness :
  Generic.run (Ftdi.setup willing_device plain_ftdi _115200_8N1n) =
  issue willing_device (ftdi_setup_requests plain_ftdi _115200_8N1n).
Proof.
  apply (ftdi_setup_sequence willing_device plain_ftdi _115200_8N1n).
  - unfold valid_info. cbn. lia.
  - cbn. lia.
  - cbn. lia.
  - cbn. lia.
  - cbn. lia.
Defined.

(** X11: the FTDI factory declines every device of another vendor.  A
    driver it returns talks to the endpoints of the single-interface
    layout (0x81, 0x02) when interface 0 was asked for and to those of
    the second entry of [h_ifcs] (0x83, 0x04) for each of the interfaces
    1, 2 and 3; the transfers are 64 bytes long in every case. *)
Theorem ftdi_factory_endpoints (pf : Generic.platform)
    (desc : Libusb.device_descriptor) (num : Z) :
  (num < 4 -> Libusb.idVendor desc <> 0x0403 ->
   Ftdi.create pf desc num = Ok None) /\
  (forall d : Ftdi.ftdi,
     Ftdi.create pf desc num = Ok (Some d) ->
     Libusb.idVendor desc = 0x0403 /\
     Ftdi.ifc d = (if num =? 0 then Ftdi.l_ifc
                   else nth 1 Ftdi.h_ifcs Ftdi.l_ifc) /\
     chunk_size (Ftdi.ifc d) = 64 /\
     (ep_bulk_in (Ftdi.ifc d), ep_bulk_out (Ftdi.ifc d))
       = (if num =? 0 then (0x81, 0x02) else (0x83, 0x04))).
Proof.
  unfold Ftdi.create.
  change (Z.of_nat (List.length Ftdi.h_ifcs)) with 4.
  split.
  - intros Hn Hv.
    destruct (Z.leb_spec 4 num); [lia |].
    destruct (Z.eqb_spec (Libusb.idVendor desc) 0x0403); [contradiction |].
    reflexivity.
  - intros d.
    destruct (4 <=? num); [discriminate |].
    destruct (Z.eqb_spec (Libusb.idVendor desc) 0x0403) as [Hv | Hv];
      cbn [negb]; [| discriminate].
    unfold int_to_bool.
    destruct (Z.eqb_spec num 0) as [H0 | H0]; cbn [negb andb].
    + rewrite Bool.andb_false_r. unfold Ftdi.ftdi_ctor.
      destruct (Generic.claim_interface _ _); [| discriminate].
      intros H. injection H as <-. cbn. auto.
    + destruct (Ftdi.detect_high_speed desc); cbn [negb andb];
        [| discriminate].
      unfold Ftdi.ftdi_ctor.
      destruct (Generic.claim_interface _ _); [| discriminate].
      intros H. injection H as <-. cbn. auto.
Qed.

Lemma ftdi_factory_endpoints_witness :
  Ftdi.create willing_platform ch340 0 = Ok None /\
  (forall d : Ftdi.ftdi,
     Ftdi.create willing_platform ft4232h 3 = Ok (Some d) ->
     (ep_bulk_in (Ftdi.ifc d), ep_bulk_out (Ftdi.ifc d)) = (0x83, 0x04)) /\
  exists d : Ftdi.ftdi, Ftdi.create willing_platform ft4232h 3 = Ok (Some d).
Proof.
  split; [| split].
  - apply (proj1 (ftdi_factory_endpoints willing_platform ch340 0)).
    + lia.
    + vm_compute. discriminate.
  - intros d H.
    apply (proj2 (ftdi_factory_endpoints willing_platform ft4232h 3) d H).
  - eexists. vm_compute. reflexivity.
Defined.

(** ** The CH34x driver: factory and setup *)





(** X13: [ch34x::setup] on a listed baud rate sends the two divisor
    requests of the table entry and then one flow-control request whose
    value is 0xFFBF for RTS/CTS, 0xFFDF for DTR/DSR and 0x00FF for
    anything else, XON/XOFF included; a refused request throws
    [control_error] and ends the sequence. *)
Theorem ch34x_setup_sequence (usb : control_request -> Z)
    (info : eia_tia_232_info) (e : Ch34x.baudtable) :
  In e Ch34x.table -> Ch34x.baud e = baudrate info ->
  Generic.run (Ch34x.setup usb info)
    = issue usb (ch34x_setup_requests e (flowcontrol info)).
Proof.
  intros Hin Hb.
  unfold Ch34x.setup, Generic.run. cbn [bind Monad_io].
  unfold Generic.bind.
  pose proof (ch34x_listed_run usb e Hin) as Hrun.
  unfold Generic.run in Hrun. rewrite <- Hb, Hrun. clear Hrun.
  unfold ch34x_setup_requests.
  rewrite issue_cons. destruct (usb (fst (divisor_requests e)) <? 0);
    [reflexivity |].
  cbn [fst snd]. rewrite issue_cons.
  destruct (usb (snd (divisor_requests e)) <? 0); [reflexivity |].
  rewrite issue_cons. cbn [issue fst snd].
  unfold Ch34x.setflowcontrol, Generic.write_cv, ch34x_flow_request.
  cbn [app].
  assert (Hval :
    u16 (if flowcontrol info =? Ch34x.rts_cts then Z.lnot (Z.shiftl 1 6)
         else if flowcontrol info =? Ch34x.dtr_dsr
              then Z.lnot (Z.shiftl 1 5) else 255)
    = (if flowcontrol info =? Ch34x.rts_cts then 65471
       else if flowcontrol info =? Ch34x.dtr_dsr then 65503 else 255)).
  { destruct (flowcontrol info =? Ch34x.rts_cts); [reflexivity |].
    destruct (flowcontrol info =? Ch34x.dtr_dsr); reflexivity. }
  rewrite Hval. change (u8 164) with 164. change (u16 0) with 0.
  destruct (usb _ <? 0); reflexivity.
Qed.

Lemma ch34x_setup_sequence_witness :
  Generic.run (Ch34x.setup willing_device _115200_8N1n)
    = issue willing_device
        (ch34x_setup_requests
           {| Ch34x.baud := 115200; Ch34x.div1 := 0xcc03;
              Ch34x.div2 := 0x0008 |} (flowcontrol _115200_8N1n)).
Proof.
  apply (ch34x_setup_sequence willing_device _115200_8N1n
           {| Ch34x.baud := 115200; Ch34x.div1 := 0xcc03;
              Ch34x.div2 := 0x0008 |}).
  - cbn. tauto.
  - reflexivity.
Defined.

(** ** The file channel: flags and status over its life *)

Lemma flags_grow_refl (ch : Core.file_channel) : flags_grow ch ch.
Proof. unfold flags_grow. tauto. Qed.

Lemma flags_grow_trans (a b c : Core.file_channel) :
  flags_grow a b -> flags_grow b c -> flags_grow a c.
Proof. unfold flags_grow. tauto. Qed.

Lemma steady_ret {A : Type} (a : A) : steady (Core.M_ret a).
Proof.
  intros ch t. cbn. split; [apply flags_grow_refl |].
  split; [split; reflexivity |].
  exists []. rewrite app_nil_r. split; [reflexivity | auto].
Qed.

Lemma steady_bind {A B : Type} (m : Core.M A) (k : A -> Core.M B) :
  steady m -> (forall a, steady (k a)) -> steady (Core.M_bind m k).
Proof.
  intros Hm Hk ch t. unfold Core.M_bind.
  destruct (Hm ch t) as (Hg1 & [Hr1 Hw1] & evs1 & Et1 & Hd1).
  destruct (m ch t) as [[a ch1] t1]. cbn [fst snd] in *.
  destruct (Hk a ch1 t1) as (Hg2 & [Hr2 Hw2] & evs2 & Et2 & Hd2).
  destruct (k a ch1 t1) as [[b ch2] t2]. cbn [fst snd] in *.
  split; [exact (flags_grow_trans _ _ _ Hg1 Hg2) |].
  split; [split; congruence |].
  exists (evs1 ++ evs2). subst t1 t2. split; [apply eq_sym, app_assoc |].
  intros Hd. destruct (Hd2 Hd) as [H1 | (Hi & Ho & Hr)].
  - destruct (Hd1 H1) as [H0 | (Hi & Ho & Hr)]; [left; exact H0 |].
    right. destruct Hg2 as (_ & _ & Gi & Go & _).
    split; [exact (Gi Hi) |]. split; [exact (Go Ho) |].
    apply in_or_app. left. exact Hr.
  - right. split; [exact Hi |]. split; [exact Ho |].
    apply in_or_app. right. exact Hr.
Qed.

Lemma steady_get : steady Core.get.
Proof.
  intros ch t. cbn. split; [apply flags_grow_refl |].
  split; [split; reflexivity |].
  exists []. rewrite app_nil_r. split; [reflexivity | auto].
Qed.

Lemma steady_history : steady Core.history.
Proof.
  intros ch t. cbn. split; [apply flags_grow_refl |].
  split; [split; reflexivity |].
  exists []. rewrite app_nil_r. split; [reflexivity | auto].
Qed.

Lemma steady_emit (e : Core.event) : steady (Core.emit e).
Proof.
  intros ch t. cbn. split; [apply flags_grow_refl |].
  split; [split; reflexivity |].
  exists [e]. split; [reflexivity | auto].
Qed.

Lemma steady_modify (f : Core.file_channel -> Core.file_channel) :
  (forall ch, flags_grow ch (f ch) /\
              Core.device_hangup (f ch) = Core.device_hangup ch /\
              Core.fdrd (f ch) = Core.fdrd ch /\
              Core.fdrw (f ch) = Core.fdrw ch) ->
  steady (Core.modify f).
Proof.
  intros Hf ch t. cbn. destruct (Hf ch) as (Hg & Hd & Hr & Hw).
  split; [exact Hg |]. split; [split; assumption |].
  exists []. rewrite app_nil_r. split; [reflexivity |].
  rewrite Hd. auto.
Qed.

Lemma steady_when (b : bool) (m : Core.M unit) :
  steady m -> steady (Core.when b m).
Proof. intros H. destruct b; [exact H | apply (steady_ret tt)]. Qed.

Create HintDb steady.

(** One step through channel code written with the monad's operations. *)
Ltac steady_modify_tac :=
  apply steady_modify; intros ?; unfold flags_grow; cbn;
  repeat match goal with
         | |- context [match ?f with _ => _ end] => destruct f
         end;
  cbn; repeat split; auto.

Ltac steady_step :=
  cbn [bind ret Core.Monad_M];
  lazymatch goal with
  | |- steady (Core.M_ret _) => apply steady_ret
  | |- steady Core.get => apply steady_get
  | |- steady Core.history => apply steady_history
  | |- steady (Core.emit _) => apply steady_emit
  | |- steady (Core.when _ _) => apply steady_when
  | |- steady (Core.M_bind _ _) => apply steady_bind; [| intros ?]
  | |- steady (Core.modify _) => steady_modify_tac
  | |- steady (if ?b then _ else _) => destruct b
  | |- steady (match ?x with _ => _ end) => destruct x
  | |- _ => solve [auto 1 with steady nocore]
  end.

Lemma close_flags (ch : Core.file_channel) (t : list Core.event) :
  Core.pipein_hangup (snd (fst (Core.close ch t))) = true /\
  Core.pipeout_hangup (snd (fst (Core.close ch t))) = true /\
  Core.device_hangup (snd (fst (Core.close ch t))) = Core.device_hangup ch.
Proof.
  unfold Core.close. run_M.
  destruct (Core.writexfer_busy ch), (Core.readxfer_busy ch) as [[] []];
    cbn; auto.
Qed.

Lemma steady_close : steady Core.close.
Proof. unfold Core.close. repeat steady_step. Qed.

Lemma steady_request_removal (enforce : bool) :
  steady (Core.request_removal enforce).
Proof.
  intros ch t. unfold Core.request_removal. run_M.
  set (ch1 := Core.set_flag ch Core.Device_hangup _).
  assert (G1 : flags_grow ch ch1).
  { unfold flags_grow, ch1. cbn. repeat split; auto.
    intros H. rewrite H. reflexivity. }
  destruct (Core.device_hangup ch1
            || Core.pipein_hangup ch1 && Core.pipeout_hangup ch1) eqn:Hc;
    run_M.
  - unfold Core.M_bind.
    destruct (steady_close ch1 t) as (G2 & [Hr2 Hw2] & evs & Et & _).
    destruct (close_flags ch1 t) as (Hi & Ho & _).
    destruct (Core.close ch1 t) as [[r ch2] t2]. cbn [fst snd] in *.
    run_M. split; [exact (flags_grow_trans _ _ _ G1 G2) |].
    split; [split; [rewrite Hr2 | rewrite Hw2]; reflexivity |].
    exists (evs ++ [Core.OwnerRequestRemoval]). subst t2.
    split; [apply eq_sym, app_assoc |].
    intros _. right. split; [exact Hi |]. split; [exact Ho |].
    apply in_or_app. right. left. reflexivity.
  - split; [exact G1 |]. split; [split; reflexivity |].
    exists []. rewrite app_nil_r. split; [reflexivity |].
    intros Hd. apply Bool.orb_false_iff in Hc. destruct Hc as [Hc _].
    rewrite Hc in Hd. discriminate.
Qed.

#[local] Hint Resolve steady_close steady_request_removal : steady.

Lemma steady_poll_request (fd : Z) (reading : bool) :
  steady (Core.poll_request fd reading).
Proof. unfold Core.poll_request. apply steady_emit. Qed.

Lemma steady_is_error (errno res : Z) : steady (Core.is_error errno res).
Proof. unfold Core.is_error. repeat steady_step. Qed.

Lemma steady_submit_transfer (os : Core.syscalls) (p : Core.xfer_ptr) :
  steady (Core.submit_transfer os p).
Proof. unfold Core.submit_transfer. repeat steady_step. Qed.

#[local] Hint Resolve steady_poll_request steady_is_error
  steady_submit_transfer : steady.

Lemma steady_submit (os : Core.syscalls) (size : Z) :
  steady (Core.submit os size).
Proof. unfold Core.submit. repeat steady_step. Qed.

Lemma steady_consumed (os : Core.syscalls) (p : Core.xfer_ptr) (size : Z) :
  steady (Core.consumed os p size).
Proof. unfold Core.consumed. repeat steady_step. Qed.

#[local] Hint Resolve steady_submit steady_consumed : steady.

Lemma steady_writepipe (os : Core.syscalls) (p : Core.xfer_ptr) :
  steady (Core.writepipe os p).
Proof. unfold Core.writepipe. repeat steady_step. Qed.

Lemma steady_readpipe (os : Core.syscalls) : steady (Core.readpipe os).
Proof. unfold Core.readpipe. repeat steady_step. Qed.

#[local] Hint Resolve steady_writepipe steady_readpipe : steady.

Lemma steady_set_events (events : Z) (read : bool) :
  steady (Core.set_events events read).
Proof. unfold Core.set_events. destruct read; repeat steady_step. Qed.

Lemma steady_events (os : Core.syscalls) : steady (Core.events os).
Proof. unfold Core.events. repeat steady_step. Qed.

Lemma steady_error_callback (p : Core.xfer_ptr) :
  steady (Core.error_callback p).
Proof. unfold Core.error_callback. repeat steady_step. Qed.

Lemma steady_read_callback (os : Core.syscalls) (p : Core.xfer_ptr) :
  steady (Core.read_callback os p).
Proof.
  unfold Core.read_callback.
  cbn [bind ret Core.Monad_M]. apply steady_bind.
  - apply steady_modify. intros ch.
    destruct (Core.drv_read_callback _ _ _) as [[d x] pos].
    unfold flags_grow. cbn. repeat split; auto.
  - intros _. repeat steady_step.
Qed.

Lemma steady_write_callback (os : Core.syscalls) :
  steady (Core.write_callback os).
Proof. unfold Core.write_callback. repeat steady_step. Qed.

#[local] Hint Resolve steady_set_events steady_events steady_error_callback
  steady_read_callback steady_write_callback : steady.

Lemma steady_complete (os : Core.syscalls) (p : Core.xfer_ptr)
    (st : Libusb.transfer_status) (n : Z) (data : list Z) :
  steady (Core.complete os p st n data).
Proof.
  unfold Core.complete, Core.read_cb, Core.write_cb. repeat steady_step.
Qed.

Lemma steady_perform (os : Core.syscalls) (c : call) :
  steady (perform os c).
Proof.
  destruct c; cbn [perform]; repeat steady_step.
  apply steady_complete.
Qed.

Lemma steady_perform_all (os : Core.syscalls) (cs : list call) :
  steady (perform_all os cs).
Proof.
  induction cs as [| c cs IH]; cbn [perform_all].
  - apply steady_ret.
  - apply steady_bind; [apply steady_perform | intros _; exact IH].
Qed.

Lemma status_submask (ch ch' : Core.file_channel) :
  flags_grow ch ch' ->
  Z.land (Core.status ch') (Core.status ch) = Core.status ch'.
Proof.
  unfold flags_grow, Core.status. intros (_ & _ & Hi & Ho & Hd).
  destruct (Core.pipein_hangup ch), (Core.pipeout_hangup ch),
    (Core.device_hangup ch);
    try rewrite (Hi eq_refl); try rewrite (Ho eq_refl);
    try rewrite (Hd eq_refl);
    destruct (Core.pipein_hangup ch'), (Core.pipeout_hangup ch'),
      (Core.device_hangup ch'); reflexivity.
Qed.

(** X14: whatever the backend and libusb call on a channel, in whatever
    order, no flag of the channel is ever cleared, and so every bit set
    in [status] afterwards was set before: a pipe or a device once
    reported lost is never reported back. *)
Theorem status_bits_never_return (os : Core.syscalls) (cs : list call)
    (ch : Core.file_channel) (t : list Core.event) :
  flags_grow ch (snd (fst (perform_all os cs ch t))) /\
  Z.land (Core.status (snd (fst (perform_all os cs ch t)))) (Core.status ch)
    = Core.status (snd (fst (perform_all os cs ch t))).
Proof.
  destruct (steady_perform_all os cs ch t) as [Hg _].
  split; [exact Hg | apply status_submask; exact Hg].
Qed.

Lemma steady_init (os : Core.syscalls) (ch : Core.file_channel)
    (t : list Core.event) :
  exists m : Core.M unit,
    steady m /\
    Context.init os true ch t = (Ok tt, snd (fst (m ch t)), snd (m ch t)).
Proof.
  unfold Context.init. cbn [negb]. cbn zeta.
  match goal with
  | |- context [match ?m ch t with _ => _ end] => exists m
  end.
  split; [repeat steady_step |].
  match goal with
  | |- context [match ?m ch t with _ => _ end] =>
      destruct (m ch t) as [[u f] t']
  end.
  reflexivity.
Qed.

(** X15: over the whole life of a channel -- construction, [init], then
    any calls -- the device is given up only together with both pipes and
    with a request to the owner to remove the channel.  So [status] never
    shows a usable pipe on a lost device: it is 0 as soon as the
    [usb_dev_ok] bit is clear. *)
Theorem device_loss_closes_channel (os : Core.syscalls) (c : channel)
    (d : Core.driver) (cs : list call) :
  (Core.device_hangup (snd (fst (life os c d cs))) = true ->
   Core.pipein_hangup (snd (fst (life os c d cs))) = true /\
   Core.pipeout_hangup (snd (fst (life os c d cs))) = true /\
   In Core.OwnerRequestRemoval (snd (life os c d cs))) /\
  (Z.land (Core.status (snd (fst (life os c d cs)))) usb_dev_ok = 0 ->
   Core.status (snd (fst (life os c d cs))) = 0).
Proof.
  unfold life.
  destruct (steady_init os (Context.file_channel_ctor c d) [])
    as (m & Hm & E).
  rewrite E.
  pose proof (steady_bind m (fun _ => perform_all os cs) Hm
                (fun _ => steady_perform_all os cs)
                (Context.file_channel_ctor c d) []) as H.
  unfold Core.M_bind in H.
  destruct (m (Context.file_channel_ctor c d) []) as [[u f] t0].
  cbn [fst snd] in *.
  destruct H as (_ & _ & evs & Et & Hd). cbn [app] in Et.
  assert (Hgone :
    Core.device_hangup (snd (fst (perform_all os cs f t0))) = true ->
    Core.pipein_hangup (snd (fst (perform_all os cs f t0))) = true /\
    Core.pipeout_hangup (snd (fst (perform_all os cs f t0))) = true /\
    In Core.OwnerRequestRemoval (snd (perform_all os cs f t0))).
  { intros H. destruct (Hd H) as [H0 | H1]; [discriminate H0 |].
    rewrite Et. exact H1. }
  split; [exact Hgone |].
  unfold Core.status in *.
  destruct (Core.device_hangup (snd (fst (perform_all os cs f t0)))).
  - destruct (Hgone eq_refl) as (-> & -> & _). reflexivity.
  - destruct (Core.pipein_hangup _), (Core.pipeout_hangup _);
      intros H; discriminate H.
Qed.

Lemma device_loss_closes_channel_witness :
  Core.pipein_hangup
    (snd (fst (life refusing_os {| fd_read := 0; fd_write := 1 |}
                 (Core.Ftdi_driver plain_ftdi) []))) = true /\
  Core.pipeout_hangup
    (snd (fst (life refusing_os {| fd_read := 0; fd_write := 1 |}
                 (Core.Ftdi_driver plain_ftdi) []))) = true /\
  In Core.OwnerRequestRemoval
    (snd (life refusing_os {| fd_read := 0; fd_write := 1 |}
            (Core.Ftdi_driver plain_ftdi) [])).
Proof.
  apply (proj1 (device_loss_closes_channel refusing_os
                  {| fd_read := 0; fd_write := 1 |}
                  (Core.Ftdi_driver plain_ftdi) [])).
  vm_compute. reflexivity.
Defined.

(** ** The file channel: reading the pipe *)

Lemma readpipe_answered (os : Core.syscalls) (ch : Core.file_channel)
    (t : list Core.event) (res errno : Z) (data : list Z) :
  Core.sys_read os (t ++ [read_call ch]) (Core.fdrd ch) (read_size ch)
    = (res, errno, data) ->
  Core.readpipe os ch t =
  (Core.when (negb (Core.writexfer_busy ch) && (0 <? res))
     (Core.modify (fun ch => Core.set_xfer ch Core.Wr
        (Libusb.set_buffer (Core.writexfer ch)
           (firstn (Z.to_nat res) data
            ++ skipn (Z.to_nat res) (Libusb.buffer (Core.writexfer ch)))))) ;;
   e <- (if res <=? 0 then Core.is_error errno res else ret false) ;;
   if e then Core.modify (fun ch => Core.set_flag ch Core.Pipein_hangup true)
   else if 0 <? res then Core.submit os (u16 res)
   else if res =? 0
        then Core.modify (fun ch => Core.set_flag ch Core.Pipein_hangup true)
        else Core.poll_request (Core.fdrd ch) true) ch (t ++ [read_call ch]).
Proof.
  intros Hr. unfold Core.readpipe, read_call, read_size in *.
  unfold Core.getwritebuff. run_M.
  destruct (Core.writexfer_busy ch); run_M; rewrite Hr; reflexivity.
Qed.

(** X16: what [readpipe] makes of the answer of [read].  A positive
    count loads the OUT transfer with the bytes and submits it; a
    negative result with [EAGAIN] or [EINTR] changes nothing and asks the
    owner to poll the descriptor for input; a result of 0 with [errno] 0,
    [EAGAIN] or [EINTR] marks the input pipe as hung up without asking
    for the removal of the channel.  While the OUT transfer is in flight
    the call asks [read] for no bytes at all. *)
Theorem readpipe_outcomes (os : Core.syscalls) (ch : Core.file_channel)
    (t : list Core.event) (res errno : Z) (data : list Z) :
  Core.sys_read os (t ++ [read_call ch]) (Core.fdrd ch) (read_size ch)
    = (res, errno, data) ->
  (0 < res < 2^16 -> Core.writexfer_busy ch = false ->
   Core.libusb_submit_transfer os
     (t ++ [read_call ch; Core.Submit Core.Wr]) Core.Wr = 0 ->
   Core.readpipe os ch t =
   (tt, Core.set_writexfer_busy (loaded ch res data) true,
    t ++ [read_call ch; Core.Submit Core.Wr])) /\
  (res < 0 -> errno = EAGAIN \/ errno = EINTR ->
   Core.readpipe os ch t =
   (tt, ch,
    t ++ [read_call ch;
          Core.PollRequest (Core.fdrd ch) (Z.lor Core.POLLIN Core.POLLHUP)])) /\
  (res = 0 -> errno = 0 \/ errno = EAGAIN \/ errno = EINTR ->
   Core.readpipe os ch t =
   (tt, Core.set_flag ch Core.Pipein_hangup true, t ++ [read_call ch])).
Proof.
  intros Hr. rewrite (readpipe_answered os ch t res errno data Hr).
  split; [| split].
  - intros Hres Hb Hs. rewrite Hb.
    destruct (Z.ltb_spec 0 res); [| lia].
    destruct (Z.leb_spec res 0); [lia |].
    cbn [negb andb]. run_M. unfold Core.submit. run_M.
    unfold Core.submit_transfer. run_M.
    unfold Core.M_bind, Core.history. cbn beta iota.
    rewrite <- app_assoc. cbn [app]. rewrite Hs. cbn [Z.eqb].
    rewrite (u16_small res) by lia. reflexivity.
  - intros Hres He.
    destruct (Z.ltb_spec 0 res); [lia |].
    destruct (Z.leb_spec res 0); [| lia].
    rewrite Bool.andb_false_r. run_M. unfold Core.is_error.
    destruct (Z.eqb_spec res 0); [lia |].
    destruct He as [-> | ->]; cbn; unfold Core.poll_request, Core.emit;
      rewrite <- app_assoc; reflexivity.
  - intros -> He. cbn [Z.ltb Z.leb Z.compare Z.eqb].
    rewrite Bool.andb_false_r. run_M. unfold Core.is_error.
    destruct He as [-> | [-> | ->]]; cbn; reflexivity.
Qed.

Lemma readpipe_outcomes_witness :
  Core.readpipe quiet_os (new_channel (Core.Ftdi_driver plain_ftdi)) [] =
  (tt, new_channel (Core.Ftdi_driver plain_ftdi),
   [read_call (new_channel (Core.Ftdi_driver plain_ftdi));
    Core.PollRequest 0 (Z.lor Core.POLLIN Core.POLLHUP)]).
Proof.
  apply (proj1 (proj2 (readpipe_outcomes quiet_os
                         (new_channel (Core.Ftdi_driver plain_ftdi)) []
                         (-1) EAGAIN [] eq_refl))).
  - lia.
  - left. reflexivity.
Defined.

(** ** The file channel: completions that are not served *)

Lemma after_driver_keeps (ch : Core.file_channel) (p : Core.xfer_ptr) :
  Core.pipein_ready (after_driver ch p) = Core.pipein_ready ch /\
  Core.pipeout_ready (after_driver ch p) = Core.pipeout_ready ch /\
  Core.pipein_hangup (after_driver ch p) = Core.pipein_hangup ch /\
  Core.pipeout_hangup (after_driver ch p) = Core.pipeout_hangup ch /\
  Core.device_hangup (after_driver ch p) = Core.device_hangup ch /\
  Core.readxfer_busy (after_driver ch p) = Core.readxfer_busy ch /\
  Core.writexfer_busy (after_driver ch p) = Core.writexfer_busy ch.
Proof.
  unfold after_driver.
  destruct (Core.drv_read_callback _ _ _) as [[d x] pos].
  cbn. repeat split; reflexivity.
Qed.

(** X17: a completion with status COMPLETED that arrives when the pipe on
    the far side of the transfer has hung up is dropped: nothing is
    submitted, read or written, and the busy mark of the transfer is left
    as it was.  A transfer that was in flight therefore stays marked busy
    and the channel keeps answering [busy] with true. *)
Theorem completion_after_hangup_stays_busy (os : Core.syscalls)
    (p : Core.xfer_ptr) (n : Z) (data : list Z) (ch : Core.file_channel)
    (t : list Core.event) :
  far_side_hangup ch p = true ->
  snd (Core.complete os p Libusb.LIBUSB_TRANSFER_COMPLETED n data ch t) = t /\
  busy_mark
    (snd (fst (Core.complete os p Libusb.LIBUSB_TRANSFER_COMPLETED n data
                 ch t))) p
    = busy_mark ch p /\
  (busy_mark ch p = true ->
   Core.busy
     (snd (fst (Core.complete os p Libusb.LIBUSB_TRANSFER_COMPLETED n data
                  ch t)))
     = true).
Proof.
  intros Hh.
  assert (Hin : forall i, Core.pipeout_hangup ch = true ->
    Core.complete os (in_ptr i) Libusb.LIBUSB_TRANSFER_COMPLETED n data ch t
    = (tt,
       after_driver
         (Core.set_xfer ch (in_ptr i)
            (completed (Core.xfer ch (in_ptr i))
                       Libusb.LIBUSB_TRANSFER_COMPLETED n data)) (in_ptr i),
       t)).
  { intros i Ho. rewrite complete_in_run, read_callback_run.
    destruct (after_driver_keeps
                (Core.set_xfer ch (in_ptr i)
                   (completed (Core.xfer ch (in_ptr i))
                              Libusb.LIBUSB_TRANSFER_COMPLETED n data))
                (in_ptr i)) as (_ & _ & _ & E & _).
    rewrite E. cbn [Core.set_xfer Core.pipeout_hangup]. rewrite Ho.
    reflexivity. }
  destruct p; cbn [far_side_hangup] in Hh.
  - pose proof (Hin false Hh) as E. cbn [in_ptr] in E. rewrite E.
    cbn [fst snd busy_mark].
    destruct (after_driver_keeps
                (Core.set_xfer ch Core.Rd0
                   (completed (Core.xfer ch Core.Rd0)
                              Libusb.LIBUSB_TRANSFER_COMPLETED n data))
                Core.Rd0) as (_ & _ & _ & _ & _ & Er & Ew).
    unfold Core.busy. rewrite Er, Ew. cbn [Core.set_xfer Core.readxfer_busy].
    split; [reflexivity |]. split; [reflexivity |].
    intros ->. apply Bool.orb_true_iff. left. apply Bool.orb_true_r.
  - pose proof (Hin true Hh) as E. cbn [in_ptr] in E. rewrite E.
    cbn [fst snd busy_mark].
    destruct (after_driver_keeps
                (Core.set_xfer ch Core.Rd1
                   (completed (Core.xfer ch Core.Rd1)
                              Libusb.LIBUSB_TRANSFER_COMPLETED n data))
                Core.Rd1) as (_ & _ & _ & _ & _ & Er & Ew).
    unfold Core.busy. rewrite Er, Ew. cbn [Core.set_xfer Core.readxfer_busy].
    split; [reflexivity |]. split; [reflexivity |].
    intros ->. apply Bool.orb_true_r.
  - unfold Core.complete, Core.write_cb, Core.write_callback. run_M.
    cbn [Core.xfer Core.set_xfer Core.writexfer Libusb.status
         Core.pipein_hangup].
    unfold Core.M_bind, Core.get. cbn [Core.set_xfer Core.pipein_hangup].
    rewrite Hh. cbn [fst snd busy_mark Core.set_xfer Core.writexfer_busy].
    unfold Core.busy. cbn [Core.set_xfer Core.writexfer_busy].
    split; [reflexivity |]. split; [reflexivity |].
    intros ->. reflexivity.
Qed.

Lemma completion_after_hangup_stays_busy_witness :
  Core.busy
    (snd (fst (Core.complete quiet_os Core.Rd1
                 Libusb.LIBUSB_TRANSFER_COMPLETED 10 hello_transfer
                 (Core.set_flag started_ftdi_channel Core.Pipeout_hangup true)
                 [])))
    = true.
Proof.
  apply (completion_after_hangup_stays_busy quiet_os Core.Rd1 10
           hello_transfer
           (Core.set_flag started_ftdi_channel Core.Pipeout_hangup true) []).
  - reflexivity.
  - vm_compute. reflexivity.
Defined.

Lemma request_removal_true_run (ch : Core.file_channel)
    (t : list Core.event) :
  Core.request_removal true ch t =
  (tt, snd (fst (Core.close (Core.set_flag ch Core.Device_hangup true) t)),
   snd (Core.close (Core.set_flag ch Core.Device_hangup true) t)
   ++ [Core.OwnerRequestRemoval]).
Proof.
  unfold Core.request_removal. run_M. rewrite Bool.orb_true_r.
  cbn [Core.set_flag Core.device_hangup orb Core.when].
  unfold Core.M_bind.
  destruct (Core.close _ t) as [[r c2] t2]. reflexivity.
Qed.

Lemma request_removal_enforced (ch : Core.file_channel)
    (t : list Core.event) :
  exists (ch' : Core.file_channel) (evs : list Core.event),
    Core.request_removal true ch t = (tt, ch', t ++ evs) /\
    same_but_flags ch ch' /\ forallb housekeeping evs = true /\
    In Core.OwnerRequestRemoval evs /\
    Core.device_hangup ch' = true /\ Core.pipein_hangup ch' = true /\
    Core.pipeout_hangup ch' = true.
Proof.
  rewrite request_removal_true_run.
  set (c1 := Core.set_flag ch Core.Device_hangup true).
  destruct (close_spec c1 t) as (r & c2 & evs & E & Hs & Hk).
  destruct (close_flags c1 t) as (Hi & Ho & Hd).
  rewrite E in Hi, Ho, Hd |- *. cbn [fst snd] in *.
  exists c2, (evs ++ [Core.OwnerRequestRemoval]).
  split; [rewrite app_assoc; reflexivity |].
  split; [exact (same_but_flags_trans _ _ _
                   (same_but_flags_set_flag ch Core.Device_hangup true) Hs) |].
  split; [rewrite forallb_app, Hk; reflexivity |].
  split; [apply in_or_app; right; left; reflexivity |].
  split; [rewrite Hd; reflexivity |]. split; assumption.
Qed.

Lemma error_callback_run (p : Core.xfer_ptr) (ch : Core.file_channel)
    (t : list Core.event) :
  Core.error_callback p ch t =
  match Libusb.status (Core.xfer ch p) with
  | Libusb.LIBUSB_TRANSFER_TIMED_OUT
  | Libusb.LIBUSB_TRANSFER_COMPLETED => (false, clear_busy ch p, t)
  | Libusb.LIBUSB_TRANSFER_CANCELLED
  | Libusb.LIBUSB_TRANSFER_NO_DEVICE =>
      (false,
       snd (fst (Core.request_removal true (clear_busy ch p) t)),
       snd (Core.request_removal true (clear_busy ch p) t))
  | _ =>
      (true,
       snd (fst (Core.request_removal true (clear_busy ch p) t)),
       snd (Core.request_removal true (clear_busy ch p) t))
  end.
Proof.
  unfold Core.error_callback.
  destruct p; run_M;
    cbn [Core.xfer Core.set_readxfer_busy Core.set_writexfer_busy
         Core.readxfer0 Core.readxfer1 Core.writexfer clear_busy];
    match goal with
    | |- context [Libusb.status ?x] => destruct (Libusb.status x)
    end;
    run_M; try reflexivity; unfold Core.M_bind;
    match goal with
    | |- context [Core.request_removal true ?c t] =>
        destruct (Core.request_removal true c t) as [[[] c2] t2]
    end; reflexivity.
Qed.

Lemma complete_failed_run (os : Core.syscalls) (p : Core.xfer_ptr)
    (st : Libusb.transfer_status) (n : Z) (data : list Z)
    (ch : Core.file_channel) (t : list Core.event) :
  st <> Libusb.LIBUSB_TRANSFER_COMPLETED ->
  Core.complete os p st n data ch t =
  Core.M_bind (Core.error_callback p)
    (fun e => Core.when e
                match p with
                | Core.Wr => Core.write_callback os
                | _ => Core.read_callback os p
                end) (delivered ch p st n data) t.
Proof.
  intros Hst. unfold Core.complete, Core.read_cb, Core.write_cb, delivered.
  destruct p, st; try contradiction; reflexivity.
Qed.

Lemma delivered_facts (ch : Core.file_channel) (p : Core.xfer_ptr)
    (st : Libusb.transfer_status) (n : Z) (data : list Z) :
  Libusb.status (Core.xfer (delivered ch p st n data) p) = st /\
  busy_mark (clear_busy (delivered ch p st n data) p) p = false /\
  Core.status (clear_busy (delivered ch p st n data) p) = Core.status ch.
Proof.
  unfold delivered. destruct p; cbn; destruct (Core.readxfer_busy ch); cbn;
    repeat split; reflexivity.
Qed.

Lemma dropped_after_removal (os : Core.syscalls) (p : Core.xfer_ptr)
    (c2 : Core.file_channel) (t2 : list Core.event) :
  Core.pipein_hangup c2 = true -> Core.pipeout_hangup c2 = true ->
  exists c3 : Core.file_channel,
    match p with
    | Core.Wr => Core.write_callback os
    | _ => Core.read_callback os p
    end c2 t2 = (tt, c3, t2) /\
    Core.status c3 = Core.status c2 /\ busy_mark c3 p = busy_mark c2 p.
Proof.
  intros Hi Ho.
  assert (Hin : forall q, Core.read_callback os q c2 t2
                          = (tt, after_driver c2 q, t2)).
  { intros q. rewrite read_callback_run.
    destruct (after_driver_keeps c2 q) as (_ & _ & _ & Eo & _).
    rewrite Eo, Ho. reflexivity. }
  destruct p.
  - rewrite Hin. eexists. split; [reflexivity |].
    destruct (after_driver_keeps c2 Core.Rd0)
      as (_ & _ & Ei & Eo & Ed & Er & Ew).
    unfold Core.status. cbn [busy_mark]. rewrite Ei, Eo, Ed, Er.
    split; reflexivity.
  - rewrite Hin. eexists. split; [reflexivity |].
    destruct (after_driver_keeps c2 Core.Rd1)
      as (_ & _ & Ei & Eo & Ed & Er & Ew).
    unfold Core.status. cbn [busy_mark]. rewrite Ei, Eo, Ed, Er.
    split; reflexivity.
  - unfold Core.write_callback. run_M. unfold Core.M_bind, Core.get.
    rewrite Hi. exists c2. repeat split; reflexivity.
Qed.

(** X18: a completion with any status but COMPLETED clears the busy mark
    of its transfer and never leads to a submission, a read or a write.
    After TIMED_OUT nothing else happens: the flags stay and the transfer
    is not submitted again.  After each of the other statuses the channel
    gives up its device: all three hang-up flags are set, [status] is 0
    and the owner is asked to remove the channel. *)
Theorem failed_completion_outcomes (os : Core.syscalls) (p : Core.xfer_ptr)
    (st : Libusb.transfer_status) (n : Z) (data : list Z)
    (ch : Core.file_channel) (t : list Core.event) :
  st <> Libusb.LIBUSB_TRANSFER_COMPLETED ->
  exists evs : list Core.event,
    snd (Core.complete os p st n data ch t) = t ++ evs /\
    forallb housekeeping evs = true /\
    busy_mark (snd (fst (Core.complete os p st n data ch t))) p = false /\
    (st = Libusb.LIBUSB_TRANSFER_TIMED_OUT ->
     evs = [] /\
     Core.status (snd (fst (Core.complete os p st n data ch t)))
       = Core.status ch) /\
    (st <> Libusb.LIBUSB_TRANSFER_TIMED_OUT ->
     In Core.OwnerRequestRemoval evs /\
     Core.status (snd (fst (Core.complete os p st n data ch t))) = 0).
Proof.
  intros Hst. rewrite (complete_failed_run os p st n data ch t Hst).
  unfold Core.M_bind. rewrite error_callback_run.
  destruct (delivered_facts ch p st n data) as (Hx & Hb1 & Hs1).
  rewrite Hx.
  set (c1 := clear_busy (delivered ch p st n data) p) in *.
  destruct (request_removal_enforced c1 t)
    as (c2 & evs & E & Hsame & Hk & Hr & Hd & Hi & Ho).
  assert (Hb2 : busy_mark c2 p = false).
  { destruct Hsame as (_ & _ & _ & _ & _ & Er & Ew & _).
    destruct p; cbn [busy_mark] in *; rewrite ?Er, ?Ew; exact Hb1. }
  assert (Hz : Core.status c2 = 0).
  { unfold Core.status. rewrite Hd, Hi, Ho. reflexivity. }
  destruct (dropped_after_removal os p c2 (t ++ evs) Hi Ho)
    as (c3 & E3 & Hs3 & Hb3).
  destruct st; try contradiction; rewrite ?E; cbn [fst snd Core.when];
    rewrite ?E3; cbn [fst snd Core.M_ret].
  - exists evs. rewrite Hs3, Hb3.
    repeat split; try assumption; try discriminate.
  - exists []. rewrite app_nil_r.
    repeat split; try assumption; try reflexivity; try contradiction;
      try congruence.
  - exists evs. repeat split; try assumption; try discriminate.
  - exists evs. rewrite Hs3, Hb3.
    repeat split; try assumption; try discriminate.
  - exists evs. repeat split; try assumption; try discriminate.
  - exists evs. rewrite Hs3, Hb3.
    repeat split; try assumption; try discriminate.
Qed.

Lemma failed_completion_outcomes_witness :
  exists evs : list Core.event,
    snd (Core.complete quiet_os Core.Rd0 Libusb.LIBUSB_TRANSFER_TIMED_OUT
           0 [] started_ftdi_channel []) = [] ++ evs /\
    forallb housekeeping evs = true /\
    busy_mark
      (snd (fst (Core.complete quiet_os Core.Rd0
                   Libusb.LIBUSB_TRANSFER_TIMED_OUT 0 []
                   started_ftdi_channel []))) Core.Rd0 = false /\
    (Libusb.LIBUSB_TRANSFER_TIMED_OUT = Libusb.LIBUSB_TRANSFER_TIMED_OUT ->
     evs = [] /\
     Core.status
       (snd (fst (Core.complete quiet_os Core.Rd0
                    Libusb.LIBUSB_TRANSFER_TIMED_OUT 0 []
                    started_ftdi_channel [])))
       = Core.status started_ftdi_channel) /\
    (Libusb.LIBUSB_TRANSFER_TIMED_OUT <> Libusb.LIBUSB_TRANSFER_TIMED_OUT ->
     In Core.OwnerRequestRemoval evs /\
     Core.status
       (snd (fst (Core.complete quiet_os Core.Rd0
                    Libusb.LIBUSB_TRANSFER_TIMED_OUT 0 []
                    started_ftdi_channel []))) = 0).
Proof.
  apply (failed_completion_outcomes quiet_os Core.Rd0
           Libusb.LIBUSB_TRANSFER_TIMED_OUT 0 [] started_ftdi_channel []).
  discriminate.
Defined.

(** ** The backend: removal and cleanup *)

Lemma deref_store_other (o : list (nat * Context.child)) (a a' : nat)
    (c : Context.child) :
  a <> a' -> Context.deref (Context.store o a' c) a = Context.deref o a.
Proof.
  intros Hne. induction o as [| [k c0] o IH]; cbn [Context.store Context.deref].
  - destruct (Nat.eqb_spec a' a); [congruence | reflexivity].
  - destruct (Nat.eqb_spec k a') as [-> | Hk]; cbn [Context.deref].
    + destruct (Nat.eqb_spec a' a); [congruence | reflexivity].
    + rewrite IH. reflexivity.
Qed.

Lemma deref_free_other (o : list (nat * Context.child)) (a a' : nat) :
  a <> a' -> Context.deref (Context.free o a') a = Context.deref o a.
Proof.
  intros Hne. unfold Context.free.
  induction o as [| [k c0] o IH]; cbn [filter Context.deref fst];
    [reflexivity |].
  destruct (Nat.eqb_spec k a') as [-> | Hk]; cbn [negb Context.deref].
  - destruct (Nat.eqb_spec a' a); [congruence | exact IH].
  - rewrite IH. reflexivity.
Qed.

Lemma serve_objects (rs : list Core.event) (b : Context.backend) (a : nat) :
  Context.objects (Context.serve b a rs) = Context.objects b.
Proof.
  revert b. induction rs as [| r rs IH]; intros b; [reflexivity |].
  destruct r; cbn [Context.serve]; rewrite ?IH; try reflexivity.
  - unfold Context.poll_request.
    destruct (existsb _ _); reflexivity.
  - unfold Context.request_removal. cbn.
    destruct (existsb _ _); reflexivity.
Qed.

Lemma on_child_other {A : Type} (a a' : nat) (m : Core.M A) (d : A)
    (b : Context.backend) (t : list Core.event) :
  a <> a' ->
  Context.deref
    (Context.objects (snd (fst (Context.on_child a' m d b t)))) a
  = Context.deref (Context.objects b) a.
Proof.
  intros Hne. unfold Context.on_child.
  destruct (Context.deref (Context.objects b) a') as [c |]; [| reflexivity].
  destruct (m (Context.base_of c) t) as [[r f] t']. cbn [fst snd].
  rewrite serve_objects. cbn [Context.set_objects Context.objects].
  apply deref_store_other. exact Hne.
Qed.

Lemma sweep_skips_busy (a : nat) (c : Context.child) (l : list nat) :
  Core.busy (Context.base_of c) = true ->
  forall (b : Context.backend) (t : list Core.event),
    Context.deref (Context.objects b) a = Some c ->
    Context.deref
      (Context.objects (snd (fst (Context.sweep l b t)))) a = Some c /\
    (In a l -> In a (fst (fst (Context.sweep l b t)))).
Proof.
  intros Hbusy. induction l as [| a' l IH]; intros b t Hd.
  - cbn. split; [exact Hd | auto].
  - cbn [Context.sweep].
    destruct (Context.deref (Context.objects b) a') as [c' |] eqn:Hd'.
    + destruct (Core.busy (Context.base_of c')) eqn:Hb'.
      * destruct (IH b t Hd) as [H1 H2].
        destruct (Context.sweep l b t) as [[l' b'] t']. cbn [fst snd] in *.
        split; [exact H1 |].
        intros [-> | Hin]; [left; reflexivity | right; exact (H2 Hin)].
      * assert (Hne : a <> a').
        { intros ->. rewrite Hd in Hd'. injection Hd' as <-.
          rewrite Hbusy in Hb'. discriminate. }
        pose proof (on_child_other a a' Core.close true
                      (Context.set_poll_list b
                         (Context.erase_fd
                            (Context.erase_fd (Context.poll_list b)
                               (Core.fdrd (Context.base_of c')))
                            (Core.fdrw (Context.base_of c')))) t Hne) as Ho.
        destruct (Context.on_child a' Core.close true _ t) as [[r b2] t2].
        cbn [fst snd] in Ho. cbn [Context.set_poll_list Context.objects] in Ho.
        match goal with
        | |- context [Context.sweep l ?bb ?tt] =>
            destruct (IH bb tt) as [H1 H2]
        end.
        { cbn [Context.set_objects Context.objects].
          rewrite deref_free_other by exact Hne. rewrite Ho. exact Hd. }
        split; [exact H1 |].
        intros [-> | Hin]; [contradiction Hne; reflexivity | exact (H2 Hin)].
    + destruct (IH b t Hd) as [H1 H2].
      destruct (Context.sweep l b t) as [[l' b'] t']. cbn [fst snd] in *.
      split; [exact H1 |].
      intros [-> | Hin]; [left; reflexivity | right; exact (H2 Hin)].
Qed.

(** X19: [cleanup] passes over a channel that answers [busy] with true:
    the channel stays in the delete list, its object is neither closed
    nor deleted, whatever happens to the other channels of the list. *)
Theorem cleanup_skips_busy_channel (b : Context.backend)
    (t : list Core.event) (a : nat) (c : Context.child) :
  In a (Context.delete_list b) ->
  Context.deref (Context.objects b) a = Some c ->
  Core.busy (Context.base_of c) = true ->
  In a (Context.delete_list (snd (fst (Context.cleanup b t)))) /\
  Context.deref (Context.objects (snd (fst (Context.cleanup b t)))) a
    = Some c.
Proof.
  intros Hin Hd Hbusy. unfold Context.cleanup.
  destruct (sweep_skips_busy a c (Context.delete_list b) Hbusy b t Hd)
    as [H1 H2].
  destruct (Context.sweep (Context.delete_list b) b t) as [[l b'] t'].
  cbn [fst snd Context.set_delete_list Context.delete_list Context.objects]
    in *.
  split; [exact (H2 Hin) | exact H1].
Qed.

Lemma cleanup_skips_busy_channel_witness :
  In 1%nat (Context.delete_list
              (snd (fst (Context.cleanup closing_backend [])))) /\
  Context.deref
    (Context.objects (snd (fst (Context.cleanup closing_backend [])))) 1%nat
    = Some (Context.File_child started_ftdi_channel).
Proof.
  apply (cleanup_skips_busy_channel closing_backend [] 1%nat
           (Context.File_child started_ftdi_channel)).
  - left. reflexivity.
  - reflexivity.
  - vm_compute. reflexivity.
Defined.

Lemma find_in_member (o : list (nat * Context.child)) (dl l : list nat)
    (ch : channel) (x : nat) :
  Context.find_in o dl l ch = Some x ->
  In x l /\ existsb (Nat.eqb x) dl = false /\
  exists c, Context.deref o x = Some c /\ Context.equals c ch = true.
Proof.
  induction l as [| a l IH]; cbn [Context.find_in]; [discriminate |].
  destruct (Context.deref o a) as [c |] eqn:Hd.
  - destruct (Context.equals c ch) eqn:He; cbn [andb].
    + destruct (existsb (Nat.eqb a) dl) eqn:Hq; cbn [negb].
      * intros H. destruct (IH H) as (H1 & H2 & H3).
        split; [right; exact H1 | split; assumption].
      * intros H. injection H as <-.
        split; [left; reflexivity |]. split; [exact Hq |].
        exists c. split; assumption.
    + intros H. destruct (IH H) as (H1 & H2 & H3).
        split; [right; exact H1 | split; assumption].
  - intros H. destruct (IH H) as (H1 & H2 & H3).
        split; [right; exact H1 | split; assumption].
Qed.

Lemma find_in_none (o : list (nat * Context.child)) (dl l : list nat)
    (ch : channel) :
  (forall a c, In a l -> Context.deref o a = Some c ->
               Context.equals c ch = false) ->
  Context.find_in o dl l ch = None.
Proof.
  induction l as [| a l IH]; intros H; cbn [Context.find_in]; [reflexivity |].
  destruct (Context.deref o a) as [c |] eqn:Hd.
  - rewrite (H a c (or_introl eq_refl) Hd). cbn [andb].
    apply IH. intros a' c' Hin. apply H. right. exact Hin.
  - apply IH. intros a' c' Hin. apply H. right. exact Hin.
Qed.

Lemma erase_member (l : list nat) (a x : nat) :
  In x (Context.erase l a) <-> In x l /\ x <> a.
Proof.
  unfold Context.erase. rewrite filter_In.
  destruct (Nat.eqb_spec x a); cbn [negb]; intuition congruence.
Qed.

(** X20: [find] returns nothing but a channel of the child list that is
    not in the delete list.  Once [close] has found a channel, no call of
    [find] ever returns that channel again, the channel is in the delete
    list, and [status] for its descriptors answers [-no_channel] unless
    another channel answers to them too. *)
Theorem closed_channel_not_found (b : Context.backend) (ch : channel)
    (a : nat) :
  Context.find b ch = Some a ->
  In a (Context.child_list b) /\ ~ In a (Context.delete_list b) /\
  (forall ch', Context.find (Context.context_close b ch) ch' <> Some a) /\
  In a (Context.delete_list (Context.context_close b ch)) /\
  (only_match b a ch ->
   Context.context_status (Context.context_close b ch) ch
     = neg_err no_channel).
Proof.
  intros Hf. unfold Context.context_close. rewrite Hf.
  unfold Context.find in Hf.
  destruct (find_in_member _ _ _ _ _ Hf) as (Hin & Hq & c & Hd & He).
  assert (Hnd : ~ In a (Context.delete_list b)).
  { intros H. assert (existsb (Nat.eqb a) (Context.delete_list b) = true).
    { apply existsb_exists. exists a. split; [exact H | apply Nat.eqb_refl]. }
    congruence. }
  split; [exact Hin |]. split; [exact Hnd |].
  unfold Context.request_removal.
  cbn [Context.set_child_list Context.delete_list]. rewrite Hq.
  unfold Context.find, Context.context_status, Context.find.
  cbn [Context.set_delete_list Context.set_child_list Context.objects
       Context.delete_list Context.child_list].
  split; [| split].
  - intros ch' H. destruct (find_in_member _ _ _ _ _ H) as (H1 & _).
    apply erase_member in H1. destruct H1 as [_ H1]. congruence.
  - apply in_or_app. right. left. reflexivity.
  - intros Honly. rewrite find_in_none; [reflexivity |].
    intros a' c' Hin' Hd'. apply erase_member in Hin'.
    destruct Hin' as [Hin' Hne]. exact (Honly a' c' Hin' Hne Hd').
Qed.

Lemma closed_channel_not_found_witness :
  Context.context_status
    (Context.context_close waiting_backend {| fd_read := 0; fd_write := 1 |})
    {| fd_read := 0; fd_write := 1 |}
  = neg_err no_channel.
Proof.
  apply (closed_channel_not_found waiting_backend
           {| fd_read := 0; fd_write := 1 |} 1%nat).
  - reflexivity.
  - intros a' c' [<- | []] Hne. contradiction Hne. reflexivity.
Defined.

(** ** The backend: polling *)

Lemma dispatch_quiet (items : list Context.pollfd)
    (polled : Z) (b : Context.backend) (t : list Core.event) :
  (forall p, In p items -> Context.revents p = 0) ->
  Context.dispatch items polled b t = (polled, b, t).
Proof.
  induction items as [| item items IH]; intros H; cbn [Context.dispatch];
    [reflexivity |].
  destruct (polled =? 0); [reflexivity |].
  rewrite (H item (or_introl eq_refl)). cbn [Z.eqb negb].
  destruct (Context.find_owner _ _ _);
    apply IH; intros p Hp; apply H; right; exact Hp.
Qed.

(** X21: [poll_events] looks for events in a copy of the poll list that
    it makes before it calls [poll].  When the stored [revents] of every
    entry are 0, as they are for an entry just added by [poll_request],
    a call in which [poll] reports events calls no channel: it stores
    the reported [revents] in the poll list, keeps every entry and
    returns the count [poll] gave. *)
Theorem poll_events_reads_stored_revents (k : Context.kernel)
    (timeout : Z) (b : Context.backend) (t : list Core.event)
    (polled errno : Z) (revs : list Z) :
  Context.poll_list b <> [] ->
  (forall p, In p (Context.poll_list b) -> Context.revents p = 0) ->
  (forall p, In p (Context.libusb_get_pollfds k t) ->
             Context.revents p = 0) ->
  Context.sys_poll k
    (t ++ [Core.SysPoll (Z.of_nat (List.length (Context.poll_list b)))
                        timeout])
    (Context.poll_list b) timeout = (polled, errno, revs) ->
  0 <= polled ->
  Context.poll_events k timeout b t =
  (Ok polled,
   Context.set_poll_list b (Context.store_revents (Context.poll_list b) revs),
   t ++ [Core.SysPoll (Z.of_nat (List.length (Context.poll_list b)))
                      timeout]).
Proof.
  intros Hne H0 Hl Hp Hpos. unfold Context.poll_events.
  destruct (Context.poll_list b) as [| p0 l0] eqn:El; [congruence |].
  rewrite <- El in *.
  assert (Hlen : (Z.of_nat (List.length (Context.poll_list b)) =? 0) = false).
  { rewrite El. cbn [List.length]. apply Z.eqb_neq. lia. }
  rewrite Hlen, Hp.
  destruct (Z.ltb_spec polled 0); [lia |].
  rewrite dispatch_quiet; [reflexivity |].
  intros p Hin. apply in_app_or in Hin. destruct Hin; auto.
Qed.

Lemma poll_events_reads_stored_revents_witness :
  Context.poll_events input_ready 10 waiting_backend [] =
  (Ok 1,
   Context.set_poll_list waiting_backend
     [{| Context.fd := 0;
         Context.events := Z.lor Core.POLLIN Core.POLLHUP;
         Context.revents := Core.POLLIN |}],
   [Core.SysPoll 1 10]).
Proof.
  apply (poll_events_reads_stored_revents input_ready 10 waiting_backend []
           1 0 [Core.POLLIN]).
  - discriminate.
  - intros p [<- | []]. reflexivity.
  - intros p [].
  - reflexivity.
  - lia.
Defined.

(** ** The facade: break and reset *)



(** ** Attaching a channel *)

Lemma skipn_app_length {A : Type} (t evs : list A) :
  skipn (List.length t) (t ++ evs) = evs.
Proof. induction t as [| x t IH]; [reflexivity | exact IH]. Qed.

Lemma init_run (os : Core.syscalls) (ch : Core.file_channel)
    (t : list Core.event) :
  exists (f : Core.file_channel) (evs : list Core.event),
    Context.init os true ch t = (Ok tt, f, t ++ evs) /\
    Core.fdrd f = Core.fdrd ch /\ Core.fdrw f = Core.fdrw ch /\
    (Core.device_hangup ch = false -> Core.device_hangup f = true ->
     In Core.OwnerRequestRemoval evs).
Proof.
  destruct (steady_init os ch t) as (m & Hm & E).
  destruct (Hm ch t) as (_ & [Hr Hw] & evs & Et & Hd).
  exists (snd (fst (m ch t))), evs. rewrite E, Et.
  split; [reflexivity |]. split; [exact Hr |]. split; [exact Hw |].
  intros H0 H1. destruct (Hd H1) as [H | (_ & _ & H)]; [congruence | exact H].
Qed.

Lemma deref_bound (o : list (nat * Context.child)) (a : nat)
    (c : Context.child) :
  Context.deref o a = Some c ->
  (a <= fold_right Nat.max 0 (map fst o))%nat.
Proof.
  induction o as [| [k c0] o IH]; cbn [Context.deref map fold_right fst];
    [discriminate |].
  destruct (Nat.eqb_spec k a) as [-> | Hk]; intros H.
  - apply Nat.le_max_l.
  - specialize (IH H). lia.
Qed.

Lemma fresh_address_free (o : list (nat * Context.child)) :
  Context.deref o (Context.fresh_address o) = None.
Proof.
  destruct (Context.deref o (Context.fresh_address o)) as [c |] eqn:E;
    [| reflexivity].
  apply deref_bound in E. unfold Context.fresh_address in E. lia.
Qed.

Lemma deref_app (o : list (nat * Context.child)) (a a' : nat)
    (c : Context.child) :
  Context.deref (o ++ [(a, c)]) a' =
  match Context.deref o a' with
  | Some c' => Some c'
  | None => if Nat.eqb a a' then Some c else None
  end.
Proof.
  induction o as [| [k c0] o IH]; cbn [app Context.deref]; [reflexivity |].
  destruct (Nat.eqb k a'); [reflexivity | exact IH].
Qed.

Lemma serve_lists (rs : list Core.event) (b : Context.backend) (a : nat) :
  (~ In Core.OwnerRequestRemoval rs ->
   Context.child_list (Context.serve b a rs) = Context.child_list b /\
   Context.delete_list (Context.serve b a rs) = Context.delete_list b) /\
  (In Core.OwnerRequestRemoval rs \/ In a (Context.delete_list b) ->
   In a (Context.delete_list (Context.serve b a rs))).
Proof.
  revert b. induction rs as [| r rs IH]; intros b.
  - cbn. split; [auto | intros [[] | H]; exact H].
  - assert (Hskip : Context.serve b a (r :: rs) = Context.serve b a rs ->
                    r <> Core.OwnerRequestRemoval ->
                    (~ In Core.OwnerRequestRemoval (r :: rs) ->
                     Context.child_list (Context.serve b a (r :: rs))
                       = Context.child_list b /\
                     Context.delete_list (Context.serve b a (r :: rs))
                       = Context.delete_list b) /\
                    (In Core.OwnerRequestRemoval (r :: rs)
                     \/ In a (Context.delete_list b) ->
                     In a (Context.delete_list (Context.serve b a (r :: rs))))).
    { intros E Hr. rewrite E. destruct (IH b) as [I1 I2]. split.
      - intros Hn. apply I1. intros H. apply Hn. right. exact H.
      - intros [[H | H] | H]; [congruence | apply I2; left; exact H
                               | apply I2; right; exact H]. }
    destruct r; try (apply Hskip; [reflexivity | discriminate]).
    + cbn [Context.serve].
      destruct (IH (Context.poll_request b fd events)) as [I1 I2].
      assert (El : Context.child_list (Context.poll_request b fd events)
                     = Context.child_list b /\
                   Context.delete_list (Context.poll_request b fd events)
                     = Context.delete_list b).
      { unfold Context.poll_request. destruct (existsb _ _); split;
          reflexivity. }
      destruct El as [E1 E2]. rewrite E1, E2 in I1. rewrite E2 in I2. split.
      * intros Hn. apply I1. intros H. apply Hn. right. exact H.
      * intros [[H | H] | H]; [discriminate H | apply I2; left; exact H
                               | apply I2; right; exact H].
    + cbn [Context.serve].
      destruct (IH (Context.request_removal b a)) as [_ I2]. split.
      * intros Hn. exfalso. apply Hn. left. reflexivity.
      * intros _. apply I2. right.
        unfold Context.request_removal.
        cbn [Context.set_child_list Context.delete_list].
        destruct (existsb (Nat.eqb a) (Context.delete_list b)) eqn:Hq.
        -- cbn [Context.set_child_list Context.delete_list].
           apply existsb_exists in Hq. destruct Hq as (x & Hx & Ex).
           apply Nat.eqb_eq in Ex. subst x. exact Hx.
        -- cbn [Context.set_delete_list Context.delete_list].
           apply in_or_app. right. left. reflexivity.
Qed.

Lemma find_in_last (o : list (nat * Context.child)) (dl l : list nat)
    (a : nat) (ch : channel) :
  (forall a' c', In a' l -> Context.deref o a' = Some c' ->
                 Context.equals c' ch = false) ->
  Context.find_in o dl (l ++ [a]) ch = Context.find_in o dl [a] ch.
Proof.
  induction l as [| x l IH]; intros H; [reflexivity |].
  cbn [app Context.find_in].
  destruct (Context.deref o x) as [c |] eqn:Hd.
  - rewrite (H x c (or_introl eq_refl) Hd). cbn [andb].
    apply IH. intros a' c' Hin. apply H. right. exact Hin.
  - apply IH. intros a' c' Hin. apply H. right. exact Hin.
Qed.

(** X23: an [attach] that gets its driver, whose setup the device
    accepts and whose allocations succeed returns 0 and puts the new
    channel in the child list, whatever [init] met.  When [init] did not
    ask for the removal of the channel, [status] for the caller's
    descriptors answers with the status of the new channel.  When it
    did -- a transfer could not be submitted -- the call still returns
    0, but the channel is in the delete list as well and [find] never
    returns it. *)
Theorem attach_registers_channel (os : Core.syscalls)
    (env : Context.attach_env) (fd_valid : Z -> bool)
    (reg : list Context.factory) (ifc : Z) (ch : channel)
    (pi : eia_tia_232_info) (b : Context.backend) (t : list Core.event)
    (desc : Libusb.device_descriptor) (d : Core.driver)
    (ctl ctl' : list control_request) :
  Context.validate_info pi = Ok tt ->
  Context.validate_channel fd_valid ch = Ok tt ->
  Context.found env = Some desc ->
  Generic.run (Context.create env reg desc ifc) = (Ok d, ctl) ->
  Context.drv_setup (Context.usb env) d pi ctl = (Ok tt, ctl') ->
  Context.alloc_ok env = true ->
  listed_exist b ->
  exists (f : Core.file_channel) (evs : list Core.event)
         (b' : Context.backend),
    Context.init os true (Context.file_channel_ctor ch d) t
      = (Ok tt, f, t ++ evs) /\
    Context.context_attach os env fd_valid reg ifc ch pi b t =
      (0, {| Context.returned := Ok 0; Context.ex := ch;
             Context.backend' := b'; Context.trace := t ++ evs;
             Context.controls := ctl' |}) /\
    In (Context.fresh_address (Context.objects b)) (Context.child_list b') /\
    Context.deref (Context.objects b')
      (Context.fresh_address (Context.objects b))
      = Some (Context.File_child f) /\
    (~ In Core.OwnerRequestRemoval evs -> no_match b ch ->
     Context.context_status b' ch = Core.status f) /\
    (In Core.OwnerRequestRemoval evs ->
     In (Context.fresh_address (Context.objects b))
        (Context.delete_list b') /\
     forall ch', Context.find b' ch'
                 <> Some (Context.fresh_address (Context.objects b))).
Proof.
  intros Hv Hc Hf Hcr Hs Ha Hwf.
  destruct (init_run os (Context.file_channel_ctor ch d) t)
    as (f & evs & Ei & Hr & Hw & _).
  set (a := Context.fresh_address (Context.objects b)).
  set (b1 := Context.set_objects b
               (Context.objects b ++ [(a, Context.File_child f)])).
  set (b2 := Context.serve b1 a evs).
  exists f, evs,
    (Context.set_child_list b2 (Context.child_list b2 ++ [a])).
  split; [exact Ei |].
  assert (Hobj : Context.objects b2
                 = Context.objects b ++ [(a, Context.File_child f)]).
  { unfold b2. rewrite serve_objects. reflexivity. }
  assert (Hfree : Context.deref (Context.objects b) a = None)
    by apply fresh_address_free.
  assert (Hda : Context.deref (Context.objects b2) a
                = Some (Context.File_child f)).
  { rewrite Hobj, deref_app, Hfree, Nat.eqb_refl. reflexivity. }
  assert (Hold : forall a' c', In a' (Context.child_list b) ->
            Context.deref (Context.objects b2) a' = Some c' ->
            Context.deref (Context.objects b) a' = Some c').
  { intros a' c' Hin. rewrite Hobj, deref_app.
    destruct (Context.deref (Context.objects b) a') eqn:E; [auto |].
    exfalso. exact (Hwf a' (or_introl Hin) E). }
  split.
  { unfold Context.context_attach. rewrite Hv, Hc. cbn [Context.and_then].
    unfold Context.attach. rewrite Hf, Hcr, Hs, Ha.
    cbn [map app]. rewrite app_nil_r.
    cbn [Context.base_of]. rewrite Ei.
    rewrite skipn_app_length. cbn [Context.with_base].
    reflexivity. }
  cbn [Context.set_child_list Context.child_list Context.objects
       Context.delete_list].
  split; [apply in_or_app; right; left; reflexivity |].
  split; [exact Hda |].
  split.
  - intros Hn Hnm.
    destruct (proj1 (serve_lists evs b1 a) Hn) as [E1 E2].
    fold b2 in E1, E2.
    unfold Context.context_status, Context.find.
    cbn [Context.set_child_list Context.child_list Context.objects
         Context.delete_list].
    rewrite E1. cbn [b1 Context.set_objects Context.child_list].
    rewrite find_in_last.
    + cbn [Context.find_in]. rewrite Hda.
      assert (He : Context.equals (Context.File_child f) ch = true).
      { cbn [Context.equals]. rewrite Hr.
        cbn [Context.file_channel_ctor Core.fdrd]. rewrite Z.eqb_refl.
        reflexivity. }
      rewrite He. cbn [andb].
      assert (Hq : existsb (Nat.eqb a) (Context.delete_list b2) = false).
      { rewrite E2. cbn [b1 Context.set_objects Context.delete_list].
        destruct (existsb (Nat.eqb a) (Context.delete_list b)) eqn:Hq;
          [| reflexivity].
        apply existsb_exists in Hq. destruct Hq as (x & Hx & Ex).
        apply Nat.eqb_eq in Ex. subst x.
        exfalso. exact (Hwf a (or_intror Hx) Hfree). }
      rewrite Hq. cbn [negb]. rewrite Hda. reflexivity.
    + intros a' c' Hin Hd'. apply (Hnm a' c' Hin). exact (Hold a' c' Hin Hd').
  - intros Hin.
    pose proof (proj2 (serve_lists evs b1 a) (or_introl Hin)) as Hdl.
    fold b2 in Hdl. split; [exact Hdl |].
    intros ch' H. unfold Context.find in H.
    destruct (find_in_member _ _ _ _ _ H) as (_ & Hq & _).
    cbn [Context.set_child_list Context.delete_list] in Hq.
    assert (existsb (Nat.eqb a) (Context.delete_list b2) = true).
    { apply existsb_exists. exists a. split; [exact Hdl | apply Nat.eqb_refl]. }
    congruence.
Qed.

Lemma attach_registers_channel_witness :
  fst (Context.context_attach quiet_os (plain_env ft232r) (fun _ => true)
         registrar 0 {| fd_read := 0; fd_write := 1 |} _115200_8N1n
         empty_backend []) = 0 /\
  fst (Context.context_attach refusing_os (plain_env ft232r) (fun _ => true)
         registrar 0 {| fd_read := 0; fd_write := 1 |} _115200_8N1n
         empty_backend []) = 0.
Proof.
  split.
  - destruct (attach_registers_channel quiet_os (plain_env ft232r)
                (fun _ => true) registrar 0 {| fd_read := 0; fd_write := 1 |}
                _115200_8N1n empty_backend [] ft232r
                (Core.Ftdi_driver plain_ftdi) []
                (ftdi_setup_requests plain_ftdi _115200_8N1n)
                eq_refl eq_refl eq_refl eq_refl eq_refl eq_refl)
      as (f & evs & b' & _ & E & _).
    + intros a [[] | []].
    + rewrite E. reflexivity.
  - destruct (attach_registers_channel refusing_os (plain_env ft232r)
                (fun _ => true) registrar 0 {| fd_read := 0; fd_write := 1 |}
                _115200_8N1n empty_backend [] ft232r
                (Core.Ftdi_driver plain_ftdi) []
                (ftdi_setup_requests plain_ftdi _115200_8N1n)
                eq_refl eq_refl eq_refl eq_refl eq_refl eq_refl)
      as (f & evs & b' & _ & E & _).
    + intros a [[] | []].
    + rewrite E. reflexivity.
Defined.

(** ** The file channel: OUT completions *)

Lemma memmove_front (b : list Z) (from n : Z) :
  0 <= from -> 0 <= n -> from + n <= Z.of_nat (List.length b) ->
  firstn (Z.to_nat n) (Core.memmove b from n)
    = firstn (Z.to_nat n) (skipn (Z.to_nat from) b).
Proof.
  intros Hf Hn Hlen. unfold Core.memmove.
  assert (Hl : List.length (firstn (Z.to_nat n) (skipn (Z.to_nat from) b))
               = Z.to_nat n).
  { rewrite length_firstn, length_skipn. lia. }
  rewrite firstn_app, Hl, Nat.sub_diag. cbn [firstn].
  rewrite app_nil_r, firstn_firstn, Nat.min_id. reflexivity.
Qed.

(** X24: an OUT transfer that completes with fewer bytes than its length
    is submitted again at once, with the bytes not yet sent moved to the
    front of its buffer and with its length as it was; no byte is read
    from the pipe.  An OUT transfer that completes in full clears its
    busy mark and reads the pipe again. *)
Theorem out_completion_outcomes (os : Core.syscalls) (n : Z)
    (data : list Z) (ch : Core.file_channel) (t : list Core.event) :
  Core.pipein_hangup ch = false ->
  (0 < n < Libusb.length (Core.writexfer ch) ->
   Core.libusb_submit_transfer os (t ++ [Core.Submit Core.Wr]) Core.Wr = 0 ->
   Core.complete os Core.Wr Libusb.LIBUSB_TRANSFER_COMPLETED n data ch t =
   (tt,
    Core.set_writexfer_busy
      (Core.set_xfer ch Core.Wr
         {| Libusb.status := Libusb.LIBUSB_TRANSFER_COMPLETED;
            Libusb.length := Libusb.length (Core.writexfer ch);
            Libusb.actual_length := n;
            Libusb.buffer :=
              Core.memmove (Libusb.buffer (Core.writexfer ch)) n
                (Libusb.length (Core.writexfer ch) - n) |}) true,
    t ++ [Core.Submit Core.Wr]) /\
   (Libusb.length (Core.writexfer ch)
      <= Z.of_nat (List.length (Libusb.buffer (Core.writexfer ch))) ->
    firstn (Z.to_nat (Libusb.length (Core.writexfer ch) - n))
      (Core.memmove (Libusb.buffer (Core.writexfer ch)) n
         (Libusb.length (Core.writexfer ch) - n))
    = firstn (Z.to_nat (Libusb.length (Core.writexfer ch) - n))
        (skipn (Z.to_nat n) (Libusb.buffer (Core.writexfer ch))))) /\
  (Libusb.length (Core.writexfer ch) <= n ->
   Core.complete os Core.Wr Libusb.LIBUSB_TRANSFER_COMPLETED n data ch t =
   Core.readpipe os
     (clear_busy
        (delivered ch Core.Wr Libusb.LIBUSB_TRANSFER_COMPLETED n data)
        Core.Wr) t).
Proof.
  intros Hh.
  assert (Hrun :
    Core.complete os Core.Wr Libusb.LIBUSB_TRANSFER_COMPLETED n data ch t =
    Core.write_callback os
      (delivered ch Core.Wr Libusb.LIBUSB_TRANSFER_COMPLETED n data) t).
  { unfold Core.complete, Core.write_cb, delivered. run_M. reflexivity. }
  rewrite Hrun. unfold Core.write_callback, delivered. run_M.
  unfold Core.M_bind at 1. unfold Core.get.
  cbn [Core.set_xfer Core.pipein_hangup Core.writexfer Core.xfer
       Libusb.actual_length Libusb.length Libusb.buffer].
  rewrite Hh.
  split.
  - intros Hn Hs.
    destruct (Z.ltb_spec n (Libusb.length (Core.writexfer ch))); [| lia].
    destruct (Z.eqb_spec n 0); [lia |]. cbn [negb]. run_M.
    unfold Core.submit_transfer. run_M.
    unfold Core.M_bind, Core.history. cbn beta iota.
    rewrite Hs. cbn [Z.eqb].
    split.
    + unfold Libusb.set_buffer.
      cbn [Core.set_xfer Core.set_writexfer_busy Libusb.status Libusb.length
           Libusb.actual_length Libusb.buffer Core.writexfer].
      reflexivity.
    + intros Hlen. apply memmove_front; lia.
  - intros Hn.
    destruct (Z.ltb_spec n (Libusb.length (Core.writexfer ch))); [lia |].
    run_M. reflexivity.
Qed.

Lemma out_completion_outcomes_witness :
  Core.complete quiet_os Core.Wr Libusb.LIBUSB_TRANSFER_COMPLETED 2 []
    (Core.set_writexfer_busy
       (loaded started_ftdi_channel 5 [72; 101; 108; 108; 111]) true) []
  = (tt,
     Core.set_writexfer_busy
       (Core.set_xfer started_ftdi_channel Core.Wr
          {| Libusb.status := Libusb.LIBUSB_TRANSFER_COMPLETED;
             Libusb.length := 5; Libusb.actual_length := 2;
             Libusb.buffer := [108; 108; 111; 108; 111] ++ repeat 0 59 |})
       true,
     [Core.Submit Core.Wr]).
Proof.
  destruct (out_completion_outcomes quiet_os 2 []
              (Core.set_writexfer_busy
                 (loaded started_ftdi_channel 5 [72; 101; 108; 108; 111])
                 true) [] eq_refl) as [H _].
  destruct H as [E _].
  - vm_compute. split; reflexivity.
  - reflexivity.
  - rewrite E. vm_compute. reflexivity.
Defined.

(** ** The loop of a context without channels *)

Lemma run_callbacks_no_objects (os : Core.syscalls)
    (cs : list Context.completion) (b : Context.backend)
    (t : list Core.event) :
  Context.objects b = [] -> Context.run_callbacks os cs b t = (b, t).
Proof.
  intros Ho. induction cs as [| c cs IH]; cbn [Context.run_callbacks];
    [reflexivity |].
  unfold Context.on_child. rewrite Ho. cbn [Context.deref]. exact IH.
Qed.

(** X25: on a context that has no channel and nothing to poll or to
    delete, [loop] calls [libusb_handle_events_timeout] once, with the
    timeout split by [maketimeval], and returns [-no_channels] when
    libusb returns 0 and the value libusb returned otherwise. *)
Theorem loop_without_channels (os : Core.syscalls) (k : Context.kernel)
    (timeout : Z) (t : list Core.event) :
  Context.loop os k timeout empty_backend t =
  (if snd (Context.libusb_handle_events_timeout k
             (t ++ [Core.HandleEvents
                      (fst (Context.maketimeval timeout))
                      (snd (Context.maketimeval timeout))])) =? 0
   then neg_err no_channels
   else snd (Context.libusb_handle_events_timeout k
               (t ++ [Core.HandleEvents
                        (fst (Context.maketimeval timeout))
                        (snd (Context.maketimeval timeout))])),
   empty_backend,
   t ++ [Core.HandleEvents (fst (Context.maketimeval timeout))
                           (snd (Context.maketimeval timeout))]).
Proof.
  unfold Context.loop, Context.handle_events, Context.handle_libusb_events.
  cbn [empty_backend Context.poll_list List.length Z.of_nat Z.eqb].
  fold empty_backend.
  destruct (Context.libusb_handle_events_timeout k _) as [cs rc].
  rewrite run_callbacks_no_objects by reflexivity.
  cbn [snd empty_backend Context.pending Context.delete_list List.length
       Z.of_nat Z.eqb negb Context.child_list Context.safe].
  rewrite Bool.andb_true_r. reflexivity.
Qed.

(** X26: when [context::pipe] has built its pipes and then fails -- the
    driver's setup throws, or [init] cannot allocate -- it returns the
    negative code of the error and leaves the backend as it was, but the
    caller's [channel] has already been overwritten: it names the
    descriptors of the second pipe, which the destructor of the channel
    has closed by then. *)
Theorem pipe_failure_after_construction (os : Core.syscalls)
    (env : Context.attach_env) (reg : list Context.factory) (ifc : Z)
    (ch : channel) (pi : eia_tia_232_info) (b : Context.backend)
    (t : list Core.event) (desc : Libusb.device_descriptor)
    (d : Core.driver) (ctl ctl' : list control_request)
    (a0 a1 b0 b1 : Z) (r : result unit) :
  Context.validate_info pi = Ok tt ->
  Context.found env = Some desc ->
  Generic.run (Context.create env reg desc ifc) = (Ok d, ctl) ->
  Context.pipe_a env = Some (a0, a1) ->
  Context.pipe_b env = Some (b0, b1) ->
  Context.drv_setup (Context.usb env) d pi ctl = (r, ctl') ->
  (forall e, r = Throw e ->
   Context.context_pipe os env reg ifc ch pi b t =
   (neg_err e,
    {| Context.returned := Throw e;
       Context.ex := {| fd_read := b0; fd_write := b1 |};
       Context.backend' := b;
       Context.trace := t ++ map Core.SysClose [b0; b1; a0; b1];
       Context.controls := ctl' |})) /\
  (r = Ok tt -> Context.alloc_ok env = false ->
   Context.context_pipe os env reg ifc ch pi b t =
   (neg_err out_of_memory,
    {| Context.returned := Throw out_of_memory;
       Context.ex := {| fd_read := b0; fd_write := b1 |};
       Context.backend' := b;
       Context.trace := t ++ map Core.SysClose [b0; b1; a0; b1];
       Context.controls := ctl' |})).
Proof.
  intros Hv Hf Hc Ha Hb Hs.
  unfold Context.context_pipe, Context.attach.
  rewrite Hv, Hf, Hc, Ha, Hb.
  unfold Context.pipe_channel_ctor, Context.bipipe.
  cbn [map app fd_read fd_write]. rewrite app_nil_r, Hs.
  split.
  - intros e ->. reflexivity.
  - intros -> Hal. unfold Context.init. cbn [Context.base_of Context.base].
    rewrite Hal. cbn [negb]. reflexivity.
Qed.

Lemma pipe_failure_after_construction_witness :
  Context.context_pipe quiet_os (starved_env ft232r) registrar 0
    {| fd_read := 0; fd_write := 1 |} _115200_8N1n empty_backend [] =
  (-20,
   {| Context.returned := Throw out_of_memory;
      Context.ex := {| fd_read := 5; fd_write := 6 |};
      Context.backend' := empty_backend;
      Context.trace :=
        [Core.SysClose 5; Core.SysClose 6; Core.SysClose 3; Core.SysClose 6];
      Context.controls := ftdi_setup_requests plain_ftdi _115200_8N1n |}).
Proof.
  apply (proj2 (pipe_failure_after_construction quiet_os (starved_env ft232r)
                  registrar 0 {| fd_read := 0; fd_write := 1 |} _115200_8N1n
                  empty_backend [] ft232r (Core.Ftdi_driver plain_ftdi) []
                  (ftdi_setup_requests plain_ftdi _115200_8N1n) 3 4 5 6
                  (Ok tt) eq_refl eq_refl eq_refl eq_refl eq_refl eq_refl)).
  - reflexivity.
  - reflexivity.
Defined.

(** ** The file channel: hang-up of a pipe *)

Lemma request_removal_run (enforce : bool) (ch : Core.file_channel)
    (t : list Core.event) :
  Core.request_removal enforce ch t =
  if (Core.device_hangup ch || enforce)
     || (Core.pipein_hangup ch && Core.pipeout_hangup ch)
  then
    (tt,
     snd (fst (Core.close
                 (Core.set_flag ch Core.Device_hangup
                    (Core.device_hangup ch || enforce)) t)),
     snd (Core.close
            (Core.set_flag ch Core.Device_hangup
               (Core.device_hangup ch || enforce)) t)
     ++ [Core.OwnerRequestRemoval])
  else
    (tt, Core.set_flag ch Core.Device_hangup
           (Core.device_hangup ch || enforce), t).
Proof.
  unfold Core.request_removal. run_M.
  cbn [Core.set_flag Core.device_hangup Core.pipein_hangup
       Core.pipeout_hangup].
  destruct ((Core.device_hangup ch || enforce)
            || (Core.pipein_hangup ch && Core.pipeout_hangup ch));
    cbn [Core.when]; [| reflexivity].
  run_M. unfold Core.M_bind.
  destruct (Core.close _ t) as [[r c2] t2]. reflexivity.
Qed.

(** X27: a POLLHUP event on a descriptor marks the pipe of that
    descriptor as hung up.  The channel asks its owner for removal on
    that event exactly when the device is already given up or the other
    pipe has hung up before; with the other pipe still open the channel
    stays. *)
Theorem hangup_event_outcome (events : Z) (read : bool)
    (ch : Core.file_channel) (t : list Core.event) :
  Z.land events Core.POLLHUP <> 0 ->
  exists evs : list Core.event,
    snd (Core.set_events events read ch t) = t ++ evs /\
    (if read then Core.pipein_hangup (snd (fst (Core.set_events events read
                                                  ch t)))
     else Core.pipeout_hangup (snd (fst (Core.set_events events read ch t))))
      = true /\
    (In Core.OwnerRequestRemoval evs <->
     Core.device_hangup ch = true \/
     (if read then Core.pipeout_hangup ch else Core.pipein_hangup ch) = true).
Proof.
  intros Hh.
  assert (Hrun : exists c1 : Core.file_channel,
    Core.set_events events read ch t =
    Core.request_removal false
      (Core.set_flag c1 (if read then Core.Pipein_hangup
                         else Core.Pipeout_hangup) true) t /\
    Core.device_hangup c1 = Core.device_hangup ch /\
    Core.pipein_hangup c1 = Core.pipein_hangup ch /\
    Core.pipeout_hangup c1 = Core.pipeout_hangup ch).
  { unfold Core.set_events.
    destruct (Z.eqb_spec (Z.land events Core.POLLHUP) 0); [contradiction |].
    destruct (Z.land events Core.POLLIN =? 0),
      (Z.land events Core.POLLOUT =? 0); cbn [negb]; run_M;
      eexists; (split; [reflexivity | repeat split; reflexivity]). }
  destruct Hrun as (c1 & E & Hd & Hi & Ho). rewrite E.
  rewrite request_removal_run. rewrite Bool.orb_false_r.
  set (c2 := Core.set_flag c1 (if read then Core.Pipein_hangup
                               else Core.Pipeout_hangup) true).
  assert (Hc2 : Core.device_hangup c2 = Core.device_hangup ch /\
                Core.pipein_hangup c2
                  = (if read then true else Core.pipein_hangup ch) /\
                Core.pipeout_hangup c2
                  = (if read then Core.pipeout_hangup ch else true)).
  { subst c2. destruct read; cbn; auto. }
  destruct Hc2 as (Hd2 & Hi2 & Ho2).
  assert (Hset : Core.set_flag c2 Core.Device_hangup (Core.device_hangup c2)
                 = c2).
  { destruct c2. reflexivity. }
  rewrite Hset, Hd2, Hi2, Ho2.
  destruct (close_spec c2 t) as (r & c3 & evs & Ec & Hs & Hk).
  destruct (close_flags c2 t) as (Hi3 & Ho3 & _). rewrite Ec in Hi3, Ho3.
  cbn [fst snd] in Hi3, Ho3.
  destruct (Core.device_hangup ch) eqn:Edh; cbn [orb].
  - rewrite Ec. cbn [fst snd]. exists (evs ++ [Core.OwnerRequestRemoval]).
    split; [rewrite app_assoc; reflexivity |].
    split; [destruct read; assumption |].
    split; [auto |]. intros _. apply in_or_app. right. left. reflexivity.
  - destruct read.
    + cbn [andb]. destruct (Core.pipeout_hangup ch) eqn:Eo.
      * rewrite Ec. cbn [fst snd].
        exists (evs ++ [Core.OwnerRequestRemoval]).
        split; [rewrite app_assoc; reflexivity |].
        split; [assumption |].
        split; [auto |]. intros _. apply in_or_app. right. left. reflexivity.
      * cbn [fst snd]. exists []. rewrite app_nil_r.
        split; [reflexivity |]. split; [exact Hi2 |].
        split; [intros [] | intros [H | H]; discriminate H].
    + rewrite Bool.andb_true_r. destruct (Core.pipein_hangup ch) eqn:Ei.
      * rewrite Ec. cbn [fst snd].
        exists (evs ++ [Core.OwnerRequestRemoval]).
        split; [rewrite app_assoc; reflexivity |].
        split; [assumption |].
        split; [auto |]. intros _. apply in_or_app. right. left. reflexivity.
      * cbn [fst snd]. exists []. rewrite app_nil_r.
        split; [reflexivity |]. split; [exact Ho2 |].
        split; [intros [] | intros [H | H]; discriminate H].
Qed.

Lemma hangup_event_outcome_witness :
  exists evs : list Core.event,
    snd (Core.set_events Core.POLLHUP true started_ftdi_channel [])
      = [] ++ evs /\
    Core.pipein_hangup
      (snd (fst (Core.set_events Core.POLLHUP true started_ftdi_channel [])))
      = true /\
    (In Core.OwnerRequestRemoval evs <->
     Core.device_hangup started_ftdi_channel = true \/
     Core.pipeout_hangup started_ftdi_channel = true).
Proof.
  apply (hangup_event_outcome Core.POLLHUP true started_ftdi_channel []).
  vm_compute. discriminate.
Defined.

(** ** The file channel: a write that fails *)

(** X28: what [writepipe] makes of a [write] that transfers nothing.
    With [EAGAIN] or [EINTR], or with a result of 0 and [errno] 0, the
    channel is left exactly as it was: the bytes stay pending, nothing is
    submitted and the owner is not asked to poll the descriptor.  With
    any other [errno] the output pipe is marked hung up, so [status]
    loses [write_pipe_ok], and again nothing is submitted or polled. *)
Theorem writepipe_failure_outcomes (os : Core.syscalls) (p : Core.xfer_ptr)
    (ch : Core.file_channel) (t : list Core.event) (k errno : Z) :
  Core.idx (Core.readxfer_busy ch) (Core.is1 p) = false ->
  0 < pending_bytes ch p < 2^16 ->
  write_answer os ch p t = (k, errno) ->
  k <= 0 ->
  (errno = EAGAIN \/ errno = EINTR \/ (errno = 0 /\ k = 0) ->
   Core.writepipe os p ch t = (tt, ch, t ++ [write_call ch p])) /\
  (errno <> EAGAIN -> errno <> EINTR -> errno <> 0 \/ k <> 0 ->
   exists evs : list Core.event,
     snd (Core.writepipe os p ch t) = t ++ write_call ch p :: evs /\
     forallb housekeeping evs = true /\
     Core.pipeout_hangup (snd (fst (Core.writepipe os p ch t))) = true /\
     Z.land (Core.status (snd (fst (Core.writepipe os p ch t))))
            write_pipe_ok = 0).
Proof.
  intros Hb Hn Hans Hk.
  rewrite (writepipe_answered os p ch t Hb Hn), Hans.
  destruct (Z.leb_spec k 0); [| lia]. run_M.
  split.
  - intros He. unfold Core.M_bind, Core.is_error.
    destruct (Z.ltb_spec 0 k); [lia |].
    destruct He as [-> | [-> | [-> ->]]]; reflexivity.
  - intros Ha Hi H0.
    assert (Hrun : Core.is_error errno k ch (t ++ [write_call ch p]) =
                   (true,
                    snd (fst (Core.request_removal false ch
                                (t ++ [write_call ch p]))),
                    snd (Core.request_removal false ch
                           (t ++ [write_call ch p])))).
    { unfold Core.is_error.
      destruct (Z.eqb_spec errno EAGAIN); [contradiction |].
      destruct (Z.eqb_spec errno EINTR); [contradiction |].
      destruct (Z.eqb_spec errno 0), (Z.eqb_spec k 0); cbn [andb];
        try (exfalso; destruct H0; contradiction);
        run_M; unfold Core.M_bind;
        destruct (Core.request_removal false ch _) as [[[] c2] t2];
        reflexivity. }
    unfold Core.M_bind. rewrite Hrun.
    destruct (request_removal_spec false ch (t ++ [write_call ch p]))
      as (c2 & evs & E & Hs & Hh).
    rewrite E. cbn [fst snd]. run_M.
    exists evs. rewrite <- app_assoc. cbn [app fst snd].
    split; [reflexivity |]. split; [exact Hh |].
    unfold Core.status. cbn [Core.set_flag Core.pipeout_hangup
                             Core.pipein_hangup Core.device_hangup].
    split; [reflexivity |].
    destruct (Core.pipein_hangup c2), (Core.device_hangup c2); reflexivity.
Qed.

Lemma writepipe_failure_outcomes_witness :
  Core.writepipe
    {| Core.sys_write := fun _ _ _ _ => (-1, EAGAIN);
       Core.sys_read := fun _ _ _ => (-1, EAGAIN, []);
       Core.libusb_submit_transfer := fun _ _ => 0 |}
    Core.Rd0 channel_holding_hello [] =
  (tt, channel_holding_hello,
   [] ++ [write_call channel_holding_hello Core.Rd0]).
Proof.
  apply (proj1 (writepipe_failure_outcomes
                  {| Core.sys_write := fun _ _ _ _ => (-1, EAGAIN);
                     Core.sys_read := fun _ _ _ => (-1, EAGAIN, []);
                     Core.libusb_submit_transfer := fun _ _ => 0 |}
                  Core.Rd0 channel_holding_hello [] (-1) EAGAIN
                  eq_refl ltac:(vm_compute; split; reflexivity)
                  eq_refl ltac:(lia))).
  left. reflexivity.
Defined.
